(** * business-portal: the request handlers, the backup and the timers of server.js

    A shallow embedding of the request handlers of [src/server.js], of its
    route table and backup timer, and of the parts of the JavaScript runtime
    they rely on (Date arithmetic, Number to String conversion, [parseFloat],
    object property assignment), followed by the properties of the
    specification stated over that embedding and by further properties of
    the code.

    Conventions.
    - A JavaScript number is an IEEE 754 binary64 value: Rocq's primitive
      [float].  Integers the runtime computes exactly (time values, calendar
      fields, row counts) are kept in [Z], with NaN as [None].
    - A string is a sequence of bytes (UTF-8), which is also how SQLite's
      BINARY collation compares TEXT values.
    - The SQLite tables are lists of rows in rowid order, typed as the schema
      declares the columns.
    - The file system is a set of directories and a map from paths to file
      contents.  SQLite keeps the tables in the file at DB_PATH, which it
      rewrites when an INSERT or a DELETE has run; what it writes there is a
      function of the tables ([sqlite_image]).
    - An exception no handler catches ends the process: no later event is
      served. *)

From Stdlib Require Import ZArith Floats String Ascii List Lia Bool DecimalString OrderedTypeEx.
From stdpp Require Import gmap strings list sorting.

Set Warnings "-inexact-float,-register-all".

Local Open Scope string_scope.
Local Open Scope Z_scope.

(** ** Strings *)

Module Str.

(** The decimal rendering of an integer, as Number::toString gives it for an
    integral value below 10^21 in magnitude. *)
Definition of_Z (z : Z) : string := NilZero.string_of_int (Z.to_int z).

(** [String.prototype.padStart(width, "0")]. *)
Definition padStart0 (width : nat) (s : string) : string :=
  String.concat EmptyString (repeat "0" (width - String.length s)) ++ s.

Definition dquote : string := String (ascii_of_nat 34) EmptyString.
Definition newline : string := String (ascii_of_nat 10) EmptyString.

End Str.

(** ** The ECMAScript calendar (ECMA-262, Date objects) *)

Module Calendar.

Definition msPerDay : Z := 86400000.

Definition Day (t : Z) : Z := t / msPerDay.
Definition TimeWithinDay (t : Z) : Z := t mod msPerDay.

(** Days in a 400-year cycle of the proleptic Gregorian calendar. *)
Definition daysPerEra : Z := 146097.

(** Day number (days since 1970-01-01) of the civil date [y]-[m]-[d], with
    [m] in 1..12; years are counted from March so that the leap day is the
    last day of the shifted year. *)
Definition days_from_civil (y m d : Z) : Z :=
  let y' := if m <=? 2 then y - 1 else y in
  let era := y' / 400 in
  let yoe := y' mod 400 in
  let mp := if 2 <? m then m - 3 else m + 9 in
  let doy := (153 * mp + 2) / 5 + d - 1 in
  let doe := yoe * 365 + yoe / 4 - yoe / 100 + doy in
  era * daysPerEra + doe - 719468.

(** The civil date within a 400-year cycle of a day [doe] of that cycle:
    (year of the cycle counted from March, month 1..12, day 1..31). *)
Definition civil_of_doe (doe : Z) : Z * Z * Z :=
  let yoe := (doe - doe / 1460 + doe / 36524 - doe / 146096) / 365 in
  let doy := doe - (365 * yoe + yoe / 4 - yoe / 100) in
  let mp := (5 * doy + 2) / 153 in
  let d := doy - (153 * mp + 2) / 5 + 1 in
  let m := if mp <? 10 then mp + 3 else mp - 9 in
  (yoe, m, d).

(** The civil date (year, month 1..12, day) of a day number. *)
Definition civil_from_days (n : Z) : Z * Z * Z :=
  let z := n + 719468 in
  let era := z / daysPerEra in
  let '(yoe, m, d) := civil_of_doe (z mod daysPerEra) in
  (yoe + era * 400 + (if m <=? 2 then 1 else 0), m, d).

Definition YearFromTime (t : Z) : Z := (civil_from_days (Day t)).1.1.
(** Months are numbered from 0 (January) to 11. *)
Definition MonthFromTime (t : Z) : Z := (civil_from_days (Day t)).1.2 - 1.
Definition DateFromTime (t : Z) : Z := (civil_from_days (Day t)).2.

(** MakeDay(year, month, date): the month may lie outside 0..11 and the date
    outside the month; both carry over. *)
Definition MakeDay (year month date : Z) : Z :=
  let ym := year + month / 12 in
  let mn := month mod 12 in
  days_from_civil ym (mn + 1) 1 + date - 1.

Definition MakeDate (day time : Z) : Z := day * msPerDay + time.

(** TimeClip: a time value is at most 8.64e15 ms away from the epoch. *)
Definition TimeClip (t : Z) : option Z :=
  if Z.abs t <=? 8640000000000000 then Some t else None.

Definition HourFromTime (t : Z) : Z := (TimeWithinDay t) / 3600000.
Definition MinFromTime (t : Z) : Z := (TimeWithinDay t) / 60000 mod 60.
Definition SecFromTime (t : Z) : Z := (TimeWithinDay t) / 1000 mod 60.
Definition msFromTime (t : Z) : Z := t mod 1000.

End Calendar.


(** The calendar and the string functions are used folded. *)
#[global] Arguments Calendar.civil_from_days : simpl never.
#[global] Arguments Calendar.days_from_civil : simpl never.
#[global] Arguments Calendar.Day : simpl never.
#[global] Arguments Calendar.TimeWithinDay : simpl never.
#[global] Arguments Calendar.MakeDay : simpl never.
#[global] Arguments Calendar.MakeDate : simpl never.
#[global] Arguments Calendar.TimeClip : simpl never.
#[global] Arguments Calendar.YearFromTime : simpl never.
#[global] Arguments Calendar.MonthFromTime : simpl never.
#[global] Arguments Calendar.DateFromTime : simpl never.
#[global] Arguments Str.of_Z : simpl never.
#[global] Arguments Str.padStart0 : simpl never.

(** ** JavaScript numbers *)

Module Number.

Definition NaN : float := PrimFloat.nan.
Definition isNaN (x : float) : bool := negb (PrimFloat.eqb x x).

(** The binary64 value nearest to [num / den] (ties to even), for
    [0 <= num] and [0 < den]: the quotient is taken with at least 62 bits
    and a sticky bit, then rounded once. *)
Definition of_ratio (num den : Z) : float :=
  if num <=? 0 then 0%float
  else
    let sh := Z.max 0 (Z.log2 den - Z.log2 num + 64) in
    let q := (num * 2 ^ sh) / den in
    let sticky := if (num * 2 ^ sh) mod den =? 0 then 0 else 1 in
    SF2Prim (binary_normalize prec emax (2 * q + sticky) (- sh - 1) false).

(** The Number value of the decimal [s * 10^p], [0 <= s]. *)
Definition of_decimal (s p : Z) : float :=
  if 0 <=? p then of_ratio (s * 10 ^ p) 1 else of_ratio s (10 ^ (- p)).

(** The Number value of an integer. *)
Definition of_Z (z : Z) : float :=
  if z <? 0 then PrimFloat.opp (of_ratio (- z) 1) else of_ratio z 1.

(** The exact value [num / den] of a positive finite float. *)
Definition ratio_of (x : float) : option (Z * Z) :=
  match Prim2SF x with
  | S754_finite false m e =>
      Some (if 0 <=? e then (Zpos m * 2 ^ e, 1) else (Zpos m, 2 ^ (- e)))
  | _ => None
  end.

(** ToIntegerOrInfinity followed by the finiteness test of TimeClip: the
    integer part of a finite number, [None] for NaN and the infinities. *)
Definition to_integer (x : float) : option Z :=
  match Prim2SF x with
  | S754_zero _ => Some 0
  | S754_finite sgn m e =>
      let a := if 0 <=? e then Zpos m * 2 ^ e else Zpos m / 2 ^ (- e) in
      Some (if sgn then - a else a)
  | _ => None
  end.

Definition ndigits (z : Z) : Z := Z.of_nat (String.length (Str.of_Z z)).

(** The decimal exponent [n] of [num / den > 0]:
    [10^(n-1) <= num / den < 10^n]. *)
Definition dec_exponent (num den : Z) : Z :=
  if den <=? num then ndigits (num / den)
  else 1 - ndigits ((den + num - 1) / num - 1).

(** The candidates with [k] digits for the value [num / den] of [x], whose
    decimal exponent is [n]: the integers [s] next to [num / den * 10^(k-n)],
    the nearer one first. *)
Definition candidates (num den n k : Z) : list Z :=
  let '(a, b) := if 0 <=? k - n then (num * 10 ^ (k - n), den)
                 else (num, den * 10 ^ (n - k)) in
  let lo := a / b in
  let r := a mod b in
  if (2 * r <? b) || ((2 * r =? b) && Z.even lo) then [lo; lo + 1] else [lo + 1; lo].

(** Number::toString, step 5: the least [k] and an [s] of [k] digits with
    [s * 10^(n-k)] rounding to [x].  Seventeen digits always suffice for a
    binary64 value. *)
Fixpoint shortest (x : float) (num den n : Z) (fuel : nat) (k : Z) : Z * Z :=
  let cs := candidates num den n k in
  match List.filter (fun s => PrimFloat.eqb (of_decimal s (n - k)) x) cs with
  | s :: _ => (s, k)
  | [] =>
      match fuel with
      | O => (hd 0 cs, k)
      | S fuel' => shortest x num den n fuel' (k + 1)
      end
  end.

Definition zeros (n : Z) : string := String.concat EmptyString (repeat "0" (Z.to_nat n)).

Definition exponent_part (n : Z) : string :=
  "e" ++ (if 0 <=? n - 1 then "+" else "-") ++ Str.of_Z (Z.abs (n - 1)).

(** Number::toString for a positive finite [x] with digits [s] ([k] of them)
    and decimal exponent [n] (steps 6 to 10). *)
Definition render (s k n : Z) : string :=
  let ds := Str.of_Z s in
  if (k <=? n) && (n <=? 21) then ds ++ zeros (n - k)
  else if (0 <? n) && (n <=? 21) then
    substring 0 (Z.to_nat n) ds ++ "." ++ substring (Z.to_nat n) (Z.to_nat (k - n)) ds
  else if (-6 <? n) && (n <=? 0) then "0." ++ zeros (- n) ++ ds
  else if k =? 1 then ds ++ exponent_part n
  else substring 0 1 ds ++ "." ++ substring 1 (Z.to_nat (k - 1)) ds ++ exponent_part n.

Definition toString_pos (x : float) : string :=
  match ratio_of x with
  | Some (num, den) =>
      let n := dec_exponent num den in
      let '(s, k) := shortest x num den n 16 1 in
      (* a candidate [10^k] is the digit 1 with the next exponent *)
      if s =? 10 ^ k then render 1 1 (n + 1) else render s k n
  | None => "Infinity"
  end.

(** Number::toString(x), radix 10. *)
Definition toString (x : float) : string :=
  if isNaN x then "NaN"
  else if PrimFloat.eqb x 0 then "0"
  else if PrimFloat.ltb x 0 then "-" ++ toString_pos (PrimFloat.opp x)
  else toString_pos x.

(** ** [parseFloat] on strings *)

Definition is_digit (c : ascii) : bool :=
  let n := nat_of_ascii c in (48 <=? n)%nat && (n <=? 57)%nat.

Definition digit_val (c : ascii) : Z := Z.of_nat (nat_of_ascii c) - 48.

(** StrWhiteSpaceChar (ECMA-262, WhiteSpace and LineTerminator) in UTF-8.
    One byte: TAB, LF, VT, FF, CR and the space. *)
Definition is_space (c : ascii) : bool :=
  let n := nat_of_ascii c in
  (n =? 32)%nat || ((9 <=? n)%nat && (n <=? 13)%nat).

(** Two bytes: U+00A0, the no-break space. *)
Definition is_space2 (c1 c2 : ascii) : bool :=
  (nat_of_ascii c1 =? 194)%nat && (nat_of_ascii c2 =? 160)%nat.

(** Three bytes: U+1680, U+2000 to U+200A, the line and paragraph separators
    U+2028 and U+2029, U+202F, U+205F, U+3000, and the byte order mark
    U+FEFF. *)
Definition is_space3 (c1 c2 c3 : ascii) : bool :=
  let n1 := nat_of_ascii c1 in
  let n2 := nat_of_ascii c2 in
  let n3 := nat_of_ascii c3 in
  ((n1 =? 225) && (n2 =? 154) && (n3 =? 128))%nat
  || ((n1 =? 226) && (n2 =? 128)
      && (((128 <=? n3) && (n3 <=? 138)) || (n3 =? 168) || (n3 =? 169) || (n3 =? 175)))%nat
  || ((n1 =? 226) && (n2 =? 129) && (n3 =? 159))%nat
  || ((n1 =? 227) && (n2 =? 128) && (n3 =? 128))%nat
  || ((n1 =? 239) && (n2 =? 187) && (n3 =? 191))%nat.

(** TrimString(s, start): [s] without the white space it starts with. *)
Fixpoint trim_start (s : string) : string :=
  match s with
  | String c1 r1 =>
      if is_space c1 then trim_start r1
      else
        match r1 with
        | String c2 r2 =>
            if is_space2 c1 c2 then trim_start r2
            else
              match r2 with
              | String c3 r3 => if is_space3 c1 c2 c3 then trim_start r3 else s
              | EmptyString => s
              end
        | EmptyString => s
        end
  | EmptyString => s
  end.

(** The longest run of decimal digits at the head of [s]: its value, its
    length, and the rest. *)
Fixpoint read_digits (s : string) (acc : Z) (len : Z) : Z * Z * string :=
  match s with
  | String c r => if is_digit c then read_digits r (10 * acc + digit_val c) (len + 1)
                  else (acc, len, s)
  | EmptyString => (acc, len, s)
  end.

(** An exponent part [e], [e+] or [e-] followed by digits, if [s] starts
    with one; otherwise 0 (the prefix ends before it). *)
Definition read_exponent (s : string) : Z :=
  match s with
  | String c r =>
      if (nat_of_ascii c =? 101)%nat || (nat_of_ascii c =? 69)%nat then
        let '(sgn, r') :=
          match r with
          | String "+" r' => (1, r')
          | String "-" r' => (-1, r')
          | _ => (1, r)
          end in
        let '(e, len, _) := read_digits r' 0 0 in
        if len =? 0 then 0 else sgn * e
      else 0
  | EmptyString => 0
  end.

(** The value of the longest prefix of [s] that is an unsigned
    StrDecimalLiteral, NaN when there is none. *)
Definition read_unsigned (s : string) : float :=
  if String.prefix "Infinity" s then PrimFloat.infinity
  else
    let '(ip, ilen, r) := read_digits s 0 0 in
    match r with
    | String "." r' =>
        let '(fp, flen, r'') := read_digits r' 0 0 in
        if (ilen =? 0) && (flen =? 0) then NaN
        else of_decimal (ip * 10 ^ flen + fp) (read_exponent r'' - flen)
    | _ => if ilen =? 0 then NaN else of_decimal ip (read_exponent r)
    end.

Definition parseFloat_string (s : string) : float :=
  match trim_start s with
  | String "-" r => PrimFloat.opp (read_unsigned r)
  | String "+" r => read_unsigned r
  | t => read_unsigned t
  end.

End Number.


(** ** JavaScript values *)

(** The primitive values a field of a JSON request body can hold, with
    [JUndefined] for a field that is absent.  Arrays and objects as field
    values are outside the model. *)
Inductive jsval :=
| JUndefined
| JNull
| JBool (b : bool)
| JNum (x : float)
| JStr (s : string).

(** ToBoolean. *)
Definition truthy (v : jsval) : bool :=
  match v with
  | JUndefined | JNull => false
  | JBool b => b
  | JNum x => negb (PrimFloat.eqb x 0 || Number.isNaN x)
  | JStr s => negb (String.eqb s EmptyString)
  end.

(** [a || b]. *)
Definition js_or (a b : jsval) : jsval := if truthy a then a else b.

(** ToString on primitives. *)
Definition ToString (v : jsval) : string :=
  match v with
  | JUndefined => "undefined"
  | JNull => "null"
  | JBool true => "true"
  | JBool false => "false"
  | JNum x => Number.toString x
  | JStr s => s
  end.

(** [parseFloat(v)] parses ToString(v).  For a number the digits that
    Number::toString prints read back as that number (ECMA-262,
    Number::toString, step 5), and negative zero prints as "0". *)
Definition parseFloat (v : jsval) : float :=
  match v with
  | JNum x => if PrimFloat.eqb x 0 then 0%float else x
  | _ => Number.parseFloat_string (ToString v)
  end.

(** A value as [res.json] receives it. *)
Inductive json :=
| JVal (v : jsval)
| JArr (items : list json)
| JObj (fields : list (string * json)).

(** ** The SQLite tables (server.js, lines 48-70) *)

Module Transaction.
Record row := {
  id : Z;
  customerName : string;
  phoneNumber : string;
  service : string;
  amountPaid : float;
  serviceBy : string;
  expenses : float;
  date : string;
  timestamp : string
}.
End Transaction.

Module Message.
Record row := {
  id : Z;
  text : string;
  sender : string;
  timestamp : string;
  time : string
}.
End Message.

(** Both tables in rowid order, each with the largest rowid it has ever
    handed out (AUTOINCREMENT keeps it across deletions). *)
Record Database := {
  transactions : list Transaction.row;
  transactions_seq : Z;
  messages : list Message.row;
  messages_seq : Z
}.

(** ** The runtime environment *)

Record Runtime := {
  (** offset of local time from UTC, in milliseconds; taken constant (no
      daylight-saving transitions) *)
  LocalTZA : Z;
  (** [Date.parse]: the time value a string denotes, [None] for NaN; only
      its ISO format is fixed by ECMA-262 *)
  Date_parse : string -> option Z;
  (** [process.env.DB_PATH] and [process.env.DB_BACKUP_PATH] *)
  env_DB_PATH : option string;
  env_DB_BACKUP_PATH : option string;
  (** the bytes SQLite leaves in the database file when a statement has
      changed a table: a function of the bytes it found ([None] when the
      file was not there) and of the tables after the statement *)
  sqlite_image : option string -> Database -> string
}.

(** [process.env.X || fallback]: an unset or empty variable gives the fallback. *)
Definition env_or (v : option string) (fallback : string) : string :=
  match v with
  | Some s => if String.eqb s EmptyString then fallback else s
  | None => fallback
  end.

(** ** Date objects *)

(** The time value of a Date object: milliseconds since the epoch, UTC;
    [None] is NaN (an invalid Date). *)
Definition Date := option Z.

(** A number that is an integer or NaN, as the getters of Date return. *)
Definition intnum := option Z.

Definition intnum_add (a : intnum) (k : Z) : intnum := (fun z => z + k) <$> a.

(** String(n). *)
Definition intnum_toString (a : intnum) : string :=
  match a with
  | Some z => Str.of_Z z
  | None => "NaN"
  end.

(** What [new Date(...)] is applied to in server.js: a Date object or a
    value of the request body. *)
Inductive date_source :=
| OfDate (d : Date)
| OfValue (v : jsval).

Section DateObjects.

Variable rt : Runtime.

Definition LocalTime (t : Z) : Z := t + LocalTZA rt.
Definition UTC (t : Z) : Z := t - LocalTZA rt.

(** [new Date(value)]. *)
Definition new_Date (a : date_source) : Date :=
  match a with
  | OfDate d => d
  | OfValue (JStr s) => Date_parse rt s
  | OfValue (JNum x) => Number.to_integer x ≫= Calendar.TimeClip
  | OfValue (JBool b) => Some (if b then 1 else 0)
  | OfValue JNull => Some 0
  | OfValue JUndefined => None
  end.

Definition getFullYear (d : Date) : intnum :=
  (fun t => Calendar.YearFromTime (LocalTime t)) <$> d.
Definition getMonth (d : Date) : intnum :=
  (fun t => Calendar.MonthFromTime (LocalTime t)) <$> d.
Definition getDate (d : Date) : intnum :=
  (fun t => Calendar.DateFromTime (LocalTime t)) <$> d.

(** [d.setDate(dt)]: the Date after the call. *)
Definition setDate (d : Date) (dt : intnum) : Date :=
  t ← d; dt ← dt;
  let t := LocalTime t in
  Calendar.TimeClip (UTC (Calendar.MakeDate
    (Calendar.MakeDay (Calendar.YearFromTime t) (Calendar.MonthFromTime t) dt)
    (Calendar.TimeWithinDay t))).

(** [d.setMonth(month)]. *)
Definition setMonth (d : Date) (month : intnum) : Date :=
  t ← d; m ← month;
  let t := LocalTime t in
  Calendar.TimeClip (UTC (Calendar.MakeDate
    (Calendar.MakeDay (Calendar.YearFromTime t) m (Calendar.DateFromTime t))
    (Calendar.TimeWithinDay t))).

(** [d.setFullYear(year)]: an invalid Date counts as time 0. *)
Definition setFullYear (d : Date) (year : intnum) : Date :=
  y ← year;
  let t := match d with Some t => LocalTime t | None => 0 end in
  Calendar.TimeClip (UTC (Calendar.MakeDate
    (Calendar.MakeDay y (Calendar.MonthFromTime t) (Calendar.DateFromTime t))
    (Calendar.TimeWithinDay t))).

(** server.js, lines 16-22. *)
Definition formatDate (date : date_source) : string :=
  let d := new_Date date in
  let year := getFullYear d in
  let month := Str.padStart0 2 (intnum_toString (intnum_add (getMonth d) 1)) in
  let day := Str.padStart0 2 (intnum_toString (getDate d)) in
  intnum_toString year ++ "-" ++ month ++ "-" ++ day.

End DateObjects.

(** The year of [toISOString]: four digits from 0 to 9999, otherwise a sign
    and six digits. *)
Definition iso_year (y : Z) : string :=
  if (0 <=? y) && (y <=? 9999) then Str.padStart0 4 (Str.of_Z y)
  else (if y <? 0 then "-" else "+") ++ Str.padStart0 6 (Str.of_Z (Z.abs y)).

(** The part of [toISOString()] before the [T]: the UTC calendar date. *)
Definition iso_date (t : Z) : string :=
  let '(y, m, d) := Calendar.civil_from_days (Calendar.Day t) in
  iso_year y ++ "-" ++ Str.padStart0 2 (Str.of_Z m) ++ "-" ++ Str.padStart0 2 (Str.of_Z d).

Definition iso_time (t : Z) : string :=
  Str.padStart0 2 (Str.of_Z (Calendar.HourFromTime t)) ++ ":" ++
  Str.padStart0 2 (Str.of_Z (Calendar.MinFromTime t)) ++ ":" ++
  Str.padStart0 2 (Str.of_Z (Calendar.SecFromTime t)) ++ "." ++
  Str.padStart0 3 (Str.of_Z (Calendar.msFromTime t)).

(** [new Date().toISOString()] at the clock reading [t]. *)
Definition toISOString (t : Z) : string := iso_date t ++ "T" ++ iso_time t ++ "Z".

(** [s.split('T')[0]]: the text before the first [T]. *)
Fixpoint split_T_0 (s : string) : string :=
  match s with
  | String c r => if Ascii.eqb c "T" then EmptyString else String c (split_T_0 r)
  | EmptyString => EmptyString
  end.

(** A reader of the two ISO forms server.js itself produces and a date
    input sends, [YYYY-MM-DD] and [YYYY-MM-DDTHH:mm:ss.sssZ] (both UTC), which
    [Date.parse] reads the same way.  It stands in for [Date.parse] where
    the handlers are run on concrete requests, and reads nothing else:
    [Date.parse] itself reads more forms, and the properties take it as the
    parameter [Date_parse] of the runtime. *)
Definition iso_field (s : string) (from len : nat) : option Z :=
  let f := substring from len s in
  if (String.length f =? len)%nat && forallb Number.is_digit (list_ascii_of_string f)
  then Some (Number.read_digits f 0 0).1.1 else None.

Definition iso_Date_parse (s : string) : option Z :=
  y ← iso_field s 0 4; m ← iso_field s 5 2; d ← iso_field s 8 2;
  if negb ((String.eqb (substring 4 1 s) "-") && (String.eqb (substring 7 1 s) "-")
           && (1 <=? m) && (m <=? 12) && (1 <=? d) && (d <=? 31)) then None
  else
    let day := Calendar.days_from_civil y m d in
    if (String.length s =? 10)%nat then Some (Calendar.MakeDate day 0)
    else
      h ← iso_field s 11 2; mi ← iso_field s 14 2; sec ← iso_field s 17 2;
      ms ← iso_field s 20 3;
      if (String.length s =? 24)%nat && (String.eqb (substring 10 1 s) "T")
         && (String.eqb (substring 13 1 s) ":") && (String.eqb (substring 16 1 s) ":")
         && (String.eqb (substring 19 1 s) ".") && (String.eqb (substring 23 1 s) "Z")
         && (h <=? 23) && (mi <=? 59) && (sec <=? 59)
      then Some (Calendar.MakeDate day (((h * 60 + mi) * 60 + sec) * 1000 + ms))
      else None.


(** ** The statements over the tables *)

(** [ORDER BY] as SQLite's sorter runs it: the rows are sorted on the
    ordering term, and rows that are equal on it stay in the order in which
    the scan of the table produced them, which is the order of the rowids.
    [R x y] reads: [x] may stand before [y]. *)
Section OrderBy.

Context {A : Type} (R : A -> A -> Prop) `{!forall x y, Decision (R x y)}.

(** [x], which the scan produced before the rows of the sorted list [l],
    goes before the first of them it may stand before. *)
Fixpoint order_insert (x : A) (l : list A) : list A :=
  match l with
  | [] => [x]
  | y :: l' => if decide (R x y) then x :: l else y :: order_insert x l'
  end.

Definition order_by (rows : list A) : list A := foldr order_insert [] rows.

End OrderBy.

(** [ORDER BY timestamp DESC] under the BINARY collation. *)
Definition newer_first (a b : Transaction.row) : Prop :=
  String.leb (Transaction.timestamp b) (Transaction.timestamp a) = true.

#[local] Instance newer_first_dec a b : Decision (newer_first a b).
Proof. unfold newer_first. apply _. Defined.

Definition order_by_timestamp_desc (rows : list Transaction.row) : list Transaction.row :=
  order_by newer_first rows.

Definition where_date_eq (p : string) (rows : list Transaction.row) : list Transaction.row :=
  List.filter (fun r => String.eqb (Transaction.date r) p) rows.

Definition where_date_ge (p : string) (rows : list Transaction.row) : list Transaction.row :=
  List.filter (fun r => String.leb p (Transaction.date r)) rows.

(** [db.all(query, params, callback)] for the statements server.js builds over
    the transactions table: the rows handed to the callback, or [None] for
    its [err] (any other statement, or parameters that do not match the
    placeholders).  The engine itself is taken to be reachable. *)
Definition db_all (db : Database) (query : string) (params : list string)
  : option (list Transaction.row) :=
  let rows := transactions db in
  if String.eqb query "SELECT * FROM transactions" then
    match params with [] => Some rows | _ => None end
  else if String.eqb query "SELECT * FROM transactions ORDER BY timestamp DESC" then
    match params with [] => Some (order_by_timestamp_desc rows) | _ => None end
  else if String.eqb query "SELECT * FROM transactions WHERE date = ?" then
    match params with [p] => Some (where_date_eq p rows) | _ => None end
  else if String.eqb query "SELECT * FROM transactions WHERE date = ? ORDER BY timestamp DESC" then
    match params with [p] => Some (order_by_timestamp_desc (where_date_eq p rows)) | _ => None end
  else if String.eqb query "SELECT * FROM transactions WHERE date >= ?" then
    match params with [p] => Some (where_date_ge p rows) | _ => None end
  else if String.eqb query "SELECT * FROM transactions WHERE date >= ? ORDER BY timestamp DESC" then
    match params with [p] => Some (order_by_timestamp_desc (where_date_ge p rows)) | _ => None end
  else None.

(** ** Replies *)

Inductive reply :=
| Json (status : Z) (body : json)
| Csv (filename : string) (body : string)
| Threw.
(** [Csv]: status 200 with Content-Type text/csv and the attachment's file
    name.  [Threw]: an exception left a database callback, so no response
    was sent. *)

Definition jstr (s : string) : json := JVal (JStr s).
Definition jnum (x : float) : json := JVal (JNum x).

Definition row_json (r : Transaction.row) : json :=
  JObj [("id", jnum (Number.of_Z (Transaction.id r)));
        ("customerName", jstr (Transaction.customerName r));
        ("phoneNumber", jstr (Transaction.phoneNumber r));
        ("service", jstr (Transaction.service r));
        ("amountPaid", jnum (Transaction.amountPaid r));
        ("serviceBy", jstr (Transaction.serviceBy r));
        ("expenses", jnum (Transaction.expenses r));
        ("date", jstr (Transaction.date r));
        ("timestamp", jstr (Transaction.timestamp r))].

Definition error_json (msg : string) : json := JObj [("error", jstr msg)].

(** The message of the [err] of a failed statement, which the handlers pass
    on; its text is SQLite's. *)
Definition err_message : string := "SQLITE_ERROR".

(** A query-string parameter that is truthy: present and not empty. *)
Definition present (filter : option string) : bool :=
  match filter with
  | Some s => negb (String.eqb s EmptyString)
  | None => false
  end.

(** [filter === s] for a string [s]. *)
Definition filter_is (filter : option string) (s : string) : bool :=
  match filter with
  | Some f => String.eqb f s
  | None => false
  end.

(** [filter || 'all']. *)
Definition filter_or_all (filter : option string) : string :=
  if present filter then default EmptyString filter else "all".

(** ** The analytics object (server.js, lines 212-233) *)

(** An object whose own properties hold numbers: the keys with their values
    in creation order.  Its prototype is [Object.prototype].  (JSON lists
    keys that are array indices first; the order is used here only to add
    up the values.) *)
Definition object := list (string * float).

Definition hasOwn (o : object) (k : string) : bool :=
  existsb (fun kv => String.eqb kv.1 k) o.

Definition own_get (o : object) (k : string) : option float :=
  snd <$> List.find (fun kv => String.eqb kv.1 k) o.

(** [o[k] += x] for an own property [k]. *)
Fixpoint own_add (o : object) (k : string) (x : float) : object :=
  match o with
  | [] => []
  | (k', v) :: o' =>
      if String.eqb k' k then (k', (v + x)%float) :: o'
      else (k', v) :: own_add o' k x
  end.

(** [o.hasOwnProperty(k)].  The method is found on the prototype unless [o]
    has an own property of that name; here such a property holds a number,
    and calling it throws a TypeError ([None]). *)
Definition call_hasOwnProperty (o : object) (k : string) : option bool :=
  if hasOwn o "hasOwnProperty" then None else Some (hasOwn o k).

(** [o[k] = x] for a [k] that is not an own property: a new own property,
    except for [__proto__], whose setter on the prototype ignores a number. *)
Definition assign_new (o : object) (k : string) (x : float) : object :=
  if String.eqb k "__proto__" then o else (o ++ [(k, x)])%list.

Record AnalyticsSummary := {
  totalIncome : float;
  totalExpenses : float;
  netIncome : float;
  servicePerformance : object;
  transactionCount : Z
}.

(** The callback of [rows.forEach], lines 226-233. *)
Definition addService (sp : object) (transaction : Transaction.row) : option object :=
  own ← call_hasOwnProperty sp (Transaction.service transaction);
  if own : bool then
    Some (own_add sp (Transaction.service transaction) (Transaction.amountPaid transaction))
  else
    Some (assign_new sp (Transaction.service transaction) (Transaction.amountPaid transaction)).

Fixpoint forEach_addService (rows : list Transaction.row) (sp : object) : option object :=
  match rows with
  | [] => Some sp
  | transaction :: rows' => sp' ← addService sp transaction; forEach_addService rows' sp'
  end.

(** [rows.reduce((sum, t) => sum + f(t), 0)]. *)
Definition reduce_sum (f : Transaction.row -> float) (rows : list Transaction.row) : float :=
  fold_left (fun sum t => (sum + f t)%float) rows 0%float.

(** Lines 212-233: the object handed to [res.json], or [None] when the
    loop throws. *)
Definition computeAnalytics (rows : list Transaction.row) : option AnalyticsSummary :=
  let totalIncome := reduce_sum Transaction.amountPaid rows in
  let totalExpenses := reduce_sum Transaction.expenses rows in
  let netIncome := 0%float in
  let servicePerformance := [("Photography", 0%float); ("Makeup", 0%float); ("Product Sales", 0%float)] in
  let transactionCount := Z.of_nat (length rows) in
  let netIncome := (totalIncome - totalExpenses)%float in
  servicePerformance ← forEach_addService rows servicePerformance;
  Some {| totalIncome := totalIncome; totalExpenses := totalExpenses; netIncome := netIncome;
          servicePerformance := servicePerformance; transactionCount := transactionCount |}.

Definition analytics_json (a : AnalyticsSummary) : json :=
  JObj [("totalIncome", jnum (totalIncome a));
        ("totalExpenses", jnum (totalExpenses a));
        ("netIncome", jnum (netIncome a));
        ("servicePerformance", JObj (map (fun kv => (kv.1, jnum kv.2)) (servicePerformance a)));
        ("transactionCount", jnum (Number.of_Z (transactionCount a)))].

(** ** The CSV text (server.js, lines 379-384) *)

Definition csv_header : string :=
  "Date,Customer Name,Phone Number,Service,Amount Paid,Service By,Expenses,Net Profit,Timestamp"
  ++ Str.newline.

(** A template hole between double quotes. *)
Definition quoted (s : string) : string := Str.dquote ++ s ++ Str.dquote.

(** Lines 382-383: the text one row adds. *)
Definition csv_row (row : Transaction.row) : string :=
  let netProfit := (Transaction.amountPaid row - Transaction.expenses row)%float in
  quoted (Transaction.date row) ++ "," ++
  quoted (Transaction.customerName row) ++ "," ++
  quoted (Transaction.phoneNumber row) ++ "," ++
  quoted (Transaction.service row) ++ "," ++
  quoted (Number.toString (Transaction.amountPaid row)) ++ "," ++
  quoted (Transaction.serviceBy row) ++ "," ++
  quoted (Number.toString (Transaction.expenses row)) ++ "," ++
  quoted (Number.toString netProfit) ++ "," ++
  quoted (Transaction.timestamp row) ++ Str.newline.

(** Lines 379-384: the header, then [csv += ...] for each row in turn. *)
Definition generateCSV (rows : list Transaction.row) : string :=
  fold_left (fun csv row => csv ++ csv_row row) rows csv_header.

(** ** Storing a transaction *)

(** The value a column keeps of a bound value of the column's own type.  A
    value of another type is stored under SQLite's affinity rules, which the
    typed tables of this model do not cover ([None]). *)
Definition column_TEXT (v : jsval) : option string :=
  match v with JStr s => Some s | _ => None end.

Definition column_REAL (v : jsval) : option float :=
  match v with JNum x => Some x | _ => None end.

(** [stmt.run(params)] for the INSERT of lines 135-139: the table with the
    new row, whose rowid is [this.lastID]. *)
Definition run_insert_transaction (db : Database) (params : list jsval) : option Database :=
  match params with
  | [customerName; phoneNumber; service; amountPaid; serviceBy; expenses; date; timestamp] =>
      customerName ← column_TEXT customerName;
      phoneNumber ← column_TEXT phoneNumber;
      service ← column_TEXT service;
      amountPaid ← column_REAL amountPaid;
      serviceBy ← column_TEXT serviceBy;
      expenses ← column_REAL expenses;
      date ← column_TEXT date;
      timestamp ← column_TEXT timestamp;
      let lastID := transactions_seq db + 1 in
      Some {| transactions := (transactions db ++
                [{| Transaction.id := lastID; Transaction.customerName := customerName;
                    Transaction.phoneNumber := phoneNumber; Transaction.service := service;
                    Transaction.amountPaid := amountPaid; Transaction.serviceBy := serviceBy;
                    Transaction.expenses := expenses; Transaction.date := date;
                    Transaction.timestamp := timestamp |}])%list;
              transactions_seq := lastID;
              messages := messages db;
              messages_seq := messages_seq db |}
  | _ => None
  end.

(** The body of POST /api/transactions after destructuring. *)
Module Body.
Record t := {
  customerName : jsval;
  phoneNumber : jsval;
  service : jsval;
  amountPaid : jsval;
  serviceBy : jsval;
  expenses : jsval;
  date : jsval
}.
End Body.

(** ** The file system, as far as backupDatabase uses it *)

(** The directories and the regular files by path, with the content of each
    file.  A path is the text the server passes; two spellings of one path
    are not identified. *)
Record FileSystem := {
  dirs : gset string;
  files : gmap string string
}.

Definition existsSync (fs : FileSystem) (path : string) : bool :=
  bool_decide (path ∈ dirs fs) || bool_decide (is_Some (files fs !! path)).

(** The directories above a path: what stands before each of its slashes
    ([before] is the part of the path already read). *)
Fixpoint ancestors_from (before rest : string) : list string :=
  match rest with
  | EmptyString => []
  | String c r =>
      (if Ascii.eqb c "/" && negb (String.eqb before EmptyString) then [before] else [])
      ++ ancestors_from (before ++ String c EmptyString) r
  end.

Definition ancestors (path : string) : list string := ancestors_from EmptyString path.

(** [fs.mkdirSync(path, { recursive: true })]: the directory is made, and so
    are the directories above it that are missing.  (The call throws when
    one of them is a regular file; that case is left to the hypotheses of
    the properties.) *)
Definition mkdirSync (fs : FileSystem) (path : string) : FileSystem :=
  {| dirs := {[path]} ∪ list_to_set (ancestors path) ∪ dirs fs; files := files fs |}.

(** The message of the error [fs.copyFileSync(src, dest)] throws. *)
Definition copyfile_error (code description src dest : string) : string :=
  code ++ ": " ++ description ++ ", copyfile '" ++ src ++ "' -> '" ++ dest ++ "'".

(** [fs.copyFileSync(src, dest)] with [dest] a file name under [dir]: the
    file system after the copy, or the message of the error thrown when
    [src] is not a regular file, [dir] is not a directory or [dest] is one. *)
Definition copyFileSync (fs : FileSystem) (src dir dest : string) : string + FileSystem :=
  match files fs !! src with
  | None =>
      inl (if bool_decide (src ∈ dirs fs)
           then copyfile_error "EISDIR" "illegal operation on a directory" src dest
           else copyfile_error "ENOENT" "no such file or directory" src dest)
  | Some content =>
      if negb (bool_decide (dir ∈ dirs fs)) then
        inl (if bool_decide (is_Some (files fs !! dir))
             then copyfile_error "ENOTDIR" "not a directory" src dest
             else copyfile_error "ENOENT" "no such file or directory" src dest)
      else if bool_decide (dest ∈ dirs fs) then
        inl (copyfile_error "EISDIR" "illegal operation on a directory" src dest)
      else inr {| dirs := dirs fs; files := <[dest := content]> (files fs) |}
  end.

(** The server's state: the database behind the open connection, the file
    system, and the lines written to the console. *)
Record World := {
  db : Database;
  fs : FileSystem;
  console : list string
}.


Section Handlers.

Variable rt : Runtime.

(** *** GET /api/transactions (server.js, lines 75-119)

    [clock] is the time value [new Date()] reads. *)

(** Lines 76-110: the statement and its parameters. *)
Definition listTransactions_query (clock : Z) (filter : option string)
  : string * list string :=
  let query := "SELECT * FROM transactions" in
  let params : list string := [] in
  let '(query, params) :=
    if present filter && negb (filter_is filter "all") then
      let now : Date := Some clock in
      let today := formatDate rt (OfDate now) in
      if filter_is filter "day" then
        (query ++ " WHERE date = ?", (params ++ [today])%list)
      else if filter_is filter "week" then
        let weekAgo := new_Date rt (OfDate now) in
        let weekAgo := setDate rt weekAgo (intnum_add (getDate rt now) (-7)) in
        (query ++ " WHERE date >= ?", (params ++ [formatDate rt (OfDate weekAgo)])%list)
      else if filter_is filter "month" then
        let monthAgo := new_Date rt (OfDate now) in
        let monthAgo := setMonth rt monthAgo (intnum_add (getMonth rt now) (-1)) in
        (query ++ " WHERE date >= ?", (params ++ [formatDate rt (OfDate monthAgo)])%list)
      else if filter_is filter "year" then
        let yearAgo := new_Date rt (OfDate now) in
        let yearAgo := setFullYear rt yearAgo (intnum_add (getFullYear rt now) (-1)) in
        (query ++ " WHERE date >= ?", (params ++ [formatDate rt (OfDate yearAgo)])%list)
      else (query, params)
    else (query, params) in
  (query ++ " ORDER BY timestamp DESC", params).

(** Lines 112-118: the rows the callback receives, and the reply. *)
Definition listTransactions_rows (clock : Z) (db : Database) (filter : option string)
  : option (list Transaction.row) :=
  let '(query, params) := listTransactions_query clock filter in
  db_all db query params.

Definition listTransactions (clock : Z) (db : Database) (filter : option string) : reply :=
  match listTransactions_rows clock db filter with
  | None => Json 500 (error_json err_message)
  | Some rows => Json 200 (JArr (map row_json rows))
  end.

(** *** GET /api/analytics (server.js, lines 171-237) *)

(** Lines 172-204. *)
Definition analytics_query (clock : Z) (filter : option string) : string * list string :=
  let query := "SELECT * FROM transactions" in
  let params : list string := [] in
  if present filter && negb (filter_is filter "all") then
    let now : Date := Some clock in
    let today := formatDate rt (OfDate now) in
    if filter_is filter "day" then
      (query ++ " WHERE date = ?", (params ++ [today])%list)
    else if filter_is filter "week" then
      let weekAgo := new_Date rt (OfDate now) in
      let weekAgo := setDate rt weekAgo (intnum_add (getDate rt now) (-7)) in
      (query ++ " WHERE date >= ?", (params ++ [formatDate rt (OfDate weekAgo)])%list)
    else if filter_is filter "month" then
      let monthAgo := new_Date rt (OfDate now) in
      let monthAgo := setMonth rt monthAgo (intnum_add (getMonth rt now) (-1)) in
      (query ++ " WHERE date >= ?", (params ++ [formatDate rt (OfDate monthAgo)])%list)
    else if filter_is filter "year" then
      let yearAgo := new_Date rt (OfDate now) in
      let yearAgo := setFullYear rt yearAgo (intnum_add (getFullYear rt now) (-1)) in
      (query ++ " WHERE date >= ?", (params ++ [formatDate rt (OfDate yearAgo)])%list)
    else (query, params)
  else (query, params).

(** Lines 206-236. *)
Definition analytics_rows (clock : Z) (db : Database) (filter : option string)
  : option (list Transaction.row) :=
  let '(query, params) := analytics_query clock filter in
  db_all db query params.

Definition analytics (clock : Z) (db : Database) (filter : option string) : reply :=
  match analytics_rows clock db filter with
  | None => Json 500 (error_json err_message)
  | Some rows =>
      match computeAnalytics rows with
      | Some analytics => Json 200 (analytics_json analytics)
      | None => Threw
      end
  end.

(** *** POST /api/transactions (server.js, lines 122-168)

    The table after the request and the reply.  The table is [None] when
    the INSERT stored a value that is not of its column's type (see
    [column_TEXT]); the reply does not depend on that. *)

Definition createTransaction (clock : Z) (db : Database) (body : Body.t)
  : option Database * reply :=
  let customerName := Body.customerName body in
  let phoneNumber := Body.phoneNumber body in
  let service := Body.service body in
  let amountPaid := Body.amountPaid body in
  let serviceBy := Body.serviceBy body in
  let expenses := Body.expenses body in
  let date := Body.date body in
  if negb (truthy customerName) || negb (truthy phoneNumber) || negb (truthy service)
     || negb (truthy amountPaid) || negb (truthy serviceBy) || negb (truthy date) then
    (Some db, Json 400 (error_json
       "Required fields missing: customerName, phoneNumber, service, amountPaid, serviceBy, date"))
  else
    let finalExpenses := js_or expenses (JNum 0) in
    let timestamp := toISOString clock in
    let formattedDate := formatDate rt (OfValue date) in
    let db' := run_insert_transaction db
      [customerName; phoneNumber; service; amountPaid; serviceBy; finalExpenses;
       JStr formattedDate; JStr timestamp] in
    let lastID := jnum (Number.of_Z (transactions_seq db + 1)) in
    let newTransaction :=
      JObj [("id", lastID);
            ("customerName", JVal customerName);
            ("phoneNumber", JVal phoneNumber);
            ("service", JVal service);
            ("amountPaid", jnum (parseFloat amountPaid));
            ("serviceBy", JVal serviceBy);
            ("expenses", jnum (parseFloat finalExpenses));
            ("date", jstr formattedDate);
            ("timestamp", jstr timestamp)] in
    (db', Json 200 (JObj [("id", lastID);
                          ("message", jstr "Transaction added successfully");
                          ("transaction", newTransaction)])).

(** *** GET /api/admin/export (server.js, lines 333-410) *)

(** Lines 334-369. *)
Definition export_query (clock : Z) (filter : option string) : string * list string :=
  let query := "SELECT * FROM transactions" in
  let params : list string := [] in
  let '(query, params) :=
    if present filter && negb (filter_is filter "all") then
      let now : Date := Some clock in
      let today := formatDate rt (OfDate now) in
      if filter_is filter "day" then
        (query ++ " WHERE date = ?", (params ++ [today])%list)
      else if filter_is filter "week" then
        let weekAgo := new_Date rt (OfDate now) in
        let weekAgo := setDate rt weekAgo (intnum_add (getDate rt now) (-7)) in
        (query ++ " WHERE date >= ?", (params ++ [formatDate rt (OfDate weekAgo)])%list)
      else if filter_is filter "month" then
        let monthAgo := new_Date rt (OfDate now) in
        let monthAgo := setMonth rt monthAgo (intnum_add (getMonth rt now) (-1)) in
        (query ++ " WHERE date >= ?", (params ++ [formatDate rt (OfDate monthAgo)])%list)
      else if filter_is filter "year" then
        let yearAgo := new_Date rt (OfDate now) in
        let yearAgo := setFullYear rt yearAgo (intnum_add (getFullYear rt now) (-1)) in
        (query ++ " WHERE date >= ?", (params ++ [formatDate rt (OfDate yearAgo)])%list)
      else (query, params)
    else (query, params) in
  (query ++ " ORDER BY timestamp DESC", params).

(** Lines 393-407. *)
Definition export_json (clock : Z) (filter : option string) (rows : list Transaction.row) : json :=
  let totalIncome := reduce_sum Transaction.amountPaid rows in
  let totalExpenses := reduce_sum Transaction.expenses rows in
  let summary :=
    JObj [("totalTransactions", jnum (Number.of_Z (Z.of_nat (length rows))));
          ("totalIncome", jnum totalIncome);
          ("totalExpenses", jnum totalExpenses);
          ("netProfit", jnum (totalIncome - totalExpenses)%float);
          ("exportDate", jstr (toISOString clock));
          ("filter", jstr (filter_or_all filter))] in
  JObj [("summary", summary); ("transactions", JArr (map row_json rows))].

(** Lines 371-409. *)
Definition export_rows (clock : Z) (db : Database) (filter : option string)
  : option (list Transaction.row) :=
  let '(query, params) := export_query clock filter in
  db_all db query params.

Definition exportTransactions (clock : Z) (db : Database) (filter format : option string)
  : reply :=
  match export_rows clock db filter with
  | None => Json 500 (error_json err_message)
  | Some rows =>
      if filter_is format "csv" then
        let csv := generateCSV rows in
        let filename := "business_export_" ++ filter_or_all filter ++ "_"
                        ++ split_T_0 (toISOString clock) ++ ".csv" in
        Csv filename csv
      else Json 200 (export_json clock filter rows)
  end.

(** *** backupDatabase (server.js, lines 444-466) *)

Definition DB_PATH : string := env_or (env_DB_PATH rt) "./business.db".

(** The file system after the call and the lines it logs. *)
Definition backupDatabase (clock : Z) (fs : FileSystem) : FileSystem * list string :=
  let timestamp := split_T_0 (toISOString clock) in
  let backupDir := env_or (env_DB_BACKUP_PATH rt) "./backups" in
  let backupPath := backupDir ++ "/business_" ++ timestamp ++ ".db" in
  let fs := if negb (existsSync fs backupDir) then mkdirSync fs backupDir else fs in
  if existsSync fs DB_PATH then
    match copyFileSync fs DB_PATH backupDir backupPath with
    | inr fs' => (fs', ["✅ Database backed up to " ++ backupPath])
    | inl message => (fs, ["❌ Error backing up database: " ++ message])
    end
  else (fs, ["⚠️ Database file not found, skipping backup"]).

(** *** DELETE /api/admin/clear-data (server.js, lines 290-330) *)

Definition confirmation_required : string :=
  "Confirmation required. Send confirmClear: " ++ quoted "YES_DELETE_ALL_DATA".

Definition clearAllData (clock : Z) (w : World) (confirmClear : jsval) : World * reply :=
  if negb (match confirmClear with
           | JStr s => String.eqb s "YES_DELETE_ALL_DATA"
           | _ => false
           end) then
    (w, Json 400 (error_json confirmation_required))
  else
    let '(fs', backup_log) := backupDatabase clock (fs w) in
    (* DELETE FROM transactions *)
    let changes := Z.of_nat (length (transactions (db w))) in
    let db1 := {| transactions := []; transactions_seq := transactions_seq (db w);
                  messages := messages (db w); messages_seq := messages_seq (db w) |} in
    let log1 := "🗑️ Cleared " ++ Str.of_Z changes ++ " transactions" in
    (* DELETE FROM messages *)
    let changes := Z.of_nat (length (messages db1)) in
    let db2 := {| transactions := transactions db1; transactions_seq := transactions_seq db1;
                  messages := []; messages_seq := messages_seq db1 |} in
    let log2 := "🗑️ Cleared " ++ Str.of_Z changes ++ " messages" in
    ({| db := db2; fs := fs'; console := (console w ++ backup_log ++ [log1; log2])%list |},
     Json 200 (JObj [("message", jstr "All data cleared successfully");
                     ("cleared", JObj [("transactions", JVal (JBool true));
                                       ("messages", JVal (JBool true))]);
                     ("backup", jstr "Data backed up before clearing");
                     ("timestamp", jstr (toISOString clock))])).

End Handlers.

(** ** The messages (server.js, lines 239-282) *)

(** [ORDER BY timestamp ASC] under the BINARY collation. *)
Definition older_first (a b : Message.row) : Prop :=
  String.leb (Message.timestamp a) (Message.timestamp b) = true.

#[local] Instance older_first_dec a b : Decision (older_first a b).
Proof. unfold older_first. apply _. Defined.

Definition order_by_timestamp_asc (rows : list Message.row) : list Message.row :=
  order_by older_first rows.

(** [db.all(query, callback)] for the statement over the messages table. *)
Definition db_all_messages (db : Database) (query : string) : option (list Message.row) :=
  if String.eqb query "SELECT * FROM messages ORDER BY timestamp ASC"
  then Some (order_by_timestamp_asc (messages db))
  else None.

Definition message_json (r : Message.row) : json :=
  JObj [("id", jnum (Number.of_Z (Message.id r)));
        ("text", jstr (Message.text r));
        ("sender", jstr (Message.sender r));
        ("timestamp", jstr (Message.timestamp r));
        ("time", jstr (Message.time r))].

(** *** GET /api/messages (server.js, lines 240-248) *)
Definition listMessages (db : Database) : reply :=
  match db_all_messages db "SELECT * FROM messages ORDER BY timestamp ASC" with
  | None => Json 500 (error_json err_message)
  | Some rows => Json 200 (JArr (map message_json rows))
  end.

(** [stmt.run(params)] for the INSERT of lines 261-263. *)
Definition run_insert_message (db : Database) (params : list jsval) : option Database :=
  match params with
  | [text; sender; timestamp; time] =>
      text ← column_TEXT text;
      sender ← column_TEXT sender;
      timestamp ← column_TEXT timestamp;
      time ← column_TEXT time;
      let lastID := messages_seq db + 1 in
      Some {| transactions := transactions db;
              transactions_seq := transactions_seq db;
              messages := (messages db ++
                [{| Message.id := lastID; Message.text := text; Message.sender := sender;
                    Message.timestamp := timestamp; Message.time := time |}])%list;
              messages_seq := lastID |}
  | _ => None
  end.

(** The body of POST /api/messages after destructuring. *)
Module MessageBody.
Record t := {
  text : jsval;
  sender : jsval
}.
End MessageBody.

Section MessageHandlers.

(** [Date.prototype.toLocaleTimeString] of the server's locale and zone, as
    a function of the time value. *)
Variable toLocaleTimeString : Z -> string.

(** *** POST /api/messages (server.js, lines 251-282)

    The table after the request ([None] as for POST /api/transactions) and
    the reply.  [clock] is the time value both [new Date()] of lines 258 and
    259 read. *)
Definition sendMessage (clock : Z) (db : Database) (body : MessageBody.t)
  : option Database * reply :=
  let text := MessageBody.text body in
  let sender := MessageBody.sender body in
  if negb (truthy text) || negb (truthy sender) then
    (Some db, Json 400 (error_json "Text and sender are required"))
  else
    let timestamp := toISOString clock in
    let time := toLocaleTimeString clock in
    let db' := run_insert_message db [text; sender; JStr timestamp; JStr time] in
    let lastID := jnum (Number.of_Z (messages_seq db + 1)) in
    (db', Json 200 (JObj [("id", lastID);
                          ("message", jstr "Message sent successfully");
                          ("messageData", JObj [("id", lastID);
                                                ("text", JVal text);
                                                ("sender", JVal sender);
                                                ("timestamp", jstr timestamp);
                                                ("time", jstr time)])])).

End MessageHandlers.

(** *** GET /api/health (server.js, lines 285-287) *)
Definition health (clock : Z) : reply :=
  Json 200 (JObj [("status", jstr "OK");
                  ("message", jstr "Server is running");
                  ("timestamp", jstr (toISOString clock))]).

(** *** GET / (server.js, lines 421-435) *)
Definition index : reply :=
  Json 200 (JObj [("message", jstr "Business Management System API");
                  ("endpoints",
                   JObj [("portal", jstr "/portal");
                         ("dashboard", jstr "/dashboard");
                         ("api", JObj [("transactions", jstr "/api/transactions");
                                       ("analytics", jstr "/api/analytics");
                                       ("messages", jstr "/api/messages");
                                       ("health", jstr "/api/health")])])]).

(** ** The server: its routes and its timers *)

(** A request to one of the routes that answer with data, with what the
    handler reads of it.  (The routes /portal and /dashboard send a file of
    the public directory and touch nothing.) *)
Inductive request :=
| GetTransactions (filter : option string)
| PostTransactions (body : Body.t)
| GetAnalytics (filter : option string)
| GetMessages
| PostMessages (body : MessageBody.t)
| GetHealth
| DeleteClearData (confirmClear : jsval)
| GetExport (filter format : option string)
| GetIndex.

(** What the server reacts to: a request, or the backup timer coming due
    (lines 469 and 472). *)
Inductive event :=
| Request (req : request)
| BackupTimer.

Section Server.

Variable rt : Runtime.
Variable toLocaleTimeString : Z -> string.

(** Line 158. *)
Definition transaction_added (body : Body.t) : string :=
  "✅ New transaction added: " ++ ToString (Body.customerName body) ++ " - "
  ++ ToString (Body.service body) ++ " - ₦" ++ ToString (Body.amountPaid body).

(** What SQLite does to the file system when a statement has changed a
    table and left the tables as [db']: it writes its file, the one named
    by DB_PATH.  The name [:memory:] stands for a database that has no
    file. *)
Definition sqlite_writes (db' : Database) (fs : FileSystem) : FileSystem :=
  if String.eqb (DB_PATH rt) ":memory:" then fs
  else {| dirs := dirs fs;
          files := <[DB_PATH rt := sqlite_image rt (files fs !! DB_PATH rt) db']> (files fs) |}.

(** A reply of status 200: the statements of the handler have run. *)
Definition succeeded (resp : reply) : bool :=
  match resp with
  | Json status _ => status =? 200
  | _ => false
  end.

(** The route table: the server after the request, and the reply.  [clock]
    is the time value the request's [new Date()] calls read.  [None] when
    an INSERT stored a value that is not of its column's type.  The handlers
    say what becomes of the tables and what their own calls do to the file
    system; here the database file follows the tables, once for each
    statement that wrote. *)
Definition handle (clock : Z) (req : request) (w : World) : option (World * reply) :=
  match req with
  | GetTransactions filter => Some (w, listTransactions rt clock (db w) filter)
  | PostTransactions body =>
      let '(db', resp) := createTransaction rt clock (db w) body in
      db' ← db';
      if succeeded resp then
        Some ({| db := db'; fs := sqlite_writes db' (fs w);
                 console := (console w ++ [transaction_added body])%list |}, resp)
      else Some ({| db := db'; fs := fs w; console := console w |}, resp)
  | GetAnalytics filter => Some (w, analytics rt clock (db w) filter)
  | GetMessages => Some (w, listMessages (db w))
  | PostMessages body =>
      let '(db', resp) := sendMessage toLocaleTimeString clock (db w) body in
      db' ← db';
      if succeeded resp then
        Some ({| db := db'; fs := sqlite_writes db' (fs w); console := console w |}, resp)
      else Some ({| db := db'; fs := fs w; console := console w |}, resp)
  | GetHealth => Some (w, health clock)
  | DeleteClearData confirmClear =>
      let '(w', resp) := clearAllData rt clock w confirmClear in
      if succeeded resp then
        (* the tables between the two DELETE statements *)
        let db1 := {| transactions := []; transactions_seq := transactions_seq (db w);
                      messages := messages (db w); messages_seq := messages_seq (db w) |} in
        Some ({| db := db w'; fs := sqlite_writes (db w') (sqlite_writes db1 (fs w'));
                 console := console w' |}, resp)
      else Some (w', resp)
  | GetExport filter format => Some (w, exportTransactions rt clock (db w) filter format)
  | GetIndex => Some (w, index)
  end.

(** The server after an event at the clock reading [clock], and whether its
    process still runs.  The exception of [Threw] leaves a callback of the
    database driver; nothing catches it, and the process ends. *)
Definition step (clock : Z) (e : event) (w : World) : option (World * bool) :=
  match e with
  | Request req =>
      '(w', resp) ← handle clock req w;
      Some (w', match resp with Threw => false | _ => true end)
  | BackupTimer =>
      let '(fs', log) := backupDatabase rt clock (fs w) in
      Some ({| db := db w; fs := fs'; console := (console w ++ log)%list |}, true)
  end.

(** The server after the events of a history, each with its clock reading,
    or as it was when an event ended the process: the events after that one
    find no server. *)
Fixpoint run (history : list (Z * event)) (w : World) : option World :=
  match history with
  | [] => Some w
  | (clock, e) :: history' =>
      '(w', running) ← step clock e w;
      if running : bool then run history' w' else Some w'
  end.

End Server.

(** The time between two backups of the timer of line 472, in milliseconds. *)
Definition backup_interval : Z := 24 * 60 * 60 * 1000.

(** ** Concrete runtimes, to run the handlers on *)

(** A stand-in for the bytes of the database file: the magic text of the
    format and the number of rows of each table. *)
Definition sample_image (found : option string) (db : Database) : string :=
  "SQLite format 3, " ++ Str.of_Z (Z.of_nat (length (transactions db))) ++ " transactions, "
  ++ Str.of_Z (Z.of_nat (length (messages db))) ++ " messages".

(** UTC, default paths. *)
Definition utc_runtime : Runtime :=
  {| LocalTZA := 0; Date_parse := iso_Date_parse;
     env_DB_PATH := None; env_DB_BACKUP_PATH := None; sqlite_image := sample_image |}.

(** West Africa Time (UTC+1), default paths. *)
Definition lagos_runtime : Runtime :=
  {| LocalTZA := 3600000; Date_parse := iso_Date_parse;
     env_DB_PATH := None; env_DB_BACKUP_PATH := None; sqlite_image := sample_image |}.

(** UTC with an in-memory database: [DB_PATH=:memory:] names no file. *)
Definition memory_runtime : Runtime :=
  {| LocalTZA := 0; Date_parse := iso_Date_parse;
     env_DB_PATH := Some ":memory:"; env_DB_BACKUP_PATH := None;
     sqlite_image := sample_image |}.

Definition empty_database : Database :=
  {| transactions := []; transactions_seq := 0; messages := []; messages_seq := 0 |}.

Definition empty_fs : FileSystem := {| dirs := ∅; files := ∅ |}.

(** ** Notions used to state the properties *)

(** Days from 0000-03-01 to the first of March of year [ys]. *)
Definition march_first (ys : Z) : Z := 365 * ys + ys / 4 - ys / 100 + ys / 400.

(** For day [doy] of a year that starts in March: the carry into the
    calendar year, the month (1..12) and the day of the month. *)
Definition month_day (doy : Z) : Z * Z * Z :=
  let mp := (5 * doy + 2) / 153 in
  (if mp <? 10 then 0 else 1, if mp <? 10 then mp + 3 else mp - 9,
   doy - (153 * mp + 2) / 5 + 1).

(** Dates in the order of the calendar. *)
Definition lex_le (a b : Z * Z * Z) : Prop :=
  a.1.1 < b.1.1 \/ (a.1.1 = b.1.1 /\ (a.1.2 < b.1.2 \/ (a.1.2 = b.1.2 /\ a.2 <= b.2))).

(** The text YYYY-MM-DD of a date (year, month 1..12, day), as formatDate
    builds it: the year as it prints, month and day padded to two digits. *)
Definition date_string (c : Z * Z * Z) : string :=
  Str.of_Z c.1.1 ++ "-" ++ Str.padStart0 2 (Str.of_Z c.1.2) ++ "-" ++ Str.padStart0 2 (Str.of_Z c.2).

(** The calendar date of a Date in local time, as text; an invalid Date has
    none. *)
Definition local_date (rt : Runtime) (d : Date) : string :=
  match d with
  | Some t => date_string (Calendar.civil_from_days (Calendar.Day (LocalTime rt t)))
  | None => "NaN-NaN-NaN"
  end.

(** *** The time window the three handlers compute *)

(** [k] days before the time [now]. *)
Definition days_before (now k : Z) : Date := Calendar.TimeClip (now - k * Calendar.msPerDay).

(** The same local time of day as [now] on the day numbered [day]. *)
Definition on_local_day (rt : Runtime) (now day : Z) : Date :=
  Calendar.TimeClip (UTC rt (Calendar.MakeDate day (Calendar.TimeWithinDay (LocalTime rt now)))).

(** What [setMonth(getMonth() - 1)] makes of [now]: the day MakeDay gives
    for today's day of the month in the month before. *)
Definition month_before (rt : Runtime) (now : Z) : Date :=
  let '(y, m, d) := Calendar.civil_from_days (Calendar.Day (LocalTime rt now)) in
  on_local_day rt now (Calendar.MakeDay y (m - 1 - 1) d).

(** What [setFullYear(getFullYear() - 1)] makes of [now]. *)
Definition year_before (rt : Runtime) (now : Z) : Date :=
  let '(y, m, d) := Calendar.civil_from_days (Calendar.Day (LocalTime rt now)) in
  on_local_day rt now (Calendar.MakeDay (y - 1) (m - 1) d).

Inductive window :=
| NoFilter
| DateIs (day : string)
| DateFrom (day : string).

Definition spec_window (rt : Runtime) (now : Z) (period : option string) : window :=
  if decide (period = Some "day") then DateIs (local_date rt (Some now))
  else if decide (period = Some "week") then DateFrom (local_date rt (days_before now 7))
  else if decide (period = Some "month") then DateFrom (local_date rt (month_before rt now))
  else if decide (period = Some "year") then DateFrom (local_date rt (year_before rt now))
  else NoFilter.

Definition in_window (w : window) (r : Transaction.row) : bool :=
  match w with
  | NoFilter => true
  | DateIs day => String.eqb (Transaction.date r) day
  | DateFrom day => String.leb day (Transaction.date r)
  end.

(** The statement of a window, with and without the ordering clause. *)
Definition window_query (w : window) (suffix : string) : string * list string :=
  match w with
  | NoFilter => ("SELECT * FROM transactions" ++ suffix, [])
  | DateIs day => ("SELECT * FROM transactions WHERE date = ?" ++ suffix, [day])
  | DateFrom day => ("SELECT * FROM transactions WHERE date >= ?" ++ suffix, [day])
  end.

(** [f] holds of the [len] integers from [start] on. *)
Fixpoint all_from (f : Z -> bool) (start : Z) (len : nat) : bool :=
  match len with
  | O => true
  | S len' => f start && all_from f (start + 1) len'
  end.

Definition two_digits (i : Z) : string := Str.padStart0 2 (Str.of_Z i).

(** A date of a year of four digits. *)
Definition four_digit_date (c : Z * Z * Z) : Prop :=
  1000 <= c.1.1 <= 9999 /\ 0 <= c.1.2 <= 99 /\ 0 <= c.2 <= 99.

(** The clock of an ordinary deployment: the offset of local time is at most
    a day, and the local year has four digits also a year earlier. *)
Definition ordinary_clock (rt : Runtime) (clock : Z) : Prop :=
  Z.abs (LocalTZA rt) <= Calendar.msPerDay
  /\ 1001 <= Calendar.YearFromTime (LocalTime rt clock) <= 9999.

(** The days from the first of March to the first of each month. *)
Definition month_offset (m : Z) : Z :=
  nth (Z.to_nat m) [0; 306; 337; 0; 31; 61; 92; 122; 153; 184; 214; 245; 275] 0.

(** *** The calendar as a wall calendar shows it

    Leap years and the lengths of the months, and from them the day, the
    week, the month and the year before a date.  Nothing here is taken from
    the arithmetic of [Calendar]. *)

Definition leap_year (y : Z) : bool :=
  (y mod 4 =? 0) && (negb (y mod 100 =? 0) || (y mod 400 =? 0)).

Definition days_in_month (y m : Z) : Z :=
  if m =? 2 then (if leap_year y then 29 else 28)
  else if (m =? 4) || (m =? 6) || (m =? 9) || (m =? 11) then 30
  else 31.

(** The month before month [m] of year [y], and the month after it. *)
Definition previous_month (y m : Z) : Z * Z := if m =? 1 then (y - 1, 12) else (y, m - 1).
Definition next_month (y m : Z) : Z * Z := if m =? 12 then (y + 1, 1) else (y, m + 1).

(** A date that is on the calendar. *)
Definition calendar_date (c : Z * Z * Z) : Prop :=
  1 <= c.1.2 <= 12 /\ 1 <= c.2 <= days_in_month c.1.1 c.1.2.

(** The day before a date: the last day of the month before for a first
    of the month. *)
Definition previous_day (c : Z * Z * Z) : Z * Z * Z :=
  let '(y, m, d) := c in
  if 1 <? d then (y, m, d - 1)
  else let '(py, pm) := previous_month y m in (py, pm, days_in_month py pm).

(** Seven days before a date. *)
Definition week_earlier (c : Z * Z * Z) : Z * Z * Z := Nat.iter 7 previous_day c.

(** One month before a date: the same day of the month before.  Where the
    month before is too short to have that day, the days beyond its end are
    counted on into the month of the date itself (as [Date.setMonth]
    counts): a month before the 31st of March of a leap year is the 2nd of
    March. *)
Definition month_earlier (c : Z * Z * Z) : Z * Z * Z :=
  let '(y, m, d) := c in
  let '(py, pm) := previous_month y m in
  if d <=? days_in_month py pm then (py, pm, d) else (y, m, d - days_in_month py pm).

(** One year before a date: the same day of the same month of the year
    before; for the 29th of February, which the year before has not, the
    1st of March. *)
Definition year_earlier (c : Z * Z * Z) : Z * Z * Z :=
  let '(y, m, d) := c in
  if d <=? days_in_month (y - 1) m then (y - 1, m, d) else (y - 1, 3, 1).

(** The window of a period for the server's date [today]. *)
Definition calendar_window (today : Z * Z * Z) (period : option string) : window :=
  if decide (period = Some "day") then DateIs (date_string today)
  else if decide (period = Some "week") then DateFrom (date_string (week_earlier today))
  else if decide (period = Some "month") then DateFrom (date_string (month_earlier today))
  else if decide (period = Some "year") then DateFrom (date_string (year_earlier today))
  else NoFilter.

(** A transaction of the examples, dated [date]. *)
Definition dated (id : Z) (date : string) : Transaction.row :=
  {| Transaction.id := id; Transaction.customerName := "A"; Transaction.phoneNumber := "1";
     Transaction.service := "X"; Transaction.amountPaid := 10; Transaction.serviceBy := "B";
     Transaction.expenses := 2; Transaction.date := date;
     Transaction.timestamp := "2024-03-02T09:00:00.000Z" |}.

(** Three sales around the end of February 2024. *)
Definition end_of_february : Database :=
  {| transactions := [dated 1 "2024-02-29"; dated 2 "2024-03-01"; dated 3 "2024-03-02"];
     transactions_seq := 3; messages := []; messages_seq := 0 |}.

(** [init + x1 + x2 + ...], added from the left as the code adds. *)
Definition float_sum (init : float) (l : list float) : float :=
  fold_left (fun sum x => (sum + x)%float) l init.

(** The amounts paid for service [k], in row order. *)
Definition amounts_of (k : string) (rows : list Transaction.row) : list float :=
  map Transaction.amountPaid
    (List.filter (fun r => String.eqb (Transaction.service r) k) rows).

(** The rows of one service. *)
Definition rows_of (k : string) (rows : list Transaction.row) : list Transaction.row :=
  List.filter (fun r => String.eqb (Transaction.service r) k) rows.

(** What the entry [k] holds after the rows were added to the object [seed]:
    the sum of the amounts from the value [seed] has for [k], or from the
    first amount when [seed] has none; no entry when there is neither. *)
Definition service_total (seed : object) (k : string) (rows : list Transaction.row)
  : option float :=
  match own_get seed k, amounts_of k rows with
  | Some v, l => Some (float_sum v l)
  | None, [] => None
  | None, x :: l => Some (float_sum x l)
  end.

Definition seeded_services : object :=
  [("Photography", 0%float); ("Makeup", 0%float); ("Product Sales", 0%float)].

(** A row for the examples: a sale of [service] for [amountPaid]. *)
Definition sale (service : string) (amountPaid : float) : Transaction.row :=
  {| Transaction.id := 1; Transaction.customerName := "A"; Transaction.phoneNumber := "1";
     Transaction.service := service; Transaction.amountPaid := amountPaid;
     Transaction.serviceBy := "B"; Transaction.expenses := 0;
     Transaction.date := "2024-01-01"; Transaction.timestamp := "2024-01-01T09:00:00.000Z" |}.

(** *** The CSV text *)

(** The nine fields of a row of the export, as texts: the amounts as
    Number::toString prints them, Net Profit the amount paid minus the
    expenses. *)
Definition csv_fields (r : Transaction.row) : list string :=
  [Transaction.date r; Transaction.customerName r; Transaction.phoneNumber r;
   Transaction.service r; Number.toString (Transaction.amountPaid r);
   Transaction.serviceBy r; Number.toString (Transaction.expenses r);
   Number.toString (Transaction.amountPaid r - Transaction.expenses r)%float;
   Transaction.timestamp r].

(** The loop of lines 381-384 unrolled: the text of a row as a list of
    template holes, and the text after the last row. *)
Definition spec_csv_line (r : Transaction.row) : string :=
  String.concat "," (map quoted (csv_fields r)) ++ Str.newline.

Definition spec_csv (rows : list Transaction.row) : string :=
  csv_header ++ String.concat EmptyString (map spec_csv_line rows).

(** The text before the first [T] has no [T]. *)
Fixpoint no_T (s : string) : bool :=
  match s with
  | String c r => negb (Ascii.eqb c "T") && no_T r
  | EmptyString => true
  end.

(** The fields POST /api/transactions requires (line 126). *)
Definition required_fields (body : Body.t) : list jsval :=
  [Body.customerName body; Body.phoneNumber body; Body.service body;
   Body.amountPaid body; Body.serviceBy body; Body.date body].

Definition missing_fields_reply : reply :=
  Json 400 (error_json
    "Required fields missing: customerName, phoneNumber, service, amountPaid, serviceBy, date").

(** The parameters line 139 binds. *)
Definition insert_params (rt : Runtime) (clock : Z) (body : Body.t) : list jsval :=
  [Body.customerName body; Body.phoneNumber body; Body.service body; Body.amountPaid body;
   Body.serviceBy body; js_or (Body.expenses body) (JNum 0);
   JStr (formatDate rt (OfValue (Body.date body))); JStr (toISOString clock)].

(** The value of the field [k] of an object. *)
Definition field (k : string) (fields : list (string * json)) : option json :=
  snd <$> List.find (fun kv => String.eqb kv.1 k) fields.

(** The request of section 8: one sale of 10 with expenses of 2. *)
Definition sample_body : Body.t :=
  {| Body.customerName := JStr "A"; Body.phoneNumber := JStr "1"; Body.service := JStr "X";
     Body.amountPaid := JNum 10; Body.serviceBy := JStr "B"; Body.expenses := JNum 2;
     Body.date := JStr "2024-01-01" |}.

(** The same sale with a negative amount. *)
Definition negative_body : Body.t :=
  {| Body.customerName := JStr "A"; Body.phoneNumber := JStr "1"; Body.service := JStr "X";
     Body.amountPaid := JNum (-5); Body.serviceBy := JStr "B"; Body.expenses := JNum 2;
     Body.date := JStr "2024-01-01" |}.

(** The directory and the file of the backup made at time [t]. *)
Definition backupDir (rt : Runtime) : string := env_or (env_DB_BACKUP_PATH rt) "./backups".

Definition backupPath (rt : Runtime) (t : Z) : string :=
  backupDir rt ++ "/business_" ++ iso_date t ++ ".db".

(** Lines 451-453: the backup directory is made when nothing has its name. *)
Definition ensure_dir (fs : FileSystem) (dir : string) : FileSystem :=
  if negb (existsSync fs dir) then mkdirSync fs dir else fs.

(** The numbers in a value. *)
Fixpoint json_numbers (j : json) : list float :=
  match j with
  | JVal (JNum x) => [x]
  | JVal _ => []
  | JArr items => flat_map json_numbers items
  | JObj fields => flat_map (fun kv => json_numbers kv.2) fields
  end.

Definition sample_message (id : Z) : Message.row :=
  {| Message.id := id; Message.text := "hello"; Message.sender := "portal";
     Message.timestamp := "2024-01-01T09:00:00.000Z"; Message.time := "9:00:00 AM" |}.

(** A server with two transactions and three messages; its database file
    and an empty backup directory are on disk. *)
Definition sample_world : World :=
  {| db := {| transactions := [sale "Photography" 100; sale "Makeup" 50];
              transactions_seq := 2;
              messages := [sample_message 1; sample_message 2; sample_message 3];
              messages_seq := 3 |};
     fs := {| dirs := {["./backups"]}; files := {["./business.db" := "SQLite format 3"]} |};
     console := [] |}.

(** The same server with an in-memory database: no file has its name. *)
Definition memory_world : World :=
  {| db := db sample_world; fs := empty_fs; console := [] |}.

Definition clear_reply (clock : Z) : json :=
  JObj [("message", jstr "All data cleared successfully");
        ("cleared", JObj [("transactions", JVal (JBool true));
                          ("messages", JVal (JBool true))]);
        ("backup", jstr "Data backed up before clearing");
        ("timestamp", jstr (toISOString clock))].

(** *** Notions for the properties beyond the specification *)

Definition three_digits (i : Z) : string := Str.padStart0 3 (Str.of_Z i).

(** An instant whose UTC year has four digits. *)
Definition four_digit_year (t : Z) : Prop := 1000 <= Calendar.YearFromTime t <= 9999.

(** The order of dates as a comparison. *)
Definition lex_compare (a b : Z * Z * Z) : comparison :=
  match a.1.1 ?= b.1.1 with
  | Eq => match a.1.2 ?= b.1.2 with Eq => a.2 ?= b.2 | c => c end
  | c => c
  end.

(** [x] stands somewhere before [y] in [l]. *)
Definition comes_before {A : Type} (x y : A) (l : list A) : Prop :=
  exists l1 l2 l3, l = (l1 ++ x :: l2 ++ y :: l3)%list.

(** A message of the portal or the dashboard: both fields are text. *)
Definition message_body (text sender : string) : MessageBody.t :=
  {| MessageBody.text := JStr text; MessageBody.sender := JStr sender |}.

Definition message_refused : reply := Json 400 (error_json "Text and sender are required").

(** A clock face in the en-US style, to run the handlers on: the local time
    of day on a twelve-hour clock. *)
Definition twelve_hour_clock (rt : Runtime) (t : Z) : string :=
  let lt := LocalTime rt t in
  let h := Calendar.HourFromTime lt in
  Str.of_Z (if h mod 12 =? 0 then 12 else h mod 12) ++ ":"
  ++ two_digits (Calendar.MinFromTime lt) ++ ":" ++ two_digits (Calendar.SecFromTime lt)
  ++ (if h <? 12 then " AM" else " PM").

(** A sale as the portal sends it: text for the four names, a number for the
    amount, expenses as a number or left out, and the date as sent. *)
Definition sale_body (customerName phoneNumber service : string) (amountPaid : float)
    (serviceBy : string) (expenses : option float) (date : jsval) : Body.t :=
  {| Body.customerName := JStr customerName; Body.phoneNumber := JStr phoneNumber;
     Body.service := JStr service; Body.amountPaid := JNum amountPaid;
     Body.serviceBy := JStr serviceBy;
     Body.expenses := match expenses with Some x => JNum x | None => JUndefined end;
     Body.date := date |}.

(** The row POST /api/transactions stores for such a sale. *)
Definition sale_row (rt : Runtime) (clock : Z) (db : Database)
    (customerName phoneNumber service : string) (amountPaid : float)
    (serviceBy : string) (expenses : option float) (date : jsval) : Transaction.row :=
  {| Transaction.id := transactions_seq db + 1;
     Transaction.customerName := customerName; Transaction.phoneNumber := phoneNumber;
     Transaction.service := service; Transaction.amountPaid := amountPaid;
     Transaction.serviceBy := serviceBy;
     Transaction.expenses :=
       match expenses with
       | Some x => if truthy (JNum x) then x else 0%float
       | None => 0%float
       end;
     Transaction.date := formatDate rt (OfValue date);
     Transaction.timestamp := toISOString clock |}.

(** The table with one more transaction. *)
Definition with_transaction (db : Database) (r : Transaction.row) : Database :=
  {| transactions := (transactions db ++ [r])%list; transactions_seq := Transaction.id r;
     messages := messages db; messages_seq := messages_seq db |}.

(** The rowids in use were handed out by the table's sequence: none is
    above it, and no two rows share one. *)
Definition rowids_in_sequence (db : Database) : Prop :=
  NoDup (map Transaction.id (transactions db))
  /\ Forall (fun r => Transaction.id r <= transactions_seq db) (transactions db)
  /\ NoDup (map Message.id (messages db))
  /\ Forall (fun r => Message.id r <= messages_seq db) (messages db).

(** The table with one more message. *)
Definition with_message (db : Database) (r : Message.row) : Database :=
  {| transactions := transactions db; transactions_seq := transactions_seq db;
     messages := (messages db ++ [r])%list; messages_seq := Message.id r |}.

(** What an event may do to the tables: nothing, add a row under the next
    rowid, or (the confirmed clear) empty both. *)
Inductive db_change (d : Database) : Database -> Prop :=
| db_same : db_change d d
| db_transaction r :
    Transaction.id r = transactions_seq d + 1 -> db_change d (with_transaction d r)
| db_message r : Message.id r = messages_seq d + 1 -> db_change d (with_message d r)
| db_cleared :
    db_change d {| transactions := []; transactions_seq := transactions_seq d;
                   messages := []; messages_seq := messages_seq d |}.

(** The one request that deletes. *)
Definition confirmed_clear : event := Request (DeleteClearData (JStr "YES_DELETE_ALL_DATA")).


(** *** Reading CSV text back *)

(** A text without the character [c]. *)
Fixpoint lacks (c : ascii) (s : string) : bool :=
  match s with
  | String x r => negb (Ascii.eqb x c) && lacks c r
  | EmptyString => true
  end.

Definition quote_char : ascii := ascii_of_nat 34.
Definition newline_char : ascii := ascii_of_nat 10.

(** A reader of comma-separated values as RFC 4180 writes them: records
    end with a line break, fields are separated by commas, a field may stand
    between double quotes, and within such a field two double quotes stand
    for one.  [cur] is the field read so far, [row] the fields of the
    record so far (last first), [rows] the records so far (last first). *)
Inductive csv_state := FieldStart | Bare | Quoted | QuoteSeen.

Fixpoint read_csv (st : csv_state) (cur : string) (row : list string)
    (rows : list (list string)) (s : string) : option (list (list string)) :=
  match s with
  | EmptyString =>
      match st, row with
      | FieldStart, [] => Some (rev rows)
      | _, _ => None
      end
  | String c r =>
      match st with
      | FieldStart =>
          if Ascii.eqb c quote_char then read_csv Quoted EmptyString row rows r
          else if Ascii.eqb c "," then read_csv FieldStart EmptyString (EmptyString :: row) rows r
          else if Ascii.eqb c newline_char
               then read_csv FieldStart EmptyString [] (rev (EmptyString :: row) :: rows) r
          else read_csv Bare (String c EmptyString) row rows r
      | Bare =>
          if Ascii.eqb c quote_char then None
          else if Ascii.eqb c "," then read_csv FieldStart EmptyString (cur :: row) rows r
          else if Ascii.eqb c newline_char
               then read_csv FieldStart EmptyString [] (rev (cur :: row) :: rows) r
          else read_csv Bare (cur ++ String c EmptyString) row rows r
      | Quoted =>
          if Ascii.eqb c quote_char then read_csv QuoteSeen cur row rows r
          else read_csv Quoted (cur ++ String c EmptyString) row rows r
      | QuoteSeen =>
          if Ascii.eqb c quote_char then read_csv Quoted (cur ++ String c EmptyString) row rows r
          else if Ascii.eqb c "," then read_csv FieldStart EmptyString (cur :: row) rows r
          else if Ascii.eqb c newline_char
               then read_csv FieldStart EmptyString [] (rev (cur :: row) :: rows) r
          else None
      end
  end.

Definition parse_csv (s : string) : option (list (list string)) :=
  read_csv FieldStart EmptyString [] [] s.

Definition header_fields : list string :=
  ["Date"; "Customer Name"; "Phone Number"; "Service"; "Amount Paid"; "Service By";
   "Expenses"; "Net Profit"; "Timestamp"].

(** The texts of a row that the export writes as they are stored. *)
Definition text_fields (r : Transaction.row) : list string :=
  [Transaction.date r; Transaction.customerName r; Transaction.phoneNumber r;
   Transaction.service r; Transaction.serviceBy r; Transaction.timestamp r].

(** *** The CSV text as section 4.4 of the specification words it

    Written from the characters up: a field between two double quotes,
    the fields of a row with commas between them and a line feed after
    them, and the names of the header row with commas between them. *)

Definition in_quotes (s : string) : string :=
  String quote_char (s ++ String quote_char EmptyString).

Definition csv_line (fields : list string) : string :=
  String.concat "," (map in_quotes fields) ++ String newline_char EmptyString.

Definition header_line : string :=
  String.concat "," header_fields ++ String newline_char EmptyString.

(** The header row, then one row of quoted fields per transaction, in the
    order of the list. *)
Definition csv_text (rows : list Transaction.row) : string :=
  header_line ++ String.concat EmptyString (map (fun r => csv_line (csv_fields r)) rows).

(** The transaction of section 8. *)
Definition sample_row : Transaction.row :=
  {| Transaction.id := 1; Transaction.customerName := "A"; Transaction.phoneNumber := "1";
     Transaction.service := "X"; Transaction.amountPaid := 10; Transaction.serviceBy := "B";
     Transaction.expenses := 2; Transaction.date := "2024-01-01";
     Transaction.timestamp := "2024-01-01T09:00:00.000Z" |}.

(** Eastern Standard Time (UTC-5), default paths. *)
Definition new_york_runtime : Runtime :=
  {| LocalTZA := -18000000; Date_parse := iso_Date_parse;
     env_DB_PATH := None; env_DB_BACKUP_PATH := None; sqlite_image := sample_image |}.

(** A server just started: empty tables, the database file on disk. *)
Definition started_world : World :=
  {| db := empty_database;
     fs := {| dirs := ∅; files := {["./business.db" := "SQLite format 3"]} |};
     console := [] |}.

(** Two sales stamped a minute apart. *)
Definition first_sale : Transaction.row :=
  {| Transaction.id := 1; Transaction.customerName := "A"; Transaction.phoneNumber := "1";
     Transaction.service := "Photography"; Transaction.amountPaid := 100;
     Transaction.serviceBy := "B"; Transaction.expenses := 20;
     Transaction.date := "2024-07-01"; Transaction.timestamp := "2024-07-01T12:00:00.123Z" |}.

Definition second_sale : Transaction.row :=
  {| Transaction.id := 2; Transaction.customerName := "C"; Transaction.phoneNumber := "2";
     Transaction.service := "Braids"; Transaction.amountPaid := 30;
     Transaction.serviceBy := "B"; Transaction.expenses := 0;
     Transaction.date := "2024-07-01"; Transaction.timestamp := "2024-07-01T12:01:00.123Z" |}.

Definition two_sales : Database :=
  {| transactions := [first_sale; second_sale]; transactions_seq := 2;
     messages := []; messages_seq := 0 |}.

(** A morning at the front desk: a sale, a message, the backup timer, the
    lists read, a second sale. *)
Definition a_morning : list (Z * event) :=
  [(1719835200123, Request (PostTransactions sample_body));
   (1719835260123, Request (PostMessages (message_body "On my way" "dashboard")));
   (1719835320123, BackupTimer);
   (1719835380123, Request (GetTransactions (Some "day")));
   (1719835440123, Request (GetAnalytics None));
   (1719835500123, Request (PostTransactions negative_body))].

(** The same morning with the tables cleared before the second sale. *)
Definition a_morning_with_a_clear : list (Z * event) :=
  [(1719835200123, Request (PostTransactions sample_body));
   (1719835260123, Request (PostMessages (message_body "On my way" "dashboard")));
   (1719835320123, confirmed_clear);
   (1719835500123, Request (PostTransactions negative_body))].

(** The day number on which the window of a period starts at the clock
    reading [clock]: seven days before today, or the day MakeDay gives for
    today's date a month or a year earlier. *)
Definition window_start (rt : Runtime) (clock : Z) (period : string) : Z :=
  let today := Calendar.Day (LocalTime rt clock) in
  let '(y, m, d) := Calendar.civil_from_days today in
  if String.eqb period "week" then today - 7
  else if String.eqb period "month" then Calendar.MakeDay y (m - 1 - 1) d
  else if String.eqb period "year" then Calendar.MakeDay (y - 1) (m - 1) d
  else today.

(** Two messages stamped a minute apart, the later one stored first. *)
Definition earlier_message : Message.row :=
  {| Message.id := 2; Message.text := "On my way"; Message.sender := "dashboard";
     Message.timestamp := "2024-07-01T12:00:00.123Z"; Message.time := "1:00:00 PM" |}.

Definition later_message : Message.row :=
  {| Message.id := 1; Message.text := "Ready"; Message.sender := "portal";
     Message.timestamp := "2024-07-01T12:01:00.123Z"; Message.time := "1:01:00 PM" |}.

Definition two_messages : Database :=
  {| transactions := []; transactions_seq := 0;
     messages := [later_message; earlier_message]; messages_seq := 2 |}.

(** ** Proof steps used more than once *)

(** Split on every test of an [if] and read the comparisons as orders. *)
Ltac split_ifs :=
  repeat match goal with
  | H : context [if ?b then _ else _] |- _ => destruct b eqn:?
  | |- context [if ?b then _ else _] => destruct b eqn:?
  end;
  rewrite ?Z.leb_le, ?Z.leb_gt, ?Z.ltb_lt, ?Z.ltb_ge in *.

(** The cases of a period: empty, [all], one of the four windows, other. *)
Ltac period_cases s :=
  destruct (String.eqb_spec s EmptyString) as [->|?];
  [|destruct (String.eqb_spec s "all") as [->|?];
    [|destruct (String.eqb_spec s "day") as [->|?];
      [|destruct (String.eqb_spec s "week") as [->|?];
        [|destruct (String.eqb_spec s "month") as [->|?];
          [|destruct (String.eqb_spec s "year") as [->|?]]]]]].

(** The twelve months. *)
Ltac month_cases m :=
  let H := fresh "Hcases" in
  assert (H : m = 1 \/ m = 2 \/ m = 3 \/ m = 4 \/ m = 5 \/ m = 6 \/ m = 7 \/ m = 8 \/ m = 9
              \/ m = 10 \/ m = 11 \/ m = 12) by lia;
  destruct H as [->|[->|[->|[->|[->|[->|[->|[->|[->|[->|[->| ->]]]]]]]]]]].

(** Decide the comparisons of numerals. *)
Ltac eval_tests :=
  repeat match goal with
  | |- context [?a <=? ?b] =>
      let v := eval vm_compute in (a <=? b) in
      match v with true => idtac | false => idtac end; change (a <=? b) with v
  | |- context [?a <? ?b] =>
      let v := eval vm_compute in (a <? b) in
      match v with true => idtac | false => idtac end; change (a <? b) with v
  | |- context [?a =? ?b] =>
      let v := eval vm_compute in (a =? b) in
      match v with true => idtac | false => idtac end; change (a =? b) with v
  end;
  cbn [andb orb negb]; cbv iota.

(** * Properties *)

(** ** The runtime on samples *)

Example civil_epoch : Calendar.civil_from_days 0 = (1970, 1, 1).
Proof. reflexivity. Qed.

Example civil_leap_day : Calendar.civil_from_days 19782 = (2024, 2, 29).
Proof. reflexivity. Qed.

Example days_leap_day : Calendar.days_from_civil 2024 2 29 = 19782.
Proof. reflexivity. Qed.

Example civil_before_epoch : Calendar.civil_from_days (-1) = (1969, 12, 31).
Proof. reflexivity. Qed.

Example toString_samples :
  map Number.toString [10; 2; 8; 0.5; 2.5; 0.1; 0.30000000000000004; 1e21; 123456789012345680000; 1e-7; 0.000001; -1.5e300; 5e-324; 1.7976931348623157e308; 100; 0.1 + 0.2 + 0.3]%float
  = ["10"; "2"; "8"; "0.5"; "2.5"; "0.1"; "0.30000000000000004"; "1e+21"; "123456789012345680000"; "1e-7"; "0.000001"; "-1.5e+300"; "5e-324"; "1.7976931348623157e+308"; "100"; "0.6000000000000001"].
Proof. vm_compute. reflexivity. Qed.

Example parseFloat_samples :
  map Number.parseFloat_string ["12"; "  2.50abc"; "-5"; ".5"; "1e3"; "1e"; "0.1"; "Infinityx"; "+7."]
  = [12; 2.5; -5; 0.5; 1000; 1; 0.1; infinity; 7]%float.
Proof. vm_compute. reflexivity. Qed.

Example parseFloat_not_a_number :
  map (fun s => Number.isNaN (Number.parseFloat_string s)) ["abc"; ""; "."; "e5"; "-"; "true"]
  = [true; true; true; true; true; true].
Proof. vm_compute. reflexivity. Qed.

(** Printing a number and reading the text back gives the number, which is
    what [parseFloat] of a number relies on. *)
Example toString_reads_back :
  forallb (fun x => PrimFloat.eqb (Number.parseFloat_string (Number.toString x)) x)
    [10; 2.5; 0.1; 0.30000000000000004; 1e21; 1e-7; 123456.789; 5e-324;
     1.7976931348623157e308; -42.75]%float
  = true.
Proof. vm_compute. reflexivity. Qed.

(** White space before the number is skipped, also where it takes more
    than one byte: a no-break space and a byte order mark. *)
Example parseFloat_skips_white_space :
  map Number.parseFloat_string
    [String (ascii_of_nat 194) (String (ascii_of_nat 160) "12");
     String (ascii_of_nat 239) (String (ascii_of_nat 187) (String (ascii_of_nat 191) " 2.5"));
     String (ascii_of_nat 9) (String (ascii_of_nat 226) (String (ascii_of_nat 128)
       (String (ascii_of_nat 168) "-7")))]
  = [12; 2.5; -7]%float.
Proof. vm_compute. reflexivity. Qed.

Example toISOString_sample : toISOString 1719835200123 = "2024-07-01T12:00:00.123Z".
Proof. vm_compute. reflexivity. Qed.

Example iso_parse_samples :
  map iso_Date_parse ["2024-07-01T12:00:00.123Z"; "2024-01-01"; "hello"; "2024-13-01"]
  = [Some 1719835200123; Some 1704067200000; None; None].
Proof. vm_compute. reflexivity. Qed.


(** ** The order of a sorted list *)

Section OrderByFacts.

Context {A : Type} (R : A -> A -> Prop) `{!forall x y, Decision (R x y)}.

Lemma order_insert_Permutation x l : order_insert R x l ≡ₚ x :: l.
Proof.
  induction l as [|y l IH]; [done|]. cbn [order_insert].
  destruct (decide (R x y)); [done|]. rewrite IH. apply Permutation_swap.
Qed.

(** Sorting keeps the rows, each as often as it was there. *)
Lemma order_by_Permutation l : order_by R l ≡ₚ l.
Proof.
  induction l as [|x l IH]; [done|]. cbn [order_by foldr].
  rewrite order_insert_Permutation. by f_equiv.
Qed.

Lemma Sorted_order_insert x l : Total R -> Sorted R l -> Sorted R (order_insert R x l).
Proof.
  intros HT. induction l as [|y l IH]; intros HS; cbn [order_insert].
  - by repeat constructor.
  - destruct (decide (R x y)) as [Hxy|Hxy].
    + constructor; [done|]. by constructor.
    + apply Sorted_inv in HS as [HS Hhd]. constructor; [by apply IH|].
      destruct l as [|z l]; cbn [order_insert].
      * constructor. by destruct (HT x y).
      * destruct (decide (R x z)); constructor.
        -- by destruct (HT x y).
        -- by apply HdRel_inv in Hhd.
Qed.

Lemma Sorted_order_by : Total R -> forall l, Sorted R (order_by R l).
Proof.
  intros HT l. induction l as [|x l IH]; [constructor|].
  cbn [order_by foldr]. by apply Sorted_order_insert.
Qed.

End OrderByFacts.

(** Rows stamped alike stay in the order of their rowids. *)
Example ties_in_rowid_order :
  let stamped id timestamp :=
    {| Transaction.id := id; Transaction.customerName := "A"; Transaction.phoneNumber := "1";
       Transaction.service := "X"; Transaction.amountPaid := 10; Transaction.serviceBy := "B";
       Transaction.expenses := 0; Transaction.date := "2024-07-01";
       Transaction.timestamp := timestamp |} in
  map Transaction.id
    (order_by_timestamp_desc
       [stamped 1 "2024-07-01T12:00:00.000Z"; stamped 2 "2024-07-01T12:00:00.000Z";
        stamped 3 "2024-07-01T12:00:00.000Z"; stamped 4 "2024-07-01T09:00:00.000Z";
        stamped 5 "2024-07-01T12:00:00.000Z"; stamped 6 "2024-07-01T12:00:01.000Z"])
  = [6; 1; 2; 3; 5; 4].
Proof. vm_compute. reflexivity. Qed.

Lemma newer_first_total : Total newer_first.
Proof.
  intros a b. unfold newer_first.
  destruct (String.leb_total (Transaction.timestamp b) (Transaction.timestamp a)); auto.
Qed.

Lemma order_by_timestamp_desc_sorted rows : Sorted newer_first (order_by_timestamp_desc rows).
Proof. apply (Sorted_order_by newer_first newer_first_total). Qed.

(** ** The calendar *)

Section CalendarFacts.

Import Calendar.

Lemma march_first_mono a b : a <= b -> march_first a <= march_first b.
Proof. unfold march_first. intros. Z.div_mod_to_equations; lia. Qed.

Lemma march_first_year a : 365 <= march_first (a + 1) - march_first a <= 366.
Proof. unfold march_first. Z.div_mod_to_equations; lia. Qed.

(** A day number splits into a year that starts in March and a day of it. *)
Lemma civil_from_days_shifted n :
  exists ys doy,
    n + 719468 = march_first ys + doy /\ 0 <= doy /\
    march_first ys + doy < march_first (ys + 1) /\
    civil_from_days n = (ys + (month_day doy).1.1, (month_day doy).1.2, (month_day doy).2).
Proof.
  set (z := n + 719468).
  set (doe := z mod daysPerEra).
  set (yoe := (doe - doe / 1460 + doe / 36524 - doe / 146096) / 365).
  exists (yoe + z / daysPerEra * 400), (doe - (365 * yoe + yoe / 4 - yoe / 100)).
  unfold civil_from_days, civil_of_doe, month_day. cbv zeta. fold z. fold doe. fold yoe.
  cbn [fst snd].
  set (doy := doe - (365 * yoe + yoe / 4 - yoe / 100)).
  assert (Hz : z = z / daysPerEra * daysPerEra + doe /\ 0 <= doe < 146097).
  { unfold doe, daysPerEra. Z.div_mod_to_equations; lia. }
  assert (Hyoe : 0 <= yoe <= 399 /\ 365 * yoe + yoe / 4 - yoe / 100 <= doe /\
     (doe < 365 * (yoe + 1) + (yoe + 1) / 4 - (yoe + 1) / 100 \/ (yoe = 399 /\ doe = 146096))).
  { unfold yoe. destruct Hz as [_ Hz]. revert Hz. generalize doe. intros.
    Z.div_mod_to_equations; lia. }
  assert (Hm : march_first (yoe + z / daysPerEra * 400)
               = z / daysPerEra * daysPerEra + (365 * yoe + yoe / 4 - yoe / 100)).
  { unfold march_first, daysPerEra. destruct Hyoe as [Hy _]. revert Hy.
    generalize yoe (z / 146097). intros. Z.div_mod_to_equations; lia. }
  assert (Hm1 : march_first (yoe + z / daysPerEra * 400 + 1)
                = z / daysPerEra * daysPerEra
                  + (365 * (yoe + 1) + (yoe + 1) / 4 - (yoe + 1) / 100
                     + (if yoe =? 399 then 1 else 0))).
  { unfold march_first, daysPerEra. destruct Hyoe as [Hy _]. revert Hy.
    generalize yoe (z / 146097). intros y e Hy.
    destruct (Z.eqb_spec y 399) as [->|Hne]; [|assert (y <= 398) by lia];
      Z.div_mod_to_equations; lia. }
  split; [|split; [|split]].
  - rewrite Hm. unfold doy. lia.
  - unfold doy. lia.
  - rewrite Hm, Hm1. unfold doy, daysPerEra.
    destruct Hyoe as (_ & _ & Hyoe). revert Hyoe. generalize yoe doe. intros y e Hy.
    destruct (Z.eqb_spec y 399) as [->|Hne]; Z.div_mod_to_equations; lia.
  - assert (0 <= doy <= 365).
    { unfold doy. destruct Hyoe as (? & ? & [?|[? ?]]); [|subst; Z.div_mod_to_equations; lia].
      split; [lia|]. revert H H0 H1. generalize yoe doe. intros.
      Z.div_mod_to_equations; lia. }
    revert H. generalize doy. intros doy' H.
    f_equal. f_equal.
    split_ifs; try lia; exfalso; Z.div_mod_to_equations; lia.
Qed.

Lemma month_day_spec doy :
  0 <= doy <= 365 ->
  let '(c, m, d) := month_day doy in
  1 <= m <= 12 /\ 1 <= d <= 31 /\ (c = 0 /\ 3 <= m \/ c = 1 /\ m <= 2).
Proof.
  intros H. unfold month_day. cbv zeta. split_ifs; Z.div_mod_to_equations; lia.
Qed.

Lemma month_day_mono doy1 doy2 :
  0 <= doy1 <= doy2 -> doy2 <= 365 -> lex_le (month_day doy1) (month_day doy2).
Proof.
  intros H1 H2. unfold lex_le, month_day. cbv zeta. cbn [fst snd].
  split_ifs; Z.div_mod_to_equations; lia.
Qed.

(** Later days have later dates. *)
Lemma civil_from_days_mono n1 n2 :
  n1 <= n2 -> lex_le (civil_from_days n1) (civil_from_days n2).
Proof.
  intros Hle.
  destruct (civil_from_days_shifted n1) as (ys1 & doy1 & Hn1 & Hd1 & Hlt1 & ->).
  destruct (civil_from_days_shifted n2) as (ys2 & doy2 & Hn2 & Hd2 & Hlt2 & ->).
  pose proof (march_first_year ys1). pose proof (march_first_year ys2).
  assert (Hc : ys1 < ys2 \/ (ys1 = ys2 /\ doy1 <= doy2)).
  { destruct (Z.lt_trichotomy ys1 ys2) as [?|[->|?]]; [lia| right; split; [done|lia] |].
    exfalso. pose proof (march_first_mono (ys2 + 1) ys1 ltac:(lia)). lia. }
  pose proof (month_day_spec doy1 ltac:(lia)) as S1.
  pose proof (month_day_spec doy2 ltac:(lia)) as S2.
  destruct Hc as [Hc|[-> Hc]].
  - unfold lex_le. cbn [fst snd].
    destruct (month_day doy1) as [[c1 m1] d1], (month_day doy2) as [[c2 m2] d2].
    cbn [fst snd]. lia.
  - pose proof (month_day_mono doy1 doy2 ltac:(lia) ltac:(lia)) as M.
    unfold lex_le in *. cbn [fst snd].
    destruct (month_day doy1) as [[c1 m1] d1], (month_day doy2) as [[c2 m2] d2].
    cbn [fst snd] in *. lia.
Qed.

(** The date of a day number names that day: month and day are in range,
    and MakeDay of the date gives the day number back. *)
Lemma civil_from_days_spec n y m d :
  civil_from_days n = (y, m, d) ->
  1 <= m <= 12 /\ 1 <= d <= 31 /\ days_from_civil y m 1 + d - 1 = n.
Proof.
  unfold civil_from_days, civil_of_doe, days_from_civil, daysPerEra.
  cbv zeta. intros H. injection H as Hy Hm Hd.
  split_ifs.
  all: Z.div_mod_to_equations; lia.
Qed.

(** [days_from_civil] through [march_first]. *)
Lemma days_from_civil_march y m d :
  days_from_civil y m d
  = march_first (if m <=? 2 then y - 1 else y)
    + (153 * (if 2 <? m then m - 3 else m + 9) + 2) / 5 + d - 1 - 719468.
Proof.
  unfold days_from_civil, march_first, daysPerEra. cbv zeta.
  generalize (if m <=? 2 then y - 1 else y). intros y'.
  generalize ((153 * (if 2 <? m then m - 3 else m + 9) + 2) / 5). intros.
  assert (y' mod 400 / 4 = y' / 4 - 100 * (y' / 400)) by (Z.div_mod_to_equations; lia).
  assert (y' mod 400 / 100 = y' / 100 - 4 * (y' / 400)) by (Z.div_mod_to_equations; lia).
  Z.div_mod_to_equations; lia.
Qed.

Lemma MakeDay_civil t :
  MakeDay (YearFromTime t) (MonthFromTime t) (DateFromTime t) = Day t.
Proof.
  unfold MakeDay, YearFromTime, MonthFromTime, DateFromTime.
  destruct (civil_from_days (Day t)) as [[y m] d] eqn:E. cbn [fst snd].
  apply civil_from_days_spec in E as (Hm & Hd & E).
  replace ((m - 1) / 12) with 0 by (Z.div_mod_to_equations; lia).
  replace ((m - 1) mod 12 + 1) with m by (Z.div_mod_to_equations; lia).
  rewrite Z.add_0_r. lia.
Qed.

(** MakeDay is linear in the date. *)
Lemma MakeDay_date y m d k : MakeDay y m (d + k) = MakeDay y m d + k.
Proof. unfold MakeDay. lia. Qed.

(** The month before and the year before do not come later, and neither
    comes before the first of January of the year before. *)
Lemma MakeDay_month_before y m d :
  0 <= m <= 11 -> 1 <= d ->
  days_from_civil (y - 1) 1 1 <= MakeDay y (m - 1) d <= MakeDay y m d.
Proof.
  intros Hm Hd. unfold MakeDay.
  pose proof (march_first_year (y - 2)). pose proof (march_first_year (y - 1)).
  replace (y - 2 + 1) with (y - 1) in * by lia.
  replace (y - 1 + 1) with y in * by lia.
  replace (m / 12) with 0 by (Z.div_mod_to_equations; lia).
  replace (m mod 12) with m by (Z.div_mod_to_equations; lia).
  destruct (Z.eq_dec m 0) as [->|].
  - change ((0 - 1) / 12) with (-1). change ((0 - 1) mod 12 + 1) with 12.
    rewrite !days_from_civil_march.
    change (12 <=? 2) with false. change (2 <? 12) with true.
    change (0 + 1 <=? 2) with true. change (2 <? 0 + 1) with false.
    change (1 <=? 2) with true. change (2 <? 1) with false.
    cbv iota. 
    replace (y + -1) with (y - 1) by lia.
    replace (y + 0 - 1) with (y - 1) by lia. 
    change ((153 * (12 - 3) + 2) / 5) with 275.
    change ((153 * (0 + 1 + 9) + 2) / 5) with 306.
    change ((153 * (1 + 9) + 2) / 5) with 306.
    replace (y - 1 - 1) with (y - 2) by lia. lia.
  - replace ((m - 1) / 12) with 0 by (Z.div_mod_to_equations; lia).
    replace ((m - 1) mod 12) with (m - 1) by (Z.div_mod_to_equations; lia).
    rewrite !days_from_civil_march.
    rewrite !Z.add_0_r. 
    change (1 <=? 2) with true. change (2 <? 1) with false. cbv iota.
    change ((153 * (1 + 9) + 2) / 5) with 306.
    replace (y - 1 - 1) with (y - 2) by lia.
    split_ifs; try lia; Z.div_mod_to_equations; lia.
Qed.

Lemma MakeDay_year_before y m d :
  0 <= m <= 11 -> 1 <= d ->
  days_from_civil (y - 1) 1 1 <= MakeDay (y - 1) m d <= MakeDay y m d.
Proof.
  intros Hm Hd. unfold MakeDay. rewrite !days_from_civil_march.
  pose proof (march_first_year (y - 2)). pose proof (march_first_year (y - 1)).
  replace (y - 2 + 1) with (y - 1) in * by lia.
  replace (y - 1 + 1) with y in * by lia.
  replace (m / 12) with 0 by (Z.div_mod_to_equations; lia).
  replace (m mod 12) with m by (Z.div_mod_to_equations; lia).
  rewrite !Z.add_0_r. replace (y - 1 - 1) with (y - 2) by lia.
  change (1 <=? 2) with true. change (2 <? 1) with false. cbv iota.
  change ((153 * (1 + 9) + 2) / 5) with 306.
  split_ifs; try lia; Z.div_mod_to_equations; lia.
Qed.

(** The first of January is the first day of its year. *)
Lemma civil_from_days_january y : civil_from_days (days_from_civil y 1 1) = (y, 1, 1).
Proof.
  destruct (civil_from_days_shifted (days_from_civil y 1 1)) as (ys & doy & Hn & Hd & Hlt & ->).
  rewrite days_from_civil_march in Hn.
  change (1 <=? 2) with true in Hn. change (2 <? 1) with false in Hn. cbv iota in Hn.
  change ((153 * (1 + 9) + 2) / 5) with 306 in Hn.
  pose proof (march_first_year ys). pose proof (march_first_year (y - 1)).
  assert (ys = y - 1).
  { destruct (Z.lt_trichotomy ys (y - 1)) as [?|[?|?]]; [|done|]; exfalso.
    - pose proof (march_first_mono (ys + 1) (y - 1) ltac:(lia)). lia.
    - pose proof (march_first_mono (y - 1 + 1) ys ltac:(lia)). lia. }
  subst ys. assert (doy = 306) by lia. subst doy.
  change (month_day 306) with (1, 1, 1). cbn [fst snd]. f_equal. f_equal. lia.
Qed.

(** No day of a year comes before its first of January. *)
Lemma days_from_civil_january n y m d :
  civil_from_days n = (y, m, d) -> days_from_civil y 1 1 <= n.
Proof.
  intros E. apply civil_from_days_spec in E as (Hm & Hd & E).
  rewrite !days_from_civil_march in *.
  pose proof (march_first_year (y - 1)). replace (y - 1 + 1) with y in * by lia.
  change (1 <=? 2) with true. change (2 <? 1) with false. cbv iota.
  change ((153 * (1 + 9) + 2) / 5) with 306.
  revert E. split_ifs; try lia; intros; Z.div_mod_to_equations; lia.
Qed.

(** A date up to the 28th is the date of its day number. *)
Lemma civil_from_days_date y m d :
  1 <= m <= 12 -> 1 <= d <= 28 -> civil_from_days (days_from_civil y m d) = (y, m, d).
Proof.
  intros Hm Hd.
  destruct (civil_from_days_shifted (days_from_civil y m d)) as (ys & doy & Hn & Hd0 & Hlt & ->).
  rewrite days_from_civil_march in Hn.
  set (y' := if m <=? 2 then y - 1 else y) in *.
  set (mp := if 2 <? m then m - 3 else m + 9) in *.
  assert (Hmp : 0 <= mp <= 11 /\ (m <= 2 /\ mp = m + 9 /\ y' = y - 1 \/ 3 <= m /\ mp = m - 3 /\ y' = y)).
  { unfold mp, y'. split_ifs; lia. }
  assert (Hoff : 0 <= (153 * mp + 2) / 5 <= 337) by (Z.div_mod_to_equations; lia).
  pose proof (march_first_year ys). pose proof (march_first_year y').
  assert (ys = y').
  { destruct (Z.lt_trichotomy ys y') as [?|[?|?]]; [|done|]; exfalso.
    - pose proof (march_first_mono (ys + 1) y' ltac:(lia)). lia.
    - pose proof (march_first_mono (y' + 1) ys ltac:(lia)). lia. }
  subst ys. assert (Hdoy : doy = (153 * mp + 2) / 5 + d - 1) by lia.
  clear Hn Hlt H H0.
  unfold month_day. cbv zeta. cbn [fst snd].
  assert (Emp : (5 * doy + 2) / 153 = mp).
  { rewrite Hdoy. destruct Hmp as [Hmp _]. revert Hmp Hd. generalize mp. intros.
    Z.div_mod_to_equations; lia. }
  rewrite Emp. f_equal; [f_equal|]; split_ifs; lia.
Qed.

(** The month before: the same day of the month before, in December of the
    year before for a day in January. *)
Lemma MakeDay_month_before_date y m d :
  1 <= m <= 12 -> 1 <= d <= 28 ->
  civil_from_days (MakeDay y (m - 1 - 1) d)
  = if m =? 1 then (y - 1, 12, d) else (y, m - 1, d).
Proof.
  intros Hm Hd. unfold MakeDay.
  destruct (Z.eqb_spec m 1) as [->|Hne].
  - change ((1 - 1 - 1) / 12) with (-1). change ((1 - 1 - 1) mod 12 + 1) with 12.
    replace (days_from_civil (y + -1) 12 1 + d - 1) with (days_from_civil (y - 1) 12 d)
      by (unfold days_from_civil; replace (y + -1) with (y - 1) by lia; cbn; lia).
    by apply civil_from_days_date.
  - replace ((m - 1 - 1) / 12) with 0 by (Z.div_mod_to_equations; lia).
    replace ((m - 1 - 1) mod 12 + 1) with (m - 1) by (Z.div_mod_to_equations; lia).
    replace (days_from_civil (y + 0) (m - 1) 1 + d - 1) with (days_from_civil y (m - 1) d)
      by (unfold days_from_civil; rewrite Z.add_0_r; cbv zeta; lia).
    apply civil_from_days_date; lia.
Qed.

(** The year before: the same month and day of the year before. *)
Lemma MakeDay_year_before_date y m d :
  1 <= m <= 12 -> 1 <= d <= 28 ->
  civil_from_days (MakeDay (y - 1) (m - 1) d) = (y - 1, m, d).
Proof.
  intros Hm Hd. unfold MakeDay.
  replace ((m - 1) / 12) with 0 by (Z.div_mod_to_equations; lia).
  replace ((m - 1) mod 12 + 1) with m by (Z.div_mod_to_equations; lia).
  replace (days_from_civil (y - 1 + 0) m 1 + d - 1) with (days_from_civil (y - 1) m d)
    by (unfold days_from_civil; rewrite Z.add_0_r; cbv zeta; lia).
  by apply civil_from_days_date.
Qed.

End CalendarFacts.

(** ** The calendar on the wall *)

Section WallCalendar.

Import Calendar.

(** A year counted from March has 366 days when the February at its end is
    that of a leap year. *)
Lemma march_first_leap a :
  march_first (a + 1) - march_first a = if leap_year (a + 1) then 366 else 365.
Proof.
  unfold march_first, leap_year.
  destruct ((a + 1) mod 4 =? 0) eqn:E4, ((a + 1) mod 100 =? 0) eqn:E100,
    ((a + 1) mod 400 =? 0) eqn:E400; cbn [andb orb negb];
    rewrite ?Z.eqb_eq, ?Z.eqb_neq in *; Z.div_mod_to_equations; lia.
Qed.

(** The first of a month through [march_first]. *)
Lemma days_from_civil_first y m :
  1 <= m <= 12 ->
  days_from_civil y m 1
  = march_first (if m <=? 2 then y - 1 else y) + month_offset m - 719468.
Proof.
  intros Hm. rewrite days_from_civil_march. month_cases m; eval_tests;
    match goal with
    | |- context [(?a / 5)] => let v := eval vm_compute in (a / 5) in change (a / 5) with v
    end;
    match goal with
    | |- context [month_offset ?a] =>
        let v := eval vm_compute in (month_offset a) in change (month_offset a) with v
    end; lia.
Qed.

Lemma days_in_month_range y m : 28 <= days_in_month y m <= 31.
Proof. unfold days_in_month. split_ifs; lia. Qed.

(** The first of the next month comes as many days after the first of a
    month as the month has days. *)
Lemma days_from_civil_next_month y m :
  1 <= m <= 12 ->
  days_from_civil (next_month y m).1 (next_month y m).2 1
  = days_from_civil y m 1 + days_in_month y m.
Proof.
  intros Hm. unfold next_month, days_in_month.
  pose proof (march_first_leap (y - 1)) as Hleap. replace (y - 1 + 1) with y in Hleap by lia.
  month_cases m; eval_tests; cbn [fst snd]; rewrite !days_from_civil_first by lia;
    eval_tests;
    repeat match goal with
    | |- context [month_offset ?a] =>
        let v := eval vm_compute in (month_offset a) in change (month_offset a) with v
    end;
    replace (y + 1 - 1) with y by lia; destruct (leap_year y); lia.
Qed.

Lemma previous_next_month y m :
  1 <= m <= 12 ->
  next_month (previous_month y m).1 (previous_month y m).2 = (y, m)
  /\ 1 <= (previous_month y m).2 <= 12.
Proof.
  intros Hm. unfold next_month, previous_month.
  destruct (Z.eqb_spec m 1) as [->|Hne]; cbn [fst snd]; [split; [f_equal; lia|lia]|].
  destruct (Z.eqb_spec (m - 1) 12); [lia|]. split; [f_equal; lia|lia].
Qed.

(** The first of a month comes as many days after the first of the month
    before as that month has days. *)
Lemma days_from_civil_previous_month y m :
  1 <= m <= 12 ->
  days_from_civil y m 1
  = days_from_civil (previous_month y m).1 (previous_month y m).2 1
    + days_in_month (previous_month y m).1 (previous_month y m).2.
Proof.
  intros Hm. destruct (previous_next_month y m Hm) as [E Hpm].
  rewrite <- days_from_civil_next_month by done. by rewrite E.
Qed.

Lemma days_from_civil_day y m d : days_from_civil y m d = days_from_civil y m 1 + d - 1.
Proof. unfold days_from_civil. cbv zeta. lia. Qed.

(** A date of the calendar is the date of its day number. *)
Lemma civil_from_days_calendar y m d :
  calendar_date (y, m, d) -> civil_from_days (days_from_civil y m d) = (y, m, d).
Proof.
  intros [Hm Hd]. cbn [fst snd] in Hm, Hd.
  destruct (Z_le_gt_dec d 28) as [Hle|Hgt]; [apply civil_from_days_date; lia|].
  (* the days after the 28th: the day number lies between those of the 28th
     and of the first of the next month, and so does its date *)
  pose proof (civil_from_days_date y m 28 Hm ltac:(lia)) as E28.
  pose proof (days_from_civil_next_month y m Hm) as Enext.
  assert (Hnm' : 1 <= (next_month y m).2 <= 12).
  { unfold next_month. destruct (Z.eqb_spec m 12); cbn [snd]; lia. }
  pose proof (civil_from_days_date (next_month y m).1 (next_month y m).2 1 Hnm' ltac:(lia))
    as Efirst.
  rewrite (days_from_civil_day y m d).
  rewrite (days_from_civil_day y m 28) in E28.
  set (n0 := days_from_civil y m 1) in *.
  pose proof (civil_from_days_mono (n0 + 28 - 1) (n0 + d - 1) ltac:(lia)) as Hlo.
  pose proof (civil_from_days_mono (n0 + d - 1) (n0 + days_in_month y m - 1 + 1) ltac:(lia))
    as Hhi.
  replace (n0 + days_in_month y m - 1 + 1) with (n0 + days_in_month y m) in Hhi by lia.
  rewrite <- Enext, Efirst in Hhi. rewrite E28 in Hlo.
  destruct (civil_from_days (n0 + d - 1)) as [[y' m'] d'] eqn:E.
  apply civil_from_days_spec in E as (Hm' & Hd' & E).
  unfold lex_le in Hlo, Hhi. cbn [fst snd] in Hlo, Hhi.
  assert (Hym : y' = y /\ m' = m).
  { unfold next_month in Hhi, Enext.
    destruct (Z.eqb_spec m 12); cbn [fst snd] in Hhi, Enext.
    - destruct (Z.eq_dec y' (y + 1)) as [->|?]; [|lia].
      destruct (Z.eq_dec m' 1) as [->|?]; [|lia]. lia.
    - destruct (Z.eq_dec y' y) as [->|?]; [|lia].
      destruct (Z.eq_dec m' (m + 1)) as [->|?]; [|lia]. lia. }
  destruct Hym as [-> ->]. fold n0 in E. f_equal. lia.
Qed.

(** The date of a day number is on the calendar. *)
Lemma civil_from_days_on_calendar n : calendar_date (civil_from_days n).
Proof.
  destruct (civil_from_days n) as [[y m] d] eqn:E.
  pose proof (civil_from_days_spec _ _ _ _ E) as (Hm & Hd & En).
  split; cbn [fst snd]; [done|]. split; [lia|].
  destruct (Z_le_gt_dec d (days_in_month y m)) as [?|Hgt]; [done|exfalso].
  pose proof (days_from_civil_next_month y m Hm) as Enext.
  assert (Hnm : 1 <= (next_month y m).2 <= 12).
  { unfold next_month. destruct (Z.eqb_spec m 12); cbn [snd]; lia. }
  pose proof (civil_from_days_date (next_month y m).1 (next_month y m).2 1 Hnm ltac:(lia))
    as Efirst.
  pose proof (civil_from_days_mono (days_from_civil (next_month y m).1 (next_month y m).2 1) n
                ltac:(lia)) as Hle.
  rewrite Efirst, E in Hle. unfold lex_le, next_month in Hle.
  destruct (Z.eqb_spec m 12); cbn [fst snd] in Hle; lia.
Qed.

(** The day before, by the calendar, is the day numbered one less. *)
Lemma civil_from_days_previous n : civil_from_days (n - 1) = previous_day (civil_from_days n).
Proof.
  pose proof (civil_from_days_on_calendar n) as [Hm Hd].
  destruct (civil_from_days n) as [[y m] d] eqn:E. cbn [fst snd] in Hm, Hd.
  apply civil_from_days_spec in E as (_ & _ & En). unfold previous_day.
  destruct (Z.ltb_spec 1 d) as [Hd1|Hd1].
  - replace (n - 1) with (days_from_civil y m (d - 1)) by (rewrite days_from_civil_day; lia).
    apply civil_from_days_calendar. split; cbn [fst snd]; lia.
  - destruct (previous_next_month y m Hm) as [_ Hpm].
    destruct (previous_month y m) as [py pm] eqn:Ep. cbn [fst snd] in Hpm.
    pose proof (days_from_civil_previous_month y m Hm) as Eprev.
    rewrite Ep in Eprev. cbn [fst snd] in Eprev.
    replace (n - 1) with (days_from_civil py pm (days_in_month py pm))
      by (rewrite (days_from_civil_day py pm); lia).
    apply civil_from_days_calendar. pose proof (days_in_month_range py pm).
    split; cbn [fst snd]; lia.
Qed.

Lemma civil_from_days_earlier k : forall n,
  civil_from_days (n - Z.of_nat k) = Nat.iter k previous_day (civil_from_days n).
Proof.
  induction k as [|k IH]; intros n.
  - cbn. f_equal. lia.
  - replace (n - Z.of_nat (S k)) with (n - Z.of_nat k - 1) by lia.
    rewrite civil_from_days_previous, IH. reflexivity.
Qed.

(** Seven days before, by the calendar. *)
Lemma civil_from_days_week n : civil_from_days (n - 7) = week_earlier (civil_from_days n).
Proof. apply (civil_from_days_earlier 7). Qed.

(** The day [Date.setMonth] moves to is the calendar's date a month
    earlier. *)
Lemma MakeDay_month_earlier n y m d :
  civil_from_days n = (y, m, d) ->
  civil_from_days (MakeDay y (m - 1 - 1) d) = month_earlier (y, m, d).
Proof.
  intros E. pose proof (civil_from_days_on_calendar n) as [Hm Hd].
  rewrite E in Hm, Hd. cbn [fst snd] in Hm, Hd.
  destruct (previous_next_month y m Hm) as [_ Hpm].
  pose proof (days_from_civil_previous_month y m Hm) as Eprev.
  assert (EM : MakeDay y (m - 1 - 1) d
               = days_from_civil (previous_month y m).1 (previous_month y m).2 1 + d - 1).
  { unfold MakeDay, previous_month. destruct (Z.eqb_spec m 1) as [->|Hne]; cbn [fst snd].
    - change ((1 - 1 - 1) / 12) with (-1). change ((1 - 1 - 1) mod 12 + 1) with 12.
      by replace (y + -1) with (y - 1) by lia.
    - replace ((m - 1 - 1) / 12) with 0 by (Z.div_mod_to_equations; lia).
      replace ((m - 1 - 1) mod 12 + 1) with (m - 1) by (Z.div_mod_to_equations; lia).
      by rewrite Z.add_0_r. }
  rewrite EM. unfold month_earlier.
  destruct (previous_month y m) as [py pm] eqn:Ep. cbn [fst snd] in *.
  pose proof (days_in_month_range py pm). pose proof (days_in_month_range y m).
  destruct (Z.leb_spec d (days_in_month py pm)) as [Hle|Hgt].
  - rewrite <- days_from_civil_day. apply civil_from_days_calendar.
    split; cbn [fst snd]; lia.
  - replace (days_from_civil py pm 1 + d - 1)
      with (days_from_civil y m (d - days_in_month py pm))
      by (rewrite (days_from_civil_day y m); lia).
    apply civil_from_days_calendar. split; cbn [fst snd]; lia.
Qed.

(** The day [Date.setFullYear] moves to is the calendar's date a year
    earlier. *)
Lemma MakeDay_year_earlier n y m d :
  civil_from_days n = (y, m, d) ->
  civil_from_days (MakeDay (y - 1) (m - 1) d) = year_earlier (y, m, d).
Proof.
  intros E. pose proof (civil_from_days_on_calendar n) as [Hm Hd].
  rewrite E in Hm, Hd. cbn [fst snd] in Hm, Hd.
  assert (EM : MakeDay (y - 1) (m - 1) d = days_from_civil (y - 1) m 1 + d - 1).
  { unfold MakeDay.
    replace ((m - 1) / 12) with 0 by (Z.div_mod_to_equations; lia).
    replace ((m - 1) mod 12 + 1) with m by (Z.div_mod_to_equations; lia).
    by rewrite Z.add_0_r. }
  rewrite EM. unfold year_earlier.
  destruct (Z.leb_spec d (days_in_month (y - 1) m)) as [Hle|Hgt].
  - rewrite <- days_from_civil_day. apply civil_from_days_calendar.
    split; cbn [fst snd]; lia.
  - (* only the 29th of February is missing from the year before *)
    assert (Hfeb : m = 2 /\ d = 29 /\ days_in_month (y - 1) 2 = 28).
    { unfold days_in_month in *.
      destruct (Z.eqb_spec m 2) as [->|?]; [|destruct (_ || _); lia].
      change (2 =? 2) with true. cbv iota.
      destruct (leap_year y), (leap_year (y - 1)); lia. }
    destruct Hfeb as (-> & -> & E28).
    pose proof (days_from_civil_next_month (y - 1) 2 ltac:(lia)) as Enext.
    change (next_month (y - 1) 2) with (y - 1, 3) in Enext. cbn [fst snd] in Enext.
    replace (days_from_civil (y - 1) 2 1 + 29 - 1) with (days_from_civil (y - 1) 3 1) by lia.
    apply civil_from_days_date; lia.
Qed.

End WallCalendar.

(** ** Dates *)

Section DateFacts.

Import Calendar.

Variable rt : Runtime.

Lemma formatDate_OfDate d : formatDate rt (OfDate d) = local_date rt d.
Proof.
  destruct d as [t|]; [|reflexivity].
  unfold formatDate, local_date, date_string. cbn.
  unfold YearFromTime, MonthFromTime, DateFromTime.
  destruct (civil_from_days _) as [[y m] d]. cbn [fst snd].
  by replace (m - 1 + 1) with m by lia.
Qed.

Lemma formatDate_new_Date a : formatDate rt a = local_date rt (new_Date rt a).
Proof. rewrite <- formatDate_OfDate. reflexivity. Qed.

Lemma time_of_day t : MakeDate (Day t) (TimeWithinDay t) = t.
Proof. unfold MakeDate, Day, TimeWithinDay, msPerDay. Z.div_mod_to_equations; lia. Qed.

Lemma Day_MakeDate day t : Day (MakeDate day (TimeWithinDay t)) = day.
Proof. unfold MakeDate, Day, TimeWithinDay, msPerDay. Z.div_mod_to_equations; lia. Qed.

Lemma LocalTime_UTC t : LocalTime rt (UTC rt t) = t.
Proof. unfold LocalTime, UTC. lia. Qed.

(** [weekAgo.setDate(now.getDate() - 7)] is the time seven days before. *)
Lemma setDate_week now :
  setDate rt (Some now) (intnum_add (getDate rt (Some now)) (-7)) = days_before now 7.
Proof.
  unfold setDate, getDate, days_before. cbn. f_equal.
  replace (DateFromTime (LocalTime rt now) + -7) with (DateFromTime (LocalTime rt now) - 7) by lia.
  rewrite (MakeDay_date _ _ _ (-7)) || (unfold Z.sub at 1; rewrite MakeDay_date).
  rewrite MakeDay_civil.
  pose proof (time_of_day (LocalTime rt now)) as E.
  unfold MakeDate, UTC, LocalTime in *. lia.
Qed.

Lemma setMonth_month now :
  setMonth rt (Some now) (intnum_add (getMonth rt (Some now)) (-1)) = month_before rt now.
Proof.
  unfold setMonth, getMonth, month_before, on_local_day. cbn.
  unfold YearFromTime, MonthFromTime, DateFromTime.
  destruct (civil_from_days _) as [[y m] d]. cbn [fst snd].
  by replace (m - 1 + -1) with (m - 1 - 1) by lia.
Qed.

Lemma setFullYear_year now :
  setFullYear rt (Some now) (intnum_add (getFullYear rt (Some now)) (-1)) = year_before rt now.
Proof.
  unfold setFullYear, getFullYear, year_before, on_local_day. cbn.
  unfold YearFromTime, MonthFromTime, DateFromTime.
  destruct (civil_from_days _) as [[y m] d]. cbn [fst snd].
  by replace (y + -1) with (y - 1) by lia.
Qed.

End DateFacts.

(** ** The statements over the transactions table *)

Section QueryFacts.

Variable db : Database.

Lemma db_all_plain :
  db_all db "SELECT * FROM transactions" [] = Some (transactions db).
Proof. reflexivity. Qed.

Lemma db_all_ordered :
  db_all db "SELECT * FROM transactions ORDER BY timestamp DESC" []
  = Some (order_by_timestamp_desc (transactions db)).
Proof. reflexivity. Qed.

Lemma db_all_eq p :
  db_all db "SELECT * FROM transactions WHERE date = ?" [p]
  = Some (where_date_eq p (transactions db)).
Proof. reflexivity. Qed.

Lemma db_all_eq_ordered p :
  db_all db "SELECT * FROM transactions WHERE date = ? ORDER BY timestamp DESC" [p]
  = Some (order_by_timestamp_desc (where_date_eq p (transactions db))).
Proof. reflexivity. Qed.

Lemma db_all_ge p :
  db_all db "SELECT * FROM transactions WHERE date >= ?" [p]
  = Some (where_date_ge p (transactions db)).
Proof. reflexivity. Qed.

Lemma db_all_ge_ordered p :
  db_all db "SELECT * FROM transactions WHERE date >= ? ORDER BY timestamp DESC" [p]
  = Some (order_by_timestamp_desc (where_date_ge p (transactions db))).
Proof. reflexivity. Qed.

End QueryFacts.

(** ** The time window (claim C9) *)

Section WindowFacts.

Variable rt : Runtime.

(** What lines 80-110 compute, in the words of the window. *)
Lemma listTransactions_query_window clock filter :
  listTransactions_query rt clock filter
  = window_query (spec_window rt clock filter) " ORDER BY timestamp DESC".
Proof.
  unfold listTransactions_query, spec_window, new_Date.
  rewrite setDate_week, setMonth_month, setFullYear_year, !formatDate_OfDate.
  destruct filter as [s|]; [|reflexivity].
  unfold present, filter_is.
  period_cases s; try reflexivity.
  rewrite !decide_False by congruence. reflexivity.
Qed.

(** Lines 176-204. *)
Lemma analytics_query_window clock filter :
  analytics_query rt clock filter = window_query (spec_window rt clock filter) EmptyString.
Proof.
  unfold analytics_query, spec_window, new_Date.
  rewrite setDate_week, setMonth_month, setFullYear_year, !formatDate_OfDate.
  destruct filter as [s|]; [|reflexivity].
  unfold present, filter_is.
  period_cases s; try reflexivity.
  rewrite !decide_False by congruence. reflexivity.
Qed.

(** Lines 339-369. *)
Lemma export_query_window clock filter :
  export_query rt clock filter
  = window_query (spec_window rt clock filter) " ORDER BY timestamp DESC".
Proof.
  unfold export_query, spec_window, new_Date.
  rewrite setDate_week, setMonth_month, setFullYear_year, !formatDate_OfDate.
  destruct filter as [s|]; [|reflexivity].
  unfold present, filter_is.
  period_cases s; try reflexivity.
  rewrite !decide_False by congruence. reflexivity.
Qed.

Lemma db_all_window_ordered db w :
  (let '(query, params) := window_query w " ORDER BY timestamp DESC" in db_all db query params)
  = Some (order_by_timestamp_desc (List.filter (in_window w) (transactions db))).
Proof.
  destruct w as [|day|day]; cbn [window_query].
  - change (db_all db "SELECT * FROM transactions ORDER BY timestamp DESC" []
            = Some (order_by_timestamp_desc (List.filter (fun _ => true) (transactions db)))).
    rewrite db_all_ordered. do 2 f_equal.
    induction (transactions db) as [|r l IH]; [done|]. cbn. by rewrite <- IH.
  - apply db_all_eq_ordered.
  - apply db_all_ge_ordered.
Qed.

Lemma db_all_window_plain db w :
  (let '(query, params) := window_query w EmptyString in db_all db query params)
  = Some (List.filter (in_window w) (transactions db)).
Proof.
  destruct w as [|day|day]; cbn [window_query].
  - change (db_all db "SELECT * FROM transactions" []
            = Some (List.filter (fun _ => true) (transactions db))).
    rewrite db_all_plain. f_equal.
    induction (transactions db) as [|r l IH]; [done|]. cbn. by rewrite <- IH.
  - apply db_all_eq.
  - apply db_all_ge.
Qed.

Lemma listTransactions_rows_window clock db filter :
  listTransactions_rows rt clock db filter
  = Some (order_by_timestamp_desc
            (List.filter (in_window (spec_window rt clock filter)) (transactions db))).
Proof.
  unfold listTransactions_rows. rewrite listTransactions_query_window.
  apply db_all_window_ordered.
Qed.

Lemma export_rows_window clock db filter :
  export_rows rt clock db filter
  = Some (order_by_timestamp_desc
            (List.filter (in_window (spec_window rt clock filter)) (transactions db))).
Proof.
  unfold export_rows. rewrite export_query_window. apply db_all_window_ordered.
Qed.

Lemma analytics_rows_window clock db filter :
  analytics_rows rt clock db filter
  = Some (List.filter (in_window (spec_window rt clock filter)) (transactions db)).
Proof.
  unfold analytics_rows. rewrite analytics_query_window. apply db_all_window_plain.
Qed.

Lemma filter_NoFilter (rows : list Transaction.row) :
  List.filter (in_window NoFilter) rows = rows.
Proof. induction rows as [|r l IH]; [done|]. cbn. by rewrite IH. Qed.

(** C9.  For every period and table, the rows the export renders are the
    rows GET /api/transactions returns, in the same order, and the rows
    the analytics add up are the same rows in table order: all three
    handlers select by the same window. *)
Theorem same_window_everywhere clock db filter :
  exists rows considered,
    listTransactions_rows rt clock db filter = Some rows
    /\ export_rows rt clock db filter = Some rows
    /\ analytics_rows rt clock db filter = Some considered
    /\ considered ≡ₚ rows
    /\ (forall r, r ∈ considered <-> r ∈ rows)
    /\ listTransactions rt clock db filter = Json 200 (JArr (map row_json rows))
    /\ (forall format, exportTransactions rt clock db filter format
        = if filter_is format "csv"
          then Csv ("business_export_" ++ filter_or_all filter ++ "_"
                    ++ split_T_0 (toISOString clock) ++ ".csv") (generateCSV rows)
          else Json 200 (export_json clock filter rows))
    /\ analytics rt clock db filter
       = match computeAnalytics considered with
         | Some a => Json 200 (analytics_json a)
         | None => Threw
         end.
Proof.
  set (selected := List.filter (in_window (spec_window rt clock filter)) (transactions db)).
  exists (order_by_timestamp_desc selected), selected.
  assert (P : selected ≡ₚ order_by_timestamp_desc selected).
  { symmetry. apply order_by_Permutation. }
  split; [apply listTransactions_rows_window|].
  split; [apply export_rows_window|].
  split; [apply analytics_rows_window|].
  split; [exact P|].
  split; [intros r; unfold order_by_timestamp_desc; by rewrite order_by_Permutation|].
  split; [unfold listTransactions; by rewrite listTransactions_rows_window|].
  split.
  - intros format. unfold exportTransactions. by rewrite export_rows_window.
  - unfold analytics. by rewrite analytics_rows_window.
Qed.

End WindowFacts.

(** The windows of 2024-03-31 12:00 UTC: the month before the 31st of March
    is carried over from the 31st of February to the 2nd of March; the
    bounds are dates of the calendar, not 30 or 365 days back. *)
Example windows_of_a_day :
  map (spec_window utc_runtime 1711886400000) [Some "day"; Some "week"; Some "month"; Some "year"; Some "all"; Some "fortnight"; None]
  = [DateIs "2024-03-31"; DateFrom "2024-03-24"; DateFrom "2024-03-02"; DateFrom "2023-03-31";
     NoFilter; NoFilter; NoFilter].
Proof. vm_compute. reflexivity. Qed.

Example windows_of_mid_march :
  map (spec_window utc_runtime 1710504000000) [Some "month"; Some "year"]
  = [DateFrom "2024-02-15"; DateFrom "2023-03-15"].
Proof. vm_compute. reflexivity. Qed.

(** The local date, not the UTC date, is today's: half past midnight in
    Lagos is still the day before in UTC. *)
Example today_is_local :
  spec_window lagos_runtime 1719876600000 (Some "day") = DateIs "2024-07-02"
  /\ iso_date 1719876600000 = "2024-07-01".
Proof. split; vm_compute; reflexivity. Qed.

(** ** The order of date strings *)

Section StringOrder.

Lemma all_from_spec f len : forall start,
  all_from f start len = true ->
  forall i, start <= i < start + Z.of_nat len -> f i = true.
Proof.
  induction len as [|len IH]; intros start H i Hi; [lia|].
  simpl in H. apply andb_true_iff in H as [H0 H].
  destruct (Z.eq_dec i start) as [->|]; [done|].
  apply (IH (start + 1)); [done | lia].
Qed.

Lemma compare_refl s : String.compare s s = Eq.
Proof.
  induction s as [|c s IH]; [done|]. cbn.
  pose proof (proj2 (Ascii_as_OT.cmp_eq c c) eq_refl) as E.
  unfold Ascii_as_OT.cmp in E. by rewrite E.
Qed.

Lemma ltb_lt a b : String.ltb a b = true <-> String_as_OT.lt a b.
Proof.
  rewrite <- String_as_OT.cmp_lt. unfold String.ltb, String_as_OT.cmp.
  destruct (String.compare a b); intuition congruence.
Qed.

Lemma ltb_trans a b c :
  String.ltb a b = true -> String.ltb b c = true -> String.ltb a c = true.
Proof. rewrite !ltb_lt. apply String_as_OT.lt_trans. Qed.

Lemma leb_spec a b : String.leb a b = true <-> a = b \/ String.ltb a b = true.
Proof.
  unfold String.leb, String.ltb.
  destruct (String.compare a b) eqn:E.
  - apply String.compare_eq_iff in E. intuition.
  - intuition.
  - split; [done|]. intros [->|?]; [|done]. by rewrite compare_refl in E.
Qed.

Lemma leb_ltb_trans a b c :
  String.leb a b = true -> String.ltb b c = true -> String.leb a c = true.
Proof.
  rewrite !leb_spec. intros [->|H1] H2; right; [done|]. by apply (ltb_trans a b c).
Qed.

Lemma ltb_irrefl a : String.ltb a a = false.
Proof. unfold String.ltb. by rewrite compare_refl. Qed.

(** Strings that start with parts of equal length compare by the parts. *)
Lemma compare_app a1 : forall a2 b1 b2,
  String.length a1 = String.length a2 ->
  String.compare (a1 ++ b1) (a2 ++ b2)
  = match String.compare a1 a2 with Eq => String.compare b1 b2 | c => c end.
Proof.
  induction a1 as [|c1 a1 IH]; intros [|c2 a2] b1 b2 Hlen; cbn in Hlen; try discriminate.
  - reflexivity.
  - change (String.compare (String c1 (a1 ++ b1)) (String c2 (a2 ++ b2))
            = match String.compare (String c1 a1) (String c2 a2) with
              | Eq => String.compare b1 b2 | c => c end).
    cbn [String.compare]. destruct (Ascii.compare c1 c2); [|done..].
    apply IH. congruence.
Qed.

(** A function whose values grow from each integer to the next grows. *)
Lemma increasing_steps (f : Z -> string) lo n :
  all_from (fun i => String.ltb (f i) (f (i + 1))) lo n = true ->
  forall a b, lo <= a -> a < b -> b <= lo + Z.of_nat n -> String.ltb (f a) (f b) = true.
Proof.
  intros Hall a b Ha Hab Hb.
  pose proof (all_from_spec _ _ _ Hall) as Hstep. cbv beta in Hstep.
  replace b with (a + 1 + Z.of_nat (Z.to_nat (b - a - 1))) by lia.
  induction (Z.to_nat (b - a - 1)) as [|k IH] eqn:E in b, Hab, Hb |- *.
  - rewrite Z.add_0_r. apply Hstep. lia.
  - apply (ltb_trans _ (f (a + 1 + Z.of_nat k))).
    + apply (IH (a + 1 + Z.of_nat k)); lia.
    + replace (a + 1 + Z.of_nat (S k)) with (a + 1 + Z.of_nat k + 1) by lia.
      apply Hstep. lia.
Qed.

Lemma compare_increasing (f : Z -> string) lo n :
  all_from (fun i => String.ltb (f i) (f (i + 1))) lo n = true ->
  forall a b, lo <= a <= lo + Z.of_nat n -> lo <= b <= lo + Z.of_nat n ->
  String.compare (f a) (f b) = (a ?= b).
Proof.
  intros Hall a b Ha Hb.
  destruct (Z.compare_spec a b) as [->|Hlt|Hgt].
  - apply compare_refl.
  - pose proof (increasing_steps f lo n Hall a b ltac:(lia) Hlt ltac:(lia)) as H.
    unfold String.ltb in H. by destruct (String.compare (f a) (f b)).
  - pose proof (increasing_steps f lo n Hall b a ltac:(lia) Hgt ltac:(lia)) as H.
    unfold String.ltb in H. rewrite String.compare_antisym.
    by destruct (String.compare (f b) (f a)).
Qed.

Lemma year_steps : all_from (fun i => String.ltb (Str.of_Z i) (Str.of_Z (i + 1))) 1000 (Z.to_nat 8999) = true.
Proof. vm_compute. reflexivity. Qed.

Lemma year_lengths : all_from (fun i => (String.length (Str.of_Z i) =? 4)%nat) 1000 (Z.to_nat 9000) = true.
Proof. vm_compute. reflexivity. Qed.

Lemma two_digit_steps : all_from (fun i => String.ltb (two_digits i) (two_digits (i + 1))) 0 (Z.to_nat 99) = true.
Proof. vm_compute. reflexivity. Qed.

Lemma two_digit_lengths : all_from (fun i => (String.length (two_digits i) =? 2)%nat) 0 (Z.to_nat 100) = true.
Proof. vm_compute. reflexivity. Qed.

(** Dates of four-digit years compare as their texts do. *)
Lemma date_string_compare c1 c2 :
  four_digit_date c1 -> four_digit_date c2 ->
  String.compare (date_string c1) (date_string c2)
  = match c1.1.1 ?= c2.1.1 with
    | Eq => match c1.1.2 ?= c2.1.2 with Eq => c1.2 ?= c2.2 | c => c end
    | c => c
    end.
Proof.
  destruct c1 as [[y1 m1] d1], c2 as [[y2 m2] d2].
  unfold four_digit_date, date_string. cbn [fst snd].
  intros (Hy1 & Hm1 & Hd1) (Hy2 & Hm2 & Hd2).
  pose proof (all_from_spec _ _ _ year_lengths) as Ly.
  pose proof (all_from_spec _ _ _ two_digit_lengths) as L2.
  cbv beta in Ly, L2. fold (two_digits m1) (two_digits m2) (two_digits d1) (two_digits d2).
  rewrite compare_app
    by (rewrite (proj1 (Nat.eqb_eq _ _) (Ly y1 ltac:(lia))),
                (proj1 (Nat.eqb_eq _ _) (Ly y2 ltac:(lia))); reflexivity).
  rewrite (compare_increasing Str.of_Z 1000 _ year_steps) by lia.
  destruct (y1 ?= y2); [|done..].
  change ("-" ++ ?s) with (String "-" s). cbn [String.compare Ascii.compare].
  change (Ascii.compare "-" "-") with Eq. cbv iota.
  rewrite compare_app
    by (rewrite (proj1 (Nat.eqb_eq _ _) (L2 m1 ltac:(lia))),
                (proj1 (Nat.eqb_eq _ _) (L2 m2 ltac:(lia))); reflexivity).
  rewrite (compare_increasing two_digits 0 _ two_digit_steps) by lia.
  destruct (m1 ?= m2); [|done..].
  change ("-" ++ ?s) with (String "-" s). cbn [String.compare Ascii.compare].
  change (Ascii.compare "-" "-") with Eq. cbv iota.
  apply (compare_increasing two_digits 0 _ two_digit_steps); lia.
Qed.

Lemma date_string_le c1 c2 :
  four_digit_date c1 -> four_digit_date c2 -> lex_le c1 c2 ->
  String.leb (date_string c1) (date_string c2) = true.
Proof.
  intros H1 H2 Hle. unfold String.leb. rewrite date_string_compare by done.
  unfold lex_le in Hle.
  destruct (Z.compare_spec c1.1.1 c2.1.1); [|done|lia].
  destruct (Z.compare_spec c1.1.2 c2.1.2); [|done|lia].
  destruct (Z.compare_spec c1.2 c2.2); [done|done|lia].
Qed.

End StringOrder.

(** ** Dates after today (claim C10) *)

Section FutureDates.

Import Calendar.

Variable rt : Runtime.

Lemma days_before_on_local_day now k :
  days_before now k = on_local_day rt now (Day (LocalTime rt now) - k).
Proof.
  unfold days_before, on_local_day. f_equal.
  pose proof (time_of_day (LocalTime rt now)) as E.
  unfold MakeDate, UTC, LocalTime in *. lia.
Qed.

Lemma january_mono y1 y2 : y1 <= y2 -> days_from_civil y1 1 1 <= days_from_civil y2 1 1.
Proof.
  intros H. rewrite !days_from_civil_march.
  change (1 <=? 2) with true. cbv iota.
  pose proof (march_first_mono (y1 - 1) (y2 - 1) ltac:(lia)). lia.
Qed.

(** On an ordinary clock, a day between the first of January of last year
    and today is a valid Date, whose date is the date of that day. *)
Lemma local_date_on_local_day clock day :
  ordinary_clock rt clock ->
  days_from_civil (YearFromTime (LocalTime rt clock) - 1) 1 1 <= day <= Day (LocalTime rt clock) ->
  local_date rt (on_local_day rt clock day) = date_string (civil_from_days day).
Proof.
  intros [Htz Hy] [Hlo Hhi]. unfold on_local_day.
  set (lt := LocalTime rt clock) in *.
  destruct (civil_from_days (Day lt)) as [[y m] d] eqn:Etoday.
  assert (Ey : YearFromTime lt = y) by (unfold YearFromTime; by rewrite Etoday).
  rewrite Ey in *.
  assert (Hmax : Day lt < days_from_civil 10000 1 1).
  { destruct (Z_lt_le_dec (Day lt) (days_from_civil 10000 1 1)) as [?|Hge]; [done|].
    apply civil_from_days_mono in Hge. rewrite civil_from_days_january, Etoday in Hge.
    unfold lex_le in Hge. cbn [fst snd] in Hge. lia. }
  pose proof (january_mono 1000 (y - 1) ltac:(lia)) as Hmin.
  change (days_from_civil 10000 1 1) with 2932897 in Hmax.
  change (days_from_civil 1000 1 1) with (-354285) in Hmin.
  assert (Hclip : TimeClip (UTC rt (MakeDate day (TimeWithinDay lt)))
                  = Some (UTC rt (MakeDate day (TimeWithinDay lt)))).
  { unfold TimeClip, UTC, MakeDate, TimeWithinDay, msPerDay in *.
    destruct (Z.leb_spec (Z.abs (day * 86400000 + lt mod 86400000 - LocalTZA rt))
                8640000000000000) as [?|Hbad]; [done|].
    exfalso. Z.div_mod_to_equations; lia. }
  rewrite Hclip. unfold local_date. by rewrite LocalTime_UTC, Day_MakeDate.
Qed.

(** Such a day has a date whose text does not come after today's. *)
Lemma bound_before_today clock day :
  ordinary_clock rt clock ->
  days_from_civil (YearFromTime (LocalTime rt clock) - 1) 1 1 <= day <= Day (LocalTime rt clock) ->
  String.leb (local_date rt (on_local_day rt clock day)) (local_date rt (Some clock)) = true.
Proof.
  intros Hclock Hrange. rewrite local_date_on_local_day by done.
  destruct Hclock as [_ Hy]. destruct Hrange as [Hlo Hhi]. unfold local_date.
  set (lt := LocalTime rt clock) in *.
  destruct (civil_from_days (Day lt)) as [[y m] d] eqn:Etoday.
  assert (Ey : YearFromTime lt = y) by (unfold YearFromTime; by rewrite Etoday).
  rewrite Ey in *.
  pose proof (civil_from_days_spec _ _ _ _ Etoday) as (Hm & Hd & _).
  destruct (civil_from_days day) as [[y' m'] d'] eqn:Ebound.
  pose proof (civil_from_days_spec _ _ _ _ Ebound) as (Hm' & Hd' & _).
  pose proof (civil_from_days_mono _ _ Hlo) as Hlow.
  pose proof (civil_from_days_mono _ _ Hhi) as Hup.
  rewrite civil_from_days_january, Ebound in Hlow. rewrite Ebound, Etoday in Hup.
  apply date_string_le; [| |done].
  - unfold four_digit_date, lex_le in *. cbn [fst snd] in *. lia.
  - unfold four_digit_date. cbn [fst snd]. lia.
Qed.

Lemma week_bound clock :
  ordinary_clock rt clock ->
  String.leb (local_date rt (days_before clock 7)) (local_date rt (Some clock)) = true.
Proof.
  intros H. rewrite days_before_on_local_day. apply bound_before_today; [done|].
  destruct H as [_ Hy].
  destruct (civil_from_days (Day (LocalTime rt clock))) as [[y m] d] eqn:E.
  assert (Ey : YearFromTime (LocalTime rt clock) = y) by (unfold YearFromTime; by rewrite E).
  rewrite Ey.
  pose proof (days_from_civil_january _ _ _ _ E) as Hjan.
  rewrite !days_from_civil_march in *. change (1 <=? 2) with true in *. cbv iota in *.
  pose proof (march_first_year (y - 1 - 1)).
  replace (y - 1 - 1 + 1) with (y - 1) in * by lia. lia.
Qed.

Lemma month_bound clock :
  ordinary_clock rt clock ->
  String.leb (local_date rt (month_before rt clock)) (local_date rt (Some clock)) = true.
Proof.
  intros H. unfold month_before.
  destruct (civil_from_days (Day (LocalTime rt clock))) as [[y m] d] eqn:E.
  assert (Ey : YearFromTime (LocalTime rt clock) = y) by (unfold YearFromTime; by rewrite E).
  apply bound_before_today; [done|]. rewrite Ey.
  pose proof (civil_from_days_spec _ _ _ _ E) as (Hm & Hd & Hday).
  pose proof (MakeDay_month_before y (m - 1) d ltac:(lia) ltac:(lia)) as [H1 H2].
  split; [done|]. etrans; [exact H2|].
  unfold MakeDay. replace ((m - 1) / 12) with 0 by (Z.div_mod_to_equations; lia).
  replace ((m - 1) mod 12 + 1) with m by (Z.div_mod_to_equations; lia).
  rewrite Z.add_0_r. lia.
Qed.

Lemma year_bound clock :
  ordinary_clock rt clock ->
  String.leb (local_date rt (year_before rt clock)) (local_date rt (Some clock)) = true.
Proof.
  intros H. unfold year_before.
  destruct (civil_from_days (Day (LocalTime rt clock))) as [[y m] d] eqn:E.
  assert (Ey : YearFromTime (LocalTime rt clock) = y) by (unfold YearFromTime; by rewrite E).
  apply bound_before_today; [done|]. rewrite Ey.
  pose proof (civil_from_days_spec _ _ _ _ E) as (Hm & Hd & Hday).
  pose proof (MakeDay_year_before y (m - 1) d ltac:(lia) ltac:(lia)) as [H1 H2].
  split; [done|]. etrans; [exact H2|].
  unfold MakeDay. replace ((m - 1) / 12) with 0 by (Z.div_mod_to_equations; lia).
  replace ((m - 1) mod 12 + 1) with m by (Z.div_mod_to_equations; lia).
  rewrite Z.add_0_r. lia.
Qed.

(** On an ordinary clock and up to the 28th of a month, the window of
    [month] starts on the same day of the month before, and the window of
    [year] on the same day of the year before. *)
Lemma month_before_same_day clock y m d :
  ordinary_clock rt clock ->
  civil_from_days (Day (LocalTime rt clock)) = (y, m, d) -> d <= 28 ->
  local_date rt (month_before rt clock)
  = date_string (if m =? 1 then (y - 1, 12, d) else (y, m - 1, d)).
Proof.
  intros Hclock E Hd. unfold month_before. rewrite E.
  pose proof (civil_from_days_spec _ _ _ _ E) as (Hm & Hd1 & Hday).
  assert (Ey : YearFromTime (LocalTime rt clock) = y) by (unfold YearFromTime; by rewrite E).
  rewrite local_date_on_local_day; [by rewrite MakeDay_month_before_date by lia|done|].
  rewrite Ey.
  pose proof (MakeDay_month_before y (m - 1) d ltac:(lia) ltac:(lia)) as [H1 H2].
  split; [done|]. etrans; [exact H2|].
  unfold MakeDay. replace ((m - 1) / 12) with 0 by (Z.div_mod_to_equations; lia).
  replace ((m - 1) mod 12 + 1) with m by (Z.div_mod_to_equations; lia).
  rewrite Z.add_0_r. lia.
Qed.

Lemma year_before_same_day clock y m d :
  ordinary_clock rt clock ->
  civil_from_days (Day (LocalTime rt clock)) = (y, m, d) -> d <= 28 ->
  local_date rt (year_before rt clock) = date_string (y - 1, m, d).
Proof.
  intros Hclock E Hd. unfold year_before. rewrite E.
  pose proof (civil_from_days_spec _ _ _ _ E) as (Hm & Hd1 & Hday).
  assert (Ey : YearFromTime (LocalTime rt clock) = y) by (unfold YearFromTime; by rewrite E).
  rewrite local_date_on_local_day; [by rewrite MakeDay_year_before_date by lia|done|].
  rewrite Ey.
  pose proof (MakeDay_year_before y (m - 1) d ltac:(lia) ltac:(lia)) as [H1 H2].
  split; [done|]. etrans; [exact H2|].
  unfold MakeDay. replace ((m - 1) / 12) with 0 by (Z.div_mod_to_equations; lia).
  replace ((m - 1) mod 12 + 1) with m by (Z.div_mod_to_equations; lia).
  rewrite Z.add_0_r. lia.
Qed.

Lemma in_window_rows clock db filter r :
  r ∈ transactions db -> in_window (spec_window rt clock filter) r = true ->
  exists rows, listTransactions_rows rt clock db filter = Some rows /\ r ∈ rows.
Proof.
  intros Hin Hw. eexists. split; [apply listTransactions_rows_window|].
  unfold order_by_timestamp_desc. rewrite order_by_Permutation.
  apply list_elem_of_In, filter_In. split; [by apply list_elem_of_In|done].
Qed.

(** C10.  While the local year has four digits (also a year earlier), a
    stored transaction dated after today is among the rows of the periods
    week, month and year, which bound dates from below only, and is not
    among the rows of the period day. *)
Theorem future_dates_pass_lower_bounds clock db r :
  ordinary_clock rt clock ->
  r ∈ transactions db ->
  String.ltb (formatDate rt (OfDate (Some clock))) (Transaction.date r) = true ->
  (forall period, period ∈ ["week"; "month"; "year"] ->
     exists rows, listTransactions_rows rt clock db (Some period) = Some rows /\ r ∈ rows)
  /\ (exists rows, listTransactions_rows rt clock db (Some "day") = Some rows /\ r ∉ rows).
Proof.
  intros Hclock Hin Hfuture. rewrite formatDate_OfDate in Hfuture. split.
  - intros period Hp.
    apply in_window_rows; [done|].
    apply elem_of_cons in Hp as [->|Hp]; [|apply elem_of_cons in Hp as [->|Hp];
      [|apply list_elem_of_singleton in Hp as ->]]; cbn [spec_window in_window].
    + change (String.leb (local_date rt (days_before clock 7)) (Transaction.date r) = true).
      eapply leb_ltb_trans; [by apply week_bound|done].
    + change (String.leb (local_date rt (month_before rt clock)) (Transaction.date r) = true).
      eapply leb_ltb_trans; [by apply month_bound|done].
    + change (String.leb (local_date rt (year_before rt clock)) (Transaction.date r) = true).
      eapply leb_ltb_trans; [by apply year_bound|done].
  - eexists. split; [apply listTransactions_rows_window|].
    unfold order_by_timestamp_desc. rewrite order_by_Permutation.
    rewrite list_elem_of_In, filter_In. intros [_ Hw].
    change (String.eqb (Transaction.date r) (local_date rt (Some clock)) = true) in Hw.
    apply String.eqb_eq in Hw. rewrite Hw, ltb_irrefl in Hfuture. done.
Qed.

End FutureDates.

Lemma future_dates_witness :
  let r := {| Transaction.id := 1; Transaction.customerName := "A";
              Transaction.phoneNumber := "1"; Transaction.service := "X";
              Transaction.amountPaid := 10; Transaction.serviceBy := "B";
              Transaction.expenses := 2; Transaction.date := "2024-12-25";
              Transaction.timestamp := "2024-07-01T12:00:00.123Z" |} in
  let db := {| transactions := [r]; transactions_seq := 1; messages := []; messages_seq := 0 |} in
  (forall period, period ∈ ["week"; "month"; "year"] ->
     exists rows, listTransactions_rows lagos_runtime 1719835200123 db (Some period) = Some rows
                  /\ r ∈ rows)
  /\ (exists rows, listTransactions_rows lagos_runtime 1719835200123 db (Some "day") = Some rows
                   /\ r ∉ rows).
Proof.
  cbv zeta.
  apply (future_dates_pass_lower_bounds lagos_runtime 1719835200123).
  - split; vm_compute; [discriminate | split; discriminate].
  - apply list_elem_of_singleton. reflexivity.
  - vm_compute. reflexivity.
Defined.

(** ** The windows on the calendar (claim C2) *)

Section CalendarWindows.

Import Calendar.

Variable rt : Runtime.

(** The days a window can start on are days of this year or the last. *)
Lemma window_day_range clock y m d day :
  civil_from_days (Day (LocalTime rt clock)) = (y, m, d) ->
  days_from_civil (y - 1) 1 1 <= day <= Day (LocalTime rt clock) ->
  days_from_civil (YearFromTime (LocalTime rt clock) - 1) 1 1 <= day <= Day (LocalTime rt clock).
Proof. intros E H. unfold YearFromTime. by rewrite E. Qed.

(** On an ordinary clock the bounds the handlers compute are the dates of
    the wall calendar: today, and the dates a week, a month and a year
    earlier. *)
Lemma spec_window_calendar clock filter :
  ordinary_clock rt clock ->
  spec_window rt clock filter
  = calendar_window (civil_from_days (Day (LocalTime rt clock))) filter.
Proof.
  intros Hclock. unfold spec_window, calendar_window.
  destruct (civil_from_days (Day (LocalTime rt clock))) as [[y m] d] eqn:E.
  pose proof (civil_from_days_spec _ _ _ _ E) as (Hm & Hd & Hday).
  pose proof (days_from_civil_january _ _ _ _ E) as Hjan.
  destruct (decide (filter = Some "day")); [by unfold local_date; rewrite E|].
  destruct (decide (filter = Some "week")).
  { f_equal. rewrite (days_before_on_local_day rt), local_date_on_local_day; [|done|].
    - by rewrite civil_from_days_week, E.
    - eapply window_day_range; [done|]. split; [|lia].
      rewrite !days_from_civil_march in *. change (1 <=? 2) with true in *. cbv iota in *.
      pose proof (march_first_year (y - 1 - 1)).
      replace (y - 1 - 1 + 1) with (y - 1) in * by lia. lia. }
  destruct (decide (filter = Some "month")).
  { f_equal. unfold month_before. rewrite E.
    rewrite local_date_on_local_day; [|done|].
    - by rewrite (MakeDay_month_earlier _ _ _ _ E).
    - eapply window_day_range; [done|].
      pose proof (MakeDay_month_before y (m - 1) d ltac:(lia) ltac:(lia)) as [H1 H2].
      split; [done|]. etrans; [exact H2|].
      unfold MakeDay. replace ((m - 1) / 12) with 0 by (Z.div_mod_to_equations; lia).
      replace ((m - 1) mod 12 + 1) with m by (Z.div_mod_to_equations; lia).
      rewrite Z.add_0_r. lia. }
  destruct (decide (filter = Some "year")); [|reflexivity].
  f_equal. unfold year_before. rewrite E.
  rewrite local_date_on_local_day; [|done|].
  - by rewrite (MakeDay_year_earlier _ _ _ _ E).
  - eapply window_day_range; [done|].
    pose proof (MakeDay_year_before y (m - 1) d ltac:(lia) ltac:(lia)) as [H1 H2].
    split; [done|]. etrans; [exact H2|].
    unfold MakeDay. replace ((m - 1) / 12) with 0 by (Z.div_mod_to_equations; lia).
    replace ((m - 1) mod 12 + 1) with m by (Z.div_mod_to_equations; lia).
    rewrite Z.add_0_r. lia.
Qed.

(** C2, amended.  For every clock reading, period and table, GET
    /api/transactions answers 200 with rows in the order newest first, and
    never with an error.  For [day] they are the rows dated today, the
    server's local date.  On a clock of a four-digit year they are, for
    [week], [month] and [year], the rows dated on or after the date seven
    days, a month or a year before today on the calendar: the same day of
    the month before, or of the year before, wherever the calendar has that
    date.  For [all], no period and any other period they are all the
    rows. *)
Theorem time_window_filter clock db filter :
  let today := civil_from_days (Day (LocalTime rt clock)) in
  exists rows,
    listTransactions rt clock db filter = Json 200 (JArr (map row_json rows))
    /\ Sorted newer_first rows
    /\ (filter = Some "day" ->
        rows ≡ₚ List.filter (fun r => String.eqb (Transaction.date r) (date_string today))
                  (transactions db))
    /\ (ordinary_clock rt clock ->
        rows ≡ₚ List.filter (in_window (calendar_window today filter)) (transactions db))
    /\ (filter <> Some "day" -> filter <> Some "week" -> filter <> Some "month" ->
        filter <> Some "year" -> rows ≡ₚ transactions db).
Proof.
  cbv zeta.
  exists (order_by_timestamp_desc
            (List.filter (in_window (spec_window rt clock filter)) (transactions db))).
  split; [unfold listTransactions; by rewrite listTransactions_rows_window|].
  split; [apply order_by_timestamp_desc_sorted|].
  unfold order_by_timestamp_desc. rewrite order_by_Permutation.
  split; [|split].
  - intros ->. unfold spec_window. rewrite decide_True by done. reflexivity.
  - intros Hclock. by rewrite spec_window_calendar.
  - intros. unfold spec_window. rewrite !decide_False by done. by rewrite filter_NoFilter.
Qed.

End CalendarWindows.

Lemma time_window_filter_witness :
  exists rows,
    listTransactions lagos_runtime 1711886400000 end_of_february (Some "month")
    = Json 200 (JArr (map row_json rows))
    /\ Sorted newer_first rows
    /\ rows ≡ₚ List.filter (in_window (calendar_window (2024, 3, 31) (Some "month")))
                 (transactions end_of_february).
Proof.
  destruct (time_window_filter lagos_runtime 1711886400000 end_of_february (Some "month"))
    as (rows & Hreply & Hsorted & _ & Hwindow & _).
  exists rows. split; [exact Hreply|]. split; [exact Hsorted|].
  apply Hwindow. split; vm_compute; [discriminate | split; discriminate].
Defined.

(** On the 31st of March 2024 the window of [month] leaves out a sale of
    the 1st of March, which is dated on or after every day of the month
    before: the lower bound is no date of February. *)
Lemma month_window_opens_after_a_month :
  let clock := 1711886400000 in
  let r := dated 2 "2024-03-01" in
  let db := {| transactions := [r]; transactions_seq := 2; messages := []; messages_seq := 0 |} in
  Calendar.civil_from_days (Calendar.Day (LocalTime utc_runtime clock)) = (2024, 3, 31)
  /\ previous_month 2024 3 = (2024, 2)
  /\ (forall d, 1 <= d <= days_in_month 2024 2 ->
        String.leb (date_string (2024, 2, d)) (Transaction.date r) = true)
  /\ listTransactions utc_runtime clock db (Some "month") = Json 200 (JArr []).
Proof.
  cbv zeta. split; [reflexivity|]. split; [reflexivity|]. split; [|vm_compute; reflexivity].
  intros d Hd. change (days_in_month 2024 2) with 29 in Hd.
  change (Transaction.date (dated 2 "2024-03-01")) with (date_string (2024, 3, 1)).
  apply date_string_le.
  - unfold four_digit_date. cbn [fst snd]. lia.
  - unfold four_digit_date. cbn [fst snd]. lia.
  - unfold lex_le. cbn [fst snd]. lia.
Qed.

(** The windows of the 31st of March 2024, noon UTC, over the sales of the
    end of February: of the three only the sale of the 2nd of March is in
    the window of [month]. *)
Example month_window_at_the_end_of_march :
  listTransactions utc_runtime 1711886400000 end_of_february (Some "month")
  = Json 200 (JArr [row_json (dated 3 "2024-03-02")])
  /\ calendar_window (2024, 3, 31) (Some "month") = DateFrom "2024-03-02"
  /\ calendar_window (2024, 2, 29) (Some "year") = DateFrom "2023-03-01"
  /\ calendar_window (2024, 3, 15) (Some "month") = DateFrom "2024-02-15"
  /\ calendar_window (2024, 3, 3) (Some "week") = DateFrom "2024-02-25".
Proof. repeat split; vm_compute; reflexivity. Qed.


(** ** The analytics (claim C5) *)

Section AnalyticsFacts.

Lemma eqb_ne a b : a <> b -> String.eqb a b = false.
Proof. apply String.eqb_neq. Qed.

Lemma hasOwn_own_get o k : hasOwn o k = true <-> is_Some (own_get o k).
Proof.
  unfold hasOwn, own_get. induction o as [|[k' v] o IH]; cbn.
  - split; [done|]. by intros [? ?].
  - destruct (String.eqb k' k); cbn; [|done]. split; eauto.
Qed.

Lemma hasOwn_false o k : hasOwn o k = false <-> own_get o k = None.
Proof.
  rewrite <- not_true_iff_false, hasOwn_own_get, <- eq_None_not_Some. done.
Qed.

Lemma own_get_own_add o k x k' :
  own_get (own_add o k x) k'
  = if String.eqb k k' then (fun v => (v + x)%float) <$> own_get o k' else own_get o k'.
Proof.
  unfold own_get. induction o as [|[k0 v] o IH]; cbn.
  - by destruct (String.eqb k k').
  - destruct (String.eqb_spec k0 k) as [->|Hne]; cbn.
    + by destruct (String.eqb_spec k k') as [->|Hne'].
    + destruct (String.eqb_spec k0 k') as [->|Hne']; cbn; [|exact IH].
      by destruct (String.eqb_spec k k').
Qed.

Lemma own_get_snoc (o : object) k x k' :
  own_get (o ++ [(k, x)])%list k'
  = match own_get o k' with
    | Some v => Some v
    | None => if String.eqb k k' then Some x else None
    end.
Proof.
  unfold own_get. induction o as [|[k0 v] o IH]; cbn.
  - by destruct (String.eqb k k').
  - by destruct (String.eqb k0 k').
Qed.

Lemma float_sum_cons init x l : float_sum init (x :: l) = float_sum (init + x)%float l.
Proof. reflexivity. Qed.

Lemma amounts_of_cons k t rows :
  amounts_of k (t :: rows)
  = if String.eqb (Transaction.service t) k
    then Transaction.amountPaid t :: amounts_of k rows
    else amounts_of k rows.
Proof. unfold amounts_of. cbn. by destruct (String.eqb _ k). Qed.

(** One step of the loop, entry by entry. *)
Lemma addService_total sp t sp' k rows :
  addService sp t = Some sp' -> k <> "__proto__" ->
  service_total sp' k rows = service_total sp k (t :: rows).
Proof.
  intros Hstep Hk. unfold service_total. rewrite amounts_of_cons.
  unfold addService, call_hasOwnProperty in Hstep.
  destruct (hasOwn sp "hasOwnProperty"); [done|]. cbn in Hstep.
  destruct (hasOwn sp (Transaction.service t)) eqn:Hown; injection Hstep as <-.
  - rewrite own_get_own_add.
    destruct (String.eqb_spec (Transaction.service t) k) as [E|Hne]; [|done].
    apply hasOwn_own_get in Hown as [v Hv]. rewrite E in Hv. by rewrite Hv.
  - unfold assign_new.
    destruct (String.eqb_spec (Transaction.service t) "__proto__") as [E|Hne].
    + rewrite E. by rewrite (eqb_ne "__proto__" k) by done.
    + rewrite own_get_snoc.
      destruct (String.eqb_spec (Transaction.service t) k) as [E|Hne'].
      * apply hasOwn_false in Hown. rewrite E in Hown. by rewrite Hown.
      * by destruct (own_get sp k).
Qed.

Lemma forEach_addService_total rows : forall sp sp' k,
  forEach_addService rows sp = Some sp' -> k <> "__proto__" ->
  own_get sp' k = service_total sp k rows.
Proof.
  induction rows as [|t rows IH]; intros sp sp' k Hrun Hk.
  - injection Hrun as <-. unfold service_total. cbn. by destruct (own_get sp k).
  - cbn in Hrun. destruct (addService sp t) as [sp1|] eqn:Hstep; [|done]. cbn in Hrun.
    rewrite (IH _ _ _ Hrun Hk). by apply addService_total.
Qed.

(** The loop ends normally unless a service is named [hasOwnProperty]. *)
Lemma forEach_addService_runs rows : forall sp,
  hasOwn sp "hasOwnProperty" = false ->
  (forall r, r ∈ rows -> Transaction.service r <> "hasOwnProperty") ->
  is_Some (forEach_addService rows sp).
Proof.
  induction rows as [|t rows IH]; intros sp Hsp Hrows; [by eexists|].
  cbn. unfold addService, call_hasOwnProperty. rewrite Hsp. cbn.
  assert (Ht : Transaction.service t <> "hasOwnProperty") by (apply Hrows; left).
  assert (Hrest : forall r, r ∈ rows -> Transaction.service r <> "hasOwnProperty")
    by (intros r Hr; apply Hrows; by right).
  destruct (hasOwn sp (Transaction.service t)) eqn:Hown; cbn; (apply IH; [|done]).
  - apply hasOwn_false. rewrite own_get_own_add.
    rewrite (eqb_ne _ _ Ht). by apply hasOwn_false.
  - unfold assign_new. destruct (String.eqb (Transaction.service t) "__proto__"); [done|].
    apply hasOwn_false. rewrite own_get_snoc.
    rewrite (eqb_ne _ _ Ht).
    apply hasOwn_false in Hsp. by rewrite Hsp.
Qed.

Lemma reduce_sum_float_sum f rows : reduce_sum f rows = float_sum 0 (map f rows).
Proof.
  unfold reduce_sum, float_sum. generalize 0%float.
  induction rows as [|t rows IH]; intros init; [done|]. cbn. apply IH.
Qed.

Lemma hasOwn_own_add o k x k' : hasOwn (own_add o k x) k' = hasOwn o k'.
Proof.
  destruct (hasOwn o k') eqn:E.
  - apply hasOwn_own_get in E as [v Hv]. apply hasOwn_own_get.
    rewrite own_get_own_add, Hv. destruct (String.eqb k k'); by eexists.
  - apply hasOwn_false in E. apply hasOwn_false.
    rewrite own_get_own_add, E. by destruct (String.eqb k k').
Qed.

Lemma hasOwn_assign_new o k x k' :
  hasOwn (assign_new o k x) k'
  = hasOwn o k' || (negb (String.eqb k "__proto__") && String.eqb k k').
Proof.
  unfold assign_new. destruct (String.eqb k "__proto__"); cbn [negb andb].
  - by rewrite orb_false_r.
  - unfold hasOwn. rewrite existsb_app. cbn. by rewrite orb_false_r.
Qed.

(** One step of the loop: it throws when the object has an own property
    [hasOwnProperty], and otherwise adds the row's service to the keys
    unless that is [__proto__]. *)
Lemma addService_keys sp t :
  if hasOwn sp "hasOwnProperty" then addService sp t = None
  else exists sp', addService sp t = Some sp'
       /\ forall k, hasOwn sp' k
                    = hasOwn sp k
                      || (negb (String.eqb (Transaction.service t) "__proto__")
                          && String.eqb (Transaction.service t) k).
Proof.
  unfold addService, call_hasOwnProperty.
  destruct (hasOwn sp "hasOwnProperty"); [done|]. cbn.
  destruct (hasOwn sp (Transaction.service t)) eqn:Hown; eexists; (split; [reflexivity|]);
    intros k.
  - rewrite hasOwn_own_add.
    destruct (String.eqb_spec (Transaction.service t) k) as [<-|Hne].
    + rewrite Hown. done.
    + by rewrite andb_false_r, orb_false_r.
  - apply hasOwn_assign_new.
Qed.

Lemma forEach_addService_keys rows : forall sp sp',
  forEach_addService rows sp = Some sp' ->
  forall k, hasOwn sp' k
            = hasOwn sp k
              || (negb (String.eqb k "__proto__")
                  && existsb (fun r => String.eqb (Transaction.service r) k) rows).
Proof.
  induction rows as [|t rows IH]; intros sp sp' Hrun k.
  - injection Hrun as <-. cbn. by rewrite andb_false_r, orb_false_r.
  - cbn [forEach_addService] in Hrun.
    pose proof (addService_keys sp t) as Hstep.
    destruct (hasOwn sp "hasOwnProperty").
    { by rewrite Hstep in Hrun. }
    destruct Hstep as (sp1 & E & Hkeys). rewrite E in Hrun. cbn in Hrun.
    rewrite (IH _ _ Hrun k), Hkeys. cbn [existsb].
    destruct (String.eqb_spec (Transaction.service t) k) as [->|Hne].
    + by destruct (hasOwn sp k), (String.eqb k "__proto__"), (existsb _ rows).
    + by destruct (hasOwn sp k), (String.eqb k "__proto__"), (existsb _ rows),
        (String.eqb (Transaction.service t) "__proto__").
Qed.

Lemma elem_of_keys (o : object) k : k ∈ map fst o <-> hasOwn o k = true.
Proof.
  unfold hasOwn. rewrite existsb_exists, list_elem_of_In, in_map_iff.
  split; intros ([k' v] & H1 & H2); exists (k', v); cbn [fst] in *.
  - split; [done|]. by apply String.eqb_eq.
  - split; [|done]. by apply String.eqb_eq.
Qed.

Lemma existsb_keys (o : object) k : existsb (String.eqb k) (map fst o) = hasOwn o k.
Proof.
  unfold hasOwn. induction o as [|[k' v] o IH]; [done|]. cbn [map fst existsb].
  by rewrite IH, String.eqb_sym.
Qed.

Lemma keys_own_add o k x : map fst (own_add o k x) = map fst o.
Proof.
  induction o as [|[k' v] o IH]; [done|]. cbn [own_add].
  destruct (String.eqb k' k); cbn [map fst]; [done|]. by rewrite IH.
Qed.

(** The loop never gives a service two entries. *)
Lemma addService_NoDup sp t sp' :
  addService sp t = Some sp' -> NoDup (map fst sp) -> NoDup (map fst sp').
Proof.
  unfold addService, call_hasOwnProperty.
  destruct (hasOwn sp "hasOwnProperty"); [done|]. cbn.
  destruct (hasOwn sp (Transaction.service t)) eqn:Hown; intros [= <-] Hnd.
  - by rewrite keys_own_add.
  - unfold assign_new. destruct (String.eqb _ "__proto__"); [done|].
    rewrite map_app. cbn [map fst]. apply NoDup_app. split; [done|].
    split; [|apply NoDup_singleton].
    intros k Hk Hk'. apply list_elem_of_singleton in Hk' as ->.
    apply elem_of_keys in Hk. congruence.
Qed.

Lemma forEach_addService_NoDup rows : forall sp sp',
  forEach_addService rows sp = Some sp' -> NoDup (map fst sp) -> NoDup (map fst sp').
Proof.
  induction rows as [|t rows IH]; intros sp sp' Hrun Hnd.
  - by injection Hrun as <-.
  - cbn in Hrun. destruct (addService sp t) as [sp1|] eqn:Hstep; [|done]. cbn in Hrun.
    eapply IH; [done|]. by eapply addService_NoDup.
Qed.

(** One more row goes to the group of its service, and to no other. *)
Lemma groups_cons (t : Transaction.row) rows keys :
  NoDup keys ->
  flat_map (fun k => rows_of k (t :: rows)) keys
  ≡ₚ (if existsb (String.eqb (Transaction.service t)) keys then [t] else [])
     ++ flat_map (fun k => rows_of k rows) keys.
Proof.
  induction keys as [|k keys IH]; intros Hnd; [done|].
  apply NoDup_cons in Hnd as [Hk Hnd]. specialize (IH Hnd).
  cbn [flat_map existsb]. unfold rows_of at 1. cbn [List.filter]. fold (rows_of k rows).
  destruct (String.eqb_spec (Transaction.service t) k) as [E|Hne]; cbn [orb].
  - assert (Hno : existsb (String.eqb (Transaction.service t)) keys = false).
    { apply not_true_iff_false. rewrite existsb_exists. intros (k' & Hin & Hk').
      apply String.eqb_eq in Hk'. apply Hk. rewrite <- E, Hk'. by apply list_elem_of_In. }
    rewrite Hno in IH. cbn [app] in IH. rewrite IH. reflexivity.
  - rewrite IH. destruct (existsb _ keys); cbn [app]; [|done].
    by rewrite Permutation_middle.
Qed.

(** Grouped by service, the rows are the rows whose service is among the
    keys. *)
Lemma groups_Permutation rows keys :
  NoDup keys ->
  flat_map (fun k => rows_of k rows) keys
  ≡ₚ List.filter (fun r => existsb (String.eqb (Transaction.service r)) keys) rows.
Proof.
  intros Hnd. induction rows as [|t rows IH].
  - cbn. induction keys as [|k keys IHk]; [done|]. cbn. apply IHk.
    by apply NoDup_cons in Hnd as [_ ?].
  - rewrite groups_cons by done. cbn [List.filter].
    destruct (existsb _ keys); cbn [app]; by rewrite IH.
Qed.

Lemma flat_map_amounts rows keys :
  flat_map (fun k => amounts_of k rows) keys
  = map Transaction.amountPaid (flat_map (fun k => rows_of k rows) keys).
Proof.
  induction keys as [|k keys IH]; [done|]. cbn [flat_map]. by rewrite map_app, IH.
Qed.

(** What the entries add up: the amounts of all the rows but those of a
    service named [__proto__], each once. *)
Lemma forEach_addService_groups rows sp :
  forEach_addService rows seeded_services = Some sp ->
  NoDup (map fst sp)
  /\ hasOwn sp "__proto__" = false
  /\ flat_map (fun k => amounts_of k rows) (map fst sp)
     ≡ₚ map Transaction.amountPaid
          (List.filter (fun r => negb (String.eqb (Transaction.service r) "__proto__")) rows).
Proof.
  intros Hrun.
  assert (Hnd : NoDup (map fst sp)).
  { eapply forEach_addService_NoDup; [done|]. cbn [seeded_services map fst].
    repeat (apply NoDup_cons; split;
            [rewrite ?elem_of_cons, elem_of_nil; intros H;
             repeat (destruct H as [H|H]; [discriminate H|]); done|]).
    apply NoDup_nil_2. }
  pose proof (forEach_addService_keys _ _ _ Hrun) as Hkeys.
  split; [done|]. split; [by rewrite Hkeys|].
  rewrite flat_map_amounts, groups_Permutation by done.
  assert (E : List.filter (fun r => existsb (String.eqb (Transaction.service r)) (map fst sp)) rows
              = List.filter (fun r => negb (String.eqb (Transaction.service r) "__proto__")) rows);
    [|by rewrite E].
  apply filter_ext_in. intros r Hr.
  rewrite existsb_keys, Hkeys.
  assert (Hin : existsb (fun r' => String.eqb (Transaction.service r') (Transaction.service r)) rows
                = true).
  { apply existsb_exists. exists r. split; [done|apply String.eqb_refl]. }
  rewrite Hin, andb_true_r.
  destruct (String.eqb_spec (Transaction.service r) "__proto__") as [->|Hne]; [done|].
  apply orb_true_r.
Qed.


End AnalyticsFacts.



(** The scenario of section 8 of the specification. *)
Example analytics_of_two_sales :
  let rows :=
    [{| Transaction.id := 1; Transaction.customerName := "A"; Transaction.phoneNumber := "1";
        Transaction.service := "Photography"; Transaction.amountPaid := 100;
        Transaction.serviceBy := "B"; Transaction.expenses := 20;
        Transaction.date := "2024-01-01"; Transaction.timestamp := "2024-01-01T09:00:00.000Z" |};
     {| Transaction.id := 2; Transaction.customerName := "C"; Transaction.phoneNumber := "2";
        Transaction.service := "Makeup"; Transaction.amountPaid := 50;
        Transaction.serviceBy := "B"; Transaction.expenses := 0;
        Transaction.date := "2024-06-15"; Transaction.timestamp := "2024-06-15T09:00:00.000Z" |}] in
  computeAnalytics rows
  = Some {| totalIncome := 150; totalExpenses := 20; netIncome := 130;
            servicePerformance := [("Photography", 100%float); ("Makeup", 50%float);
                                   ("Product Sales", 0%float)];
            transactionCount := 2 |}.
Proof. vm_compute. reflexivity. Qed.

(** An amount paid for a service named [__proto__] reaches totalIncome and
    no entry of servicePerformance. *)
Example proto_service_is_dropped :
  exists a, computeAnalytics [sale "__proto__" 5] = Some a
    /\ totalIncome a = 5%float
    /\ servicePerformance a = seeded_services.
Proof. eexists. split; [vm_compute; reflexivity|]. split; reflexivity. Qed.

(** A service named [hasOwnProperty] makes the next row throw. *)
Example hasOwnProperty_service_throws :
  computeAnalytics [sale "hasOwnProperty" 5; sale "Makeup" 1] = None.
Proof. reflexivity. Qed.

(** ** Strings the handlers build *)

Section TextFacts.

Lemma append_cons x (a b : string) : String x a ++ b = String x (a ++ b).
Proof. reflexivity. Qed.

Lemma append_assoc (a b c : string) : (a ++ b) ++ c = a ++ (b ++ c).
Proof. induction a as [|x a IH]; [done|]. by rewrite !append_cons, IH. Qed.

Lemma append_nil_r (a : string) : a ++ EmptyString = a.
Proof. induction a as [|x a IH]; [done|]. by rewrite append_cons, IH. Qed.

Lemma length_append (a b : string) : String.length (a ++ b) = (String.length a + String.length b)%nat.
Proof. induction a as [|x a IH]; [done|]. rewrite append_cons. cbn. by rewrite IH. Qed.

Lemma no_T_app a b : no_T (a ++ b) = no_T a && no_T b.
Proof.
  induction a as [|x a IH]; [done|]. rewrite append_cons. cbn [no_T].
  rewrite IH. by rewrite andb_assoc.
Qed.

Lemma split_T_0_app a b : no_T a = true -> split_T_0 (a ++ String "T" b) = a.
Proof.
  induction a as [|x a IH]; [done|]. rewrite append_cons. cbn [no_T split_T_0].
  intros [Hx Ha]%andb_true_iff. destruct (Ascii.eqb x "T"); [done|].
  by rewrite IH.
Qed.

Lemma no_T_uint d : no_T (NilEmpty.string_of_uint d) = true.
Proof. induction d; cbn; done. Qed.

Lemma no_T_of_Z z : no_T (Str.of_Z z) = true.
Proof.
  unfold Str.of_Z, NilZero.string_of_int, NilZero.string_of_uint.
  destruct (Z.to_int z) as [d|d]; [|change (no_T (String "-" ?s)) with (no_T s)];
    destruct d; cbn [no_T]; try done;
    apply (no_T_uint (_ d)) || (rewrite no_T_uint; done).
Qed.

Lemma no_T_zeros n : no_T (String.concat EmptyString (repeat "0" n)) = true.
Proof.
  induction n as [|n IH]; [done|]. cbn [repeat].
  destruct (repeat "0" n) as [|s l]; [done|].
  change (String.concat EmptyString ("0" :: s :: l))
    with ("0" ++ EmptyString ++ String.concat EmptyString (s :: l)).
  by rewrite !no_T_app, IH.
Qed.

Lemma no_T_padStart0 w s : no_T s = true -> no_T (Str.padStart0 w s) = true.
Proof. intros H. unfold Str.padStart0. by rewrite no_T_app, no_T_zeros, H. Qed.

Lemma no_T_iso_date t : no_T (iso_date t) = true.
Proof.
  unfold iso_date. destruct (Calendar.civil_from_days _) as [[y m] d].
  rewrite !no_T_app, !no_T_padStart0 by apply no_T_of_Z.
  unfold iso_year.
  destruct ((0 <=? y) && (y <=? 9999)); [by rewrite no_T_padStart0 by apply no_T_of_Z|].
  rewrite no_T_app, no_T_padStart0 by apply no_T_of_Z. by destruct (y <? 0).
Qed.

(** [new Date().toISOString().split('T')[0]] is the UTC calendar date. *)
Lemma split_T_0_toISOString t : split_T_0 (toISOString t) = iso_date t.
Proof. unfold toISOString. apply split_T_0_app, no_T_iso_date. Qed.

Lemma csv_row_spec r : csv_row r = spec_csv_line r.
Proof.
  unfold csv_row, spec_csv_line, csv_fields. cbn [map String.concat].
  by rewrite !append_assoc.
Qed.

(** The loop of lines 381-384 writes the header and then a row for each
    transaction in turn. *)
Lemma generateCSV_spec rows : generateCSV rows = spec_csv rows.
Proof.
  unfold generateCSV, spec_csv. generalize csv_header.
  induction rows as [|r rows IH]; intros acc.
  - cbn. by rewrite append_nil_r.
  - cbn [fold_left map]. rewrite IH, append_assoc, csv_row_spec. f_equal.
    destruct (map spec_csv_line rows) as [|l ls]; [apply append_nil_r|reflexivity].
Qed.

End TextFacts.

(** ** The export (claim C6) *)

Section ExportFacts.

Lemma quoted_in_quotes s : quoted s = in_quotes s.
Proof. reflexivity. Qed.

(** The text the loop writes is the text of the specification. *)
Lemma generateCSV_text rows : generateCSV rows = csv_text rows.
Proof.
  rewrite generateCSV_spec. unfold spec_csv, csv_text.
  change csv_header with header_line.
  assert (E : map spec_csv_line rows = map (fun r => csv_line (csv_fields r)) rows);
    [|by rewrite E].
  apply map_ext. intros r. unfold spec_csv_line, csv_line.
  change Str.newline with (String newline_char EmptyString).
  assert (E : map quoted (csv_fields r) = map in_quotes (csv_fields r)); [|by rewrite E].
  apply map_ext. intros s. apply quoted_in_quotes.
Qed.


End ExportFacts.

(** ** Creating a transaction (claims C3 and C4) *)

Section CreateFacts.

Import Calendar.

Variable rt : Runtime.

Lemma createTransaction_cases clock db body :
  createTransaction rt clock db body
  = if forallb truthy (required_fields body)
    then (run_insert_transaction db (insert_params rt clock body),
          (createTransaction rt clock db body).2)
    else (Some db, missing_fields_reply).
Proof.
  unfold createTransaction, required_fields, insert_params. cbn [forallb].
  destruct (truthy (Body.customerName body)), (truthy (Body.phoneNumber body)),
    (truthy (Body.service body)), (truthy (Body.amountPaid body)),
    (truthy (Body.serviceBy body)), (truthy (Body.date body)); reflexivity.
Qed.

Lemma createTransaction_accepted clock db body :
  forallb truthy (required_fields body) = true ->
  exists resp, (createTransaction rt clock db body).2 = Json 200 resp.
Proof.
  unfold createTransaction, required_fields. cbn [forallb].
  destruct (truthy (Body.customerName body)), (truthy (Body.phoneNumber body)),
    (truthy (Body.service body)), (truthy (Body.amountPaid body)),
    (truthy (Body.serviceBy body)), (truthy (Body.date body)); try done.
  intros _. cbn. by eexists.
Qed.

Lemma parseFloat_truthy_number x : truthy (JNum x) = true -> parseFloat (JNum x) = x.
Proof. cbn. by destruct (PrimFloat.eqb x 0). Qed.

Lemma truthy_JStr s : s <> EmptyString -> truthy (JStr s) = true.
Proof. intros H. cbn. by rewrite (eqb_ne _ _ H). Qed.

Lemma createTransaction_sale clock db cn pn sv amt sb exp date :
  cn <> EmptyString -> pn <> EmptyString -> sv <> EmptyString -> sb <> EmptyString ->
  truthy (JNum amt) = true -> truthy date = true ->
  let r := sale_row rt clock db cn pn sv amt sb exp date in
  createTransaction rt clock db (sale_body cn pn sv amt sb exp date)
  = (Some (with_transaction db r),
     Json 200 (JObj [("id", jnum (Number.of_Z (Transaction.id r)));
                     ("message", jstr "Transaction added successfully");
                     ("transaction", row_json r)])).
Proof.
  intros Hcn Hpn Hsv Hsb Hamt Hdate. cbv zeta.
  unfold createTransaction, sale_body.
  cbn [Body.customerName Body.phoneNumber Body.service Body.amountPaid Body.serviceBy
       Body.expenses Body.date].
  rewrite !truthy_JStr by done. rewrite Hamt, Hdate. cbn [negb orb].
  unfold with_transaction, sale_row, row_json.
  cbn [Transaction.id Transaction.customerName Transaction.phoneNumber Transaction.service
       Transaction.amountPaid Transaction.serviceBy Transaction.expenses Transaction.date
       Transaction.timestamp].
  rewrite parseFloat_truthy_number by done.
  destruct exp as [x|].
  - unfold js_or. destruct (truthy (JNum x)) eqn:Hx.
    + rewrite parseFloat_truthy_number by done. reflexivity.
    + reflexivity.
  - reflexivity.
Qed.

Lemma truthy_JStr_inv s : truthy (JStr s) = true -> s <> EmptyString.
Proof. cbn. destruct (String.eqb_spec s EmptyString); [done|]. done. Qed.

(** A sale of the portal passes the validation when its names are not
    empty, its amount is not zero and a date is there. *)
Lemma required_sale cn pn sv amt sb exp date :
  forallb truthy (required_fields (sale_body cn pn sv amt sb exp date)) = true ->
  cn <> EmptyString /\ pn <> EmptyString /\ sv <> EmptyString /\ sb <> EmptyString
  /\ truthy (JNum amt) = true /\ truthy date = true.
Proof.
  unfold required_fields, sale_body. cbn [forallb Body.customerName Body.phoneNumber
    Body.service Body.amountPaid Body.serviceBy Body.date].
  rewrite !andb_true_iff. intros (H1 & H2 & H3 & H4 & H5 & H6 & _).
  repeat split; try done; by apply truthy_JStr_inv.
Qed.


Lemma Day_local_midnight n :
  0 <= LocalTZA rt < msPerDay -> Day (MakeDate n 0 + LocalTZA rt) = n.
Proof.
  intros H. unfold Day, MakeDate, msPerDay in *. Z.div_mod_to_equations; lia.
Qed.


End CreateFacts.




(** Expenses sent as text that is no number come back as NaN. *)
Example text_expenses_are_parsed :
  let body := {| Body.customerName := JStr "A"; Body.phoneNumber := JStr "1";
                 Body.service := JStr "X"; Body.amountPaid := JNum 10;
                 Body.serviceBy := JStr "B"; Body.expenses := JStr "abc";
                 Body.date := JStr "2024-01-01" |} in
  exists id record,
    (createTransaction utc_runtime 1719835200123 empty_database body).2
    = Json 200 (JObj [("id", id); ("message", jstr "Transaction added successfully");
                      ("transaction", JObj record)])
    /\ field "expenses" record = Some (jnum Number.NaN).
Proof. cbv zeta. do 2 eexists. split; [vm_compute; reflexivity|]. reflexivity. Qed.

(** In a zone west of Greenwich the date sent is stored as the day before:
    [new Date("2024-01-01")] is midnight UTC, and formatDate reads it in
    local time. *)
Example date_shifts_west_of_Greenwich :
  formatDate new_york_runtime (OfValue (JStr "2024-01-01"))
  = "2023-12-31".
Proof. vm_compute. reflexivity. Qed.

Example date_unreadable : formatDate utc_runtime (OfValue (JStr "hello")) = "NaN-NaN-NaN".
Proof. vm_compute. reflexivity. Qed.

(** ** Backups (claim C8) *)

Section BackupFacts.

Variable rt : Runtime.

Lemma backupDatabase_eq t fs :
  backupDatabase rt t fs =
  let fs' := ensure_dir fs (backupDir rt) in
  if existsSync fs' (DB_PATH rt) then
    match copyFileSync fs' (DB_PATH rt) (backupDir rt) (backupPath rt t) with
    | inr fs'' => (fs'', ["✅ Database backed up to " ++ backupPath rt t])
    | inl message => (fs', ["❌ Error backing up database: " ++ message])
    end
  else (fs', ["⚠️ Database file not found, skipping backup"]).
Proof.
  unfold backupDatabase, ensure_dir, backupPath, backupDir.
  by rewrite split_T_0_toISOString.
Qed.

Lemma backupPath_same_day t1 t2 :
  Calendar.Day t1 = Calendar.Day t2 -> backupPath rt t1 = backupPath rt t2.
Proof. intros H. unfold backupPath, iso_date. by rewrite H. Qed.

Lemma ancestors_from_length rest : forall before a,
  a ∈ ancestors_from before rest ->
  (String.length before <= String.length a < String.length before + String.length rest)%nat.
Proof.
  induction rest as [|c rest IH]; intros before a Hin; cbn [ancestors_from] in Hin.
  - by apply elem_of_nil in Hin.
  - apply elem_of_app in Hin as [Hin|Hin].
    + destruct (Ascii.eqb c "/" && negb (String.eqb before EmptyString));
        [|by apply elem_of_nil in Hin].
      apply list_elem_of_singleton in Hin as ->. cbn [String.length]. lia.
    + apply IH in Hin. rewrite length_append in Hin. cbn [String.length] in *. lia.
Qed.

(** A directory above a path has a shorter name. *)
Lemma ancestors_length path a :
  a ∈ ancestors path -> (String.length a < String.length path)%nat.
Proof. intros Hin. apply ancestors_from_length in Hin. cbn [String.length] in Hin. lia. Qed.

Lemma dirs_mkdirSync fs path d :
  d ∈ dirs (mkdirSync fs path) <-> d = path \/ d ∈ ancestors path \/ d ∈ dirs fs.
Proof.
  unfold mkdirSync. cbn [dirs].
  rewrite !elem_of_union, elem_of_singleton, elem_of_list_to_set. tauto.
Qed.

(** Lines 451-453 make no directory but the backup directory and the
    directories above it, and remove none. *)
Lemma dirs_ensure_dir fs dir d :
  d ∈ dirs (ensure_dir fs dir) -> d ∈ dirs fs \/ d = dir \/ d ∈ ancestors dir.
Proof.
  unfold ensure_dir. destruct (negb _); [|by left].
  rewrite dirs_mkdirSync. tauto.
Qed.

Lemma dirs_ensure_dir_mono fs dir : dirs fs ⊆ dirs (ensure_dir fs dir).
Proof.
  unfold ensure_dir. destruct (negb _); [|done].
  intros d Hd. apply dirs_mkdirSync. auto.
Qed.

Lemma backupPath_length t :
  (String.length (backupDir rt) < String.length (backupPath rt t))%nat.
Proof. unfold backupPath. rewrite length_append, append_cons. cbn [String.length]. lia. Qed.

(** Making the backup directory does not make a directory of the backup's
    name, which is longer than the name of any directory made. *)
Lemma backupPath_no_dir t fs :
  backupPath rt t ∉ dirs fs -> backupPath rt t ∉ dirs (ensure_dir fs (backupDir rt)).
Proof.
  intros Hno Hin. pose proof (backupPath_length t) as Hlen.
  apply dirs_ensure_dir in Hin as [Hin|[Hin|Hin]]; [done| |].
  - rewrite Hin in Hlen. lia.
  - apply ancestors_length in Hin. lia.
Qed.

Lemma existsSync_ensure_dir fs dir : existsSync (ensure_dir fs dir) dir = true.
Proof.
  unfold ensure_dir. destruct (existsSync fs dir) eqn:E; [done|]. cbn [negb].
  unfold existsSync. apply orb_true_iff. left. apply bool_decide_eq_true.
  apply dirs_mkdirSync. by left.
Qed.

Lemma ensure_dir_idem fs dir : ensure_dir (ensure_dir fs dir) dir = ensure_dir fs dir.
Proof. unfold ensure_dir at 1. by rewrite existsSync_ensure_dir. Qed.

Lemma files_ensure_dir fs dir : files (ensure_dir fs dir) = files fs.
Proof. unfold ensure_dir. by destruct (negb _). Qed.

(** Where no regular file has the name of the directory, the directory is
    there after lines 451-453. *)
Lemma ensure_dir_dir fs dir : files fs !! dir = None -> dir ∈ dirs (ensure_dir fs dir).
Proof.
  intros Hnofile. unfold ensure_dir.
  destruct (existsSync fs dir) eqn:E; cbn [negb].
  - unfold existsSync in E. apply orb_true_iff in E as [E|E].
    + by apply bool_decide_eq_true in E.
    + apply bool_decide_eq_true in E. rewrite Hnofile in E. by destruct E.
  - apply dirs_mkdirSync. by left.
Qed.

Lemma existsSync_file fs0 p content : files fs0 !! p = Some content -> existsSync fs0 p = true.
Proof.
  intros H. unfold existsSync. rewrite H.
  rewrite (bool_decide_eq_true_2 (is_Some (Some content))) by eauto. apply orb_true_r.
Qed.

Lemma existsSync_nothing fs0 p : files fs0 !! p = None -> p ∉ dirs fs0 -> existsSync fs0 p = false.
Proof.
  intros Hf Hd. unfold existsSync. rewrite Hf.
  rewrite (bool_decide_eq_false_2 (p ∈ dirs fs0)) by done.
  apply bool_decide_eq_false. by intros [? ?].
Qed.

(** What a copy that succeeds found and did. *)
Lemma copy_done fs' src dir dest fs'' :
  copyFileSync fs' src dir dest = inr fs'' ->
  exists content,
    files fs' !! src = Some content
    /\ bool_decide (dir ∈ dirs fs') = true
    /\ bool_decide (dest ∈ dirs fs') = false
    /\ fs'' = {| dirs := dirs fs'; files := <[dest:=content]> (files fs') |}.
Proof.
  unfold copyFileSync. destruct (files fs' !! src) as [content|]; [|done].
  destruct (bool_decide (dir ∈ dirs fs')); [|done]. cbn [negb].
  destruct (bool_decide (dest ∈ dirs fs')); [done|].
  intros [= <-]. by exists content.
Qed.

(** After a copy, the same copy changes nothing. *)
Lemma copy_again fs' src dir dest content :
  files fs' !! src = Some content ->
  bool_decide (dir ∈ dirs fs') = true ->
  bool_decide (dest ∈ dirs fs') = false ->
  let fs'' := {| dirs := dirs fs'; files := <[dest:=content]> (files fs') |} in
  ensure_dir fs'' dir = fs''
  /\ existsSync fs'' src = true
  /\ copyFileSync fs'' src dir dest = inr fs''.
Proof.
  intros Hfile Hdir Hdest fs''.
  assert (Efile : files fs'' !! src = Some content).
  { unfold fs''. cbn [files]. destruct (decide (dest = src)) as [<-|Hne].
    - by rewrite lookup_insert_eq.
    - by rewrite lookup_insert_ne. }
  split; [|split].
  - unfold ensure_dir, existsSync, fs''. cbn [dirs]. by rewrite Hdir.
  - unfold existsSync. rewrite Efile.
    rewrite (bool_decide_eq_true_2 (is_Some (Some content))) by eauto.
    apply orb_true_r.
  - unfold copyFileSync. rewrite Efile. unfold fs''. cbn [dirs files].
    rewrite Hdir, Hdest. cbn [negb]. do 2 f_equal.
    by rewrite insert_insert_eq.
Qed.

(** The second of two calls on the same UTC day leaves everything as the
    first left it and logs the same line. *)
Lemma backupDatabase_again t1 t2 fs :
  Calendar.Day t1 = Calendar.Day t2 ->
  backupDatabase rt t2 (backupDatabase rt t1 fs).1 = backupDatabase rt t1 fs.
Proof.
  intros Hday. pose proof (backupPath_same_day t1 t2 Hday) as Hpath.
  rewrite !backupDatabase_eq, <- Hpath. cbv zeta.
  set (fs' := ensure_dir fs (backupDir rt)).
  set (bp := backupPath rt t1).
  destruct (existsSync fs' (DB_PATH rt)) eqn:Hsrc.
  - destruct (copyFileSync fs' (DB_PATH rt) (backupDir rt) bp) as [message|fs''] eqn:Hcopy.
    + cbn [fst]. unfold fs'. rewrite ensure_dir_idem. fold fs'. by rewrite Hsrc, Hcopy.
    + cbn [fst].
      destruct (copy_done _ _ _ _ _ Hcopy) as (content & Hfile & Hdir & Hdest & ->).
      destruct (copy_again fs' (DB_PATH rt) (backupDir rt) bp content Hfile Hdir Hdest)
        as (E1 & E2 & E3).
      by rewrite E1, E2, E3.
  - cbn [fst]. unfold fs'. rewrite ensure_dir_idem. fold fs'. by rewrite Hsrc.
Qed.

(** When the database file is there, the backup directory is no file and
    the backup's name is no directory, the backup is made. *)
Lemma backupDatabase_succeeds clock fs0 content :
  files fs0 !! DB_PATH rt = Some content ->
  files fs0 !! backupDir rt = None ->
  backupPath rt clock ∉ dirs fs0 -> backupPath rt clock <> backupDir rt ->
  backupDatabase rt clock fs0
  = ({| dirs := dirs (ensure_dir fs0 (backupDir rt));
        files := <[backupPath rt clock := content]> (files fs0) |},
     ["✅ Database backed up to " ++ backupPath rt clock]).
Proof.
  intros Hsrc Hnofile Hnodir Hne. rewrite backupDatabase_eq. cbv zeta.
  set (fs1 := ensure_dir fs0 (backupDir rt)).
  assert (Hfiles : files fs1 = files fs0) by apply files_ensure_dir.
  rewrite (existsSync_file fs1 _ content) by by rewrite Hfiles.
  unfold copyFileSync. rewrite Hfiles, Hsrc.
  rewrite (bool_decide_eq_true_2 (backupDir rt ∈ dirs fs1)) by by apply ensure_dir_dir.
  cbn [negb].
  by rewrite (bool_decide_eq_false_2 (backupPath rt clock ∈ dirs fs1))
    by by apply backupPath_no_dir.
Qed.

(** When nothing has the name of the database file, also not among the
    directories just made, the warning is all there is. *)
Lemma backupDatabase_skips clock fs0 :
  files fs0 !! DB_PATH rt = None ->
  DB_PATH rt ∉ dirs (ensure_dir fs0 (backupDir rt)) ->
  backupDatabase rt clock fs0
  = (ensure_dir fs0 (backupDir rt), ["⚠️ Database file not found, skipping backup"]).
Proof.
  intros Hsrc Hnodir. rewrite backupDatabase_eq. cbv zeta.
  by rewrite existsSync_nothing by by rewrite ?files_ensure_dir.
Qed.

(** C8, amended.  Two calls of backupDatabase on the same UTC calendar day
    name the same backup file, and the second call leaves the file system
    and the log line of the first.  Where the backup directory can be
    there (neither it nor a directory above it is a regular file) and the
    backup's name is not a directory's: with a database file at DB_PATH the
    first call logs the success and leaves exactly one file new or
    rewritten, the backup of that day, which holds the content of the
    database file; with nothing at DB_PATH it changes no file and logs the
    warning, and the backup directory is there afterwards all the same. *)
Theorem backup_once_per_day t1 t2 fs :
  Calendar.Day t1 = Calendar.Day t2 ->
  Forall (fun dir => files fs !! dir = None) (backupDir rt :: ancestors (backupDir rt)) ->
  backupPath rt t1 ∉ dirs fs ->
  let first := backupDatabase rt t1 fs in
  let second := backupDatabase rt t2 first.1 in
  backupPath rt t1 = backupPath rt t2
  /\ second = first
  /\ backupDir rt ∈ dirs first.1
  /\ (forall content, files fs !! DB_PATH rt = Some content ->
        first.2 = ["✅ Database backed up to " ++ backupPath rt t1]
        /\ files first.1 = <[backupPath rt t1 := content]> (files fs)
        /\ files first.1 !! backupPath rt t1 = Some content)
  /\ (files fs !! DB_PATH rt = None -> DB_PATH rt ∉ dirs first.1 ->
        first.2 = ["⚠️ Database file not found, skipping backup"]
        /\ files first.1 = files fs).
Proof.
  intros Hday Hnofile Hnodir. cbv zeta.
  apply Forall_cons in Hnofile as [Hnofile _].
  assert (Hne : backupPath rt t1 <> backupDir rt).
  { intros E. pose proof (backupPath_length t1) as Hlen. rewrite E in Hlen. lia. }
  split; [by apply backupPath_same_day|].
  split; [by apply backupDatabase_again|].
  destruct (files fs !! DB_PATH rt) as [content|] eqn:Hsrc.
  - rewrite (backupDatabase_succeeds t1 fs content) by done. cbn [fst snd dirs files].
    split; [by apply ensure_dir_dir|]. split; [|done].
    intros ? [= <-]. split; [done|]. split; [done|]. apply lookup_insert_eq.
  - split.
    + rewrite backupDatabase_eq. cbv zeta.
      destruct (existsSync _ _); [|by apply ensure_dir_dir].
      destruct (copyFileSync _ _ _ _) as [message|fs''] eqn:Hcopy; [by apply ensure_dir_dir|].
      apply copy_done in Hcopy as (content & _ & _ & _ & ->). by apply ensure_dir_dir.
    + split; [done|]. intros _ Hdb.
      assert (Hdb' : DB_PATH rt ∉ dirs (ensure_dir fs (backupDir rt))).
      { intros Hin. apply Hdb. rewrite backupDatabase_eq. cbv zeta.
        destruct (existsSync _ _); [|done].
        destruct (copyFileSync _ _ _ _) as [message|fs''] eqn:Hcopy; [done|].
        by apply copy_done in Hcopy as (content & _ & _ & _ & ->). }
      rewrite backupDatabase_skips by done. cbn [fst snd]. split; [done|].
      apply files_ensure_dir.
Qed.

End BackupFacts.

Lemma backup_once_per_day_witness :
  let first := backupDatabase utc_runtime 1719835200123 (fs started_world) in
  let second := backupDatabase utc_runtime 1719856800123 first.1 in
  backupPath utc_runtime 1719835200123 = backupPath utc_runtime 1719856800123
  /\ second = first
  /\ backupDir utc_runtime ∈ dirs first.1
  /\ (forall content, files (fs started_world) !! DB_PATH utc_runtime = Some content ->
        first.2 = ["✅ Database backed up to " ++ backupPath utc_runtime 1719835200123]
        /\ files first.1
           = <[backupPath utc_runtime 1719835200123 := content]> (files (fs started_world))
        /\ files first.1 !! backupPath utc_runtime 1719835200123 = Some content)
  /\ (files (fs started_world) !! DB_PATH utc_runtime = None ->
      DB_PATH utc_runtime ∉ dirs first.1 ->
        first.2 = ["⚠️ Database file not found, skipping backup"]
        /\ files first.1 = files (fs started_world)).
Proof.
  apply (backup_once_per_day utc_runtime 1719835200123 1719856800123 (fs started_world)).
  - reflexivity.
  - repeat constructor.
  - apply (bool_decide_eq_false_1 _). vm_compute. reflexivity.
Defined.

(** The day's backup of a server just started: made by the first call with
    the content of the database file, and left alone by the second. *)
Example backup_of_a_started_server :
  let first := backupDatabase utc_runtime 1719835200123 (fs started_world) in
  first.2 = ["✅ Database backed up to ./backups/business_2024-07-01.db"]
  /\ files first.1 !! "./backups/business_2024-07-01.db" = Some "SQLite format 3"
  /\ backupDatabase utc_runtime 1719856800123 first.1 = first.
Proof. cbv zeta. split; [|split]; vm_compute; reflexivity. Qed.

(** With nothing at DB_PATH and no backup directory, backupDatabase makes
    the directory: the file system is not what it was. *)
Lemma backup_without_source_makes_directory :
  exists fs',
    backupDatabase utc_runtime 1719835200123 empty_fs
    = (fs', ["⚠️ Database file not found, skipping backup"])
    /\ "./backups" ∈ dirs fs'
    /\ fs' <> empty_fs.
Proof.
  eexists. split; [vm_compute; reflexivity|]. split.
  - vm_compute. done.
  - intros H. apply (f_equal dirs) in H.
    assert (Hin : "./backups" ∈ dirs empty_fs) by (rewrite <- H; vm_compute; done).
    cbn in Hin. set_solver.
Qed.

(** A backup directory below directories that are missing: they are made
    with it. *)
Example nested_backup_directory :
  let rt := {| LocalTZA := 0; Date_parse := iso_Date_parse; env_DB_PATH := None;
               env_DB_BACKUP_PATH := Some "data/backups/daily";
               sqlite_image := sample_image |} in
  let after := backupDatabase rt 1719835200123 (fs started_world) in
  after.2 = ["✅ Database backed up to data/backups/daily/business_2024-07-01.db"]
  /\ ancestors "data/backups/daily" = ["data"; "data/backups"]
  /\ Forall (fun d => d ∈ dirs after.1) ["data"; "data/backups"; "data/backups/daily"].
Proof.
  cbv zeta. split; [vm_compute; reflexivity|]. split; [vm_compute; reflexivity|].
  repeat constructor; apply (bool_decide_eq_true_1 _); vm_compute; reflexivity.
Qed.

(** A regular file where the backup directory should be: the copy fails,
    and the line logged carries the message of the error. *)
Example backup_directory_is_a_file :
  backupDatabase utc_runtime 1719835200123
    {| dirs := ∅; files := {["./business.db" := "SQLite format 3"; "./backups" := "notes"]} |}
  = ({| dirs := ∅; files := {["./business.db" := "SQLite format 3"; "./backups" := "notes"]} |},
     ["❌ Error backing up database: ENOTDIR: not a directory, copyfile './business.db' -> './backups/business_2024-07-01.db'"]).
Proof. vm_compute. reflexivity. Qed.

Example backup_of_the_day :
  (backupDatabase utc_runtime 1719835200123 (fs sample_world)).2
  = ["✅ Database backed up to ./backups/business_2024-07-01.db"].
Proof. vm_compute. reflexivity. Qed.

(** ** Clearing all data (claims C1 and C7) *)

Section ClearFacts.

Variable rt : Runtime.

(** Any other token is refused and nothing changes. *)
Lemma clear_wrong_token clock w confirmClear :
  confirmClear <> JStr "YES_DELETE_ALL_DATA" ->
  clearAllData rt clock w confirmClear = (w, Json 400 (error_json confirmation_required)).
Proof.
  intros H. unfold clearAllData.
  destruct confirmClear as [| |b|x|s]; try reflexivity.
  destruct (String.eqb_spec s "YES_DELETE_ALL_DATA") as [->|]; [done|reflexivity].
Qed.

(** The token empties both tables, whatever became of the backup. *)
Lemma clear_right_token clock w :
  clearAllData rt clock w (JStr "YES_DELETE_ALL_DATA")
  = ({| db := {| transactions := []; transactions_seq := transactions_seq (db w);
                 messages := []; messages_seq := messages_seq (db w) |};
        fs := (backupDatabase rt clock (fs w)).1;
        console := (console w ++ (backupDatabase rt clock (fs w)).2 ++
                    [("🗑️ Cleared " ++ Str.of_Z (Z.of_nat (length (transactions (db w))))
                        ++ " transactions")%string;
                     ("🗑️ Cleared " ++ Str.of_Z (Z.of_nat (length (messages (db w))))
                        ++ " messages")%string])%list |},
      Json 200 (clear_reply clock)).
Proof.
  unfold clearAllData. change (String.eqb _ _) with true. cbn [negb].
  by destruct (backupDatabase rt clock (fs w)).
Qed.

(** When the database file is on disk and the backup directory is a
    directory or can be made, the clear leaves a copy of the file under the
    name of the UTC day. *)
Lemma clear_leaves_backup clock w content :
  files (fs w) !! DB_PATH rt = Some content ->
  files (fs w) !! backupDir rt = None ->
  backupPath rt clock ∉ dirs (fs w) -> backupPath rt clock <> backupDir rt ->
  files (fs (clearAllData rt clock w (JStr "YES_DELETE_ALL_DATA")).1) !! backupPath rt clock
  = Some content.
Proof.
  intros Hsrc Hnofile Hnodir Hne. rewrite clear_right_token. cbn [fst fs].
  rewrite (backupDatabase_succeeds rt clock (fs w) content) by done.
  cbn [fst files]. apply lookup_insert_eq.
Qed.

(** C7, amended.  A successful clear writes the numbers of transactions and
    of messages it removed to the console of the server; its reply to the
    caller carries the flags [transactions: true] and [messages: true], a
    note and a timestamp, and no number. *)
Theorem clear_logs_counts clock w :
  exists w' backup_log,
    clearAllData rt clock w (JStr "YES_DELETE_ALL_DATA") = (w', Json 200 (clear_reply clock))
    /\ console w'
       = (console w ++ backup_log ++
          [("🗑️ Cleared " ++ Str.of_Z (Z.of_nat (length (transactions (db w))))
              ++ " transactions")%string;
           ("🗑️ Cleared " ++ Str.of_Z (Z.of_nat (length (messages (db w))))
              ++ " messages")%string])%list
    /\ json_numbers (clear_reply clock) = [].
Proof.
  do 2 eexists. split; [apply clear_right_token|]. split; reflexivity.
Qed.

End ClearFacts.

(** The reply to a clear of two transactions and three messages holds no
    number: the counts are not in it. *)
Lemma clear_reply_has_no_counts :
  exists w' body,
    clearAllData utc_runtime 1719835200123 sample_world (JStr "YES_DELETE_ALL_DATA")
    = (w', Json 200 body)
    /\ length (transactions (db sample_world)) = 2%nat
    /\ length (messages (db sample_world)) = 3%nat
    /\ field "cleared" (match body with JObj fields => fields | _ => [] end)
       = Some (JObj [("transactions", JVal (JBool true)); ("messages", JVal (JBool true))])
    /\ json_numbers body = [].
Proof.
  do 2 eexists. split; [apply clear_right_token|]. repeat split.
Qed.

(** C1, at the input where the code departs from it.  With an in-memory
    database (nothing on disk has the name of DB_PATH) a clear with the
    right token empties both tables, makes no backup, and still answers
    that the data was backed up. *)
Lemma clear_without_backup :
  exists w',
    clearAllData memory_runtime 1719835200123 memory_world (JStr "YES_DELETE_ALL_DATA")
    = (w', Json 200 (clear_reply 1719835200123))
    /\ transactions (db w') = [] /\ messages (db w') = []
    /\ files (fs w') = ∅
    /\ console w' = ["⚠️ Database file not found, skipping backup";
                     "🗑️ Cleared 2 transactions"; "🗑️ Cleared 3 messages"]
    /\ field "backup" (match clear_reply 1719835200123 with JObj fields => fields | _ => [] end)
       = Some (jstr "Data backed up before clearing").
Proof.
  eexists. split; [apply clear_right_token|]. cbn [db fs console transactions messages].
  repeat split.
Qed.

Example clear_with_backup :
  files (fs (clearAllData utc_runtime 1719835200123 sample_world
               (JStr "YES_DELETE_ALL_DATA")).1) !! "./backups/business_2024-07-01.db"
  = Some "SQLite format 3".
Proof. vm_compute. reflexivity. Qed.

(** * Properties beyond the specification

    What the handlers, read together with the routes and the timers, also
    guarantee: the messages, how a stored sale comes back, the server over
    a history of events, backups, the loop of the analytics, and the export
    read back. *)

(** ** Timestamps in the order of time *)

Section IsoOrder.
Import Calendar.

Lemma three_digit_steps :
  all_from (fun i => String.ltb (three_digits i) (three_digits (i + 1))) 0 (Z.to_nat 999) = true.
Proof. vm_compute. reflexivity. Qed.

Lemma three_digit_lengths :
  all_from (fun i => (String.length (three_digits i) =? 3)%nat) 0 (Z.to_nat 1000) = true.
Proof. vm_compute. reflexivity. Qed.

Lemma length_year y : 1000 <= y <= 9999 -> String.length (Str.of_Z y) = 4%nat.
Proof.
  intros H. apply Nat.eqb_eq. apply (all_from_spec _ _ _ year_lengths y). lia.
Qed.

Lemma length_two_digits i : 0 <= i <= 99 -> String.length (two_digits i) = 2%nat.
Proof.
  intros H. apply Nat.eqb_eq. apply (all_from_spec _ _ _ two_digit_lengths i). lia.
Qed.

Lemma length_three_digits i : 0 <= i <= 999 -> String.length (three_digits i) = 3%nat.
Proof.
  intros H. apply Nat.eqb_eq. apply (all_from_spec _ _ _ three_digit_lengths i). lia.
Qed.

Lemma length_date_string c : four_digit_date c -> String.length (date_string c) = 10%nat.
Proof.
  destruct c as [[y m] d]. unfold four_digit_date, date_string. cbn [fst snd].
  intros (Hy & Hm & Hd). fold (two_digits m) (two_digits d).
  rewrite !length_append, length_year, !length_two_digits by lia. reflexivity.
Qed.

Lemma padStart0_full w s : (w <= String.length s)%nat -> Str.padStart0 w s = s.
Proof.
  intros H. unfold Str.padStart0. replace (w - String.length s)%nat with 0%nat by lia.
  reflexivity.
Qed.

Lemma iso_date_date_string t :
  four_digit_year t -> iso_date t = date_string (civil_from_days (Day t)).
Proof.
  unfold four_digit_year, YearFromTime, iso_date, date_string.
  destruct (civil_from_days (Day t)) as [[y m] d]. cbn [fst snd]. intros Hy.
  unfold iso_year.
  destruct (Z.leb_spec 0 y); [|lia]. destruct (Z.leb_spec y 9999); [|lia]. cbn [andb].
  by rewrite padStart0_full by (rewrite length_year; lia).
Qed.

Lemma date_of_four_digit_year t :
  four_digit_year t -> four_digit_date (civil_from_days (Day t)).
Proof.
  unfold four_digit_year, YearFromTime, four_digit_date.
  destruct (civil_from_days (Day t)) as [[y m] d] eqn:E. cbn [fst snd]. intros Hy.
  apply civil_from_days_spec in E. lia.
Qed.

(** The date of a day number names it and no other day. *)
Lemma civil_from_days_inj n1 n2 : civil_from_days n1 = civil_from_days n2 -> n1 = n2.
Proof.
  intros H.
  destruct (civil_from_days n1) as [[y m] d] eqn:E1.
  symmetry in H. apply civil_from_days_spec in E1, H. lia.
Qed.

Lemma lex_compare_civil n1 n2 :
  lex_compare (civil_from_days n1) (civil_from_days n2) = (n1 ?= n2).
Proof.
  destruct (Z.compare_spec n1 n2) as [->|Hlt|Hgt].
  - unfold lex_compare. by rewrite !Z.compare_refl.
  - pose proof (civil_from_days_mono n1 n2 ltac:(lia)) as H12.
    pose proof (civil_from_days_inj n1 n2) as Hinj.
    destruct (civil_from_days n1) as [[y1 m1] d1], (civil_from_days n2) as [[y2 m2] d2].
    unfold lex_compare, lex_le in *. cbn [fst snd] in *.
    assert (Hne : (y1, m1, d1) <> (y2, m2, d2)) by (intros E; apply Hinj in E; lia).
    destruct (Z.compare_spec y1 y2); [|done|lia].
    destruct (Z.compare_spec m1 m2); [|done|lia].
    destruct (Z.compare_spec d1 d2); [|done|lia].
    subst. done.
  - pose proof (civil_from_days_mono n2 n1 ltac:(lia)) as H21.
    pose proof (civil_from_days_inj n1 n2) as Hinj.
    destruct (civil_from_days n1) as [[y1 m1] d1], (civil_from_days n2) as [[y2 m2] d2].
    unfold lex_compare, lex_le in *. cbn [fst snd] in *.
    assert (Hne : (y1, m1, d1) <> (y2, m2, d2)) by (intros E; apply Hinj in E; lia).
    destruct (Z.compare_spec y1 y2); [|lia|done].
    destruct (Z.compare_spec m1 m2); [|lia|done].
    destruct (Z.compare_spec d1 d2); [|lia|done].
    subst. done.
Qed.

Lemma iso_date_compare t1 t2 :
  four_digit_year t1 -> four_digit_year t2 ->
  String.compare (iso_date t1) (iso_date t2) = (Day t1 ?= Day t2).
Proof.
  intros H1 H2. rewrite !iso_date_date_string by done.
  rewrite date_string_compare by by apply date_of_four_digit_year.
  apply lex_compare_civil.
Qed.

Lemma compare_cons_same c a b :
  String.compare (String c a) (String c b) = String.compare a b.
Proof.
  cbn [String.compare].
  pose proof (proj2 (Ascii_as_OT.cmp_eq c c) eq_refl) as E.
  unfold Ascii_as_OT.cmp in E. by rewrite E.
Qed.

(** The time of day, as [toISOString] prints it, in the order of the clock. *)
Lemma iso_time_compare t1 t2 rest :
  String.compare (iso_time t1 ++ rest) (iso_time t2 ++ rest)
  = (TimeWithinDay t1 ?= TimeWithinDay t2).
Proof.
  unfold iso_time, HourFromTime, MinFromTime, SecFromTime, msFromTime.
  replace (t1 mod 1000) with (TimeWithinDay t1 mod 1000)
    by (unfold TimeWithinDay, msPerDay; Z.div_mod_to_equations; lia).
  replace (t2 mod 1000) with (TimeWithinDay t2 mod 1000)
    by (unfold TimeWithinDay, msPerDay; Z.div_mod_to_equations; lia).
  assert (R1 : 0 <= TimeWithinDay t1 < 86400000)
    by (unfold TimeWithinDay, msPerDay; Z.div_mod_to_equations; lia).
  assert (R2 : 0 <= TimeWithinDay t2 < 86400000)
    by (unfold TimeWithinDay, msPerDay; Z.div_mod_to_equations; lia).
  revert R1 R2. generalize (TimeWithinDay t1) (TimeWithinDay t2). intros a b Ra Rb.
  fold (two_digits (a / 3600000)) (two_digits (b / 3600000))
       (two_digits (a / 60000 mod 60)) (two_digits (b / 60000 mod 60))
       (two_digits (a / 1000 mod 60)) (two_digits (b / 1000 mod 60))
       (three_digits (a mod 1000)) (three_digits (b mod 1000)).
  rewrite !append_assoc.
  assert (Ha : 0 <= a / 3600000 <= 23 /\ 0 <= a / 60000 mod 60 <= 59 /\ 0 <= a / 1000 mod 60 <= 59
               /\ 0 <= a mod 1000 <= 999) by (Z.div_mod_to_equations; lia).
  assert (Hb : 0 <= b / 3600000 <= 23 /\ 0 <= b / 60000 mod 60 <= 59 /\ 0 <= b / 1000 mod 60 <= 59
               /\ 0 <= b mod 1000 <= 999) by (Z.div_mod_to_equations; lia).
  assert (Ea : a = ((a / 3600000 * 60 + a / 60000 mod 60) * 60 + a / 1000 mod 60) * 1000 + a mod 1000)
    by (Z.div_mod_to_equations; lia).
  assert (Eb : b = ((b / 3600000 * 60 + b / 60000 mod 60) * 60 + b / 1000 mod 60) * 1000 + b mod 1000)
    by (Z.div_mod_to_equations; lia).
  revert Ha Hb Ea Eb.
  generalize (a / 3600000) (a / 60000 mod 60) (a / 1000 mod 60) (a mod 1000)
             (b / 3600000) (b / 60000 mod 60) (b / 1000 mod 60) (b mod 1000).
  intros h1 m1 s1 ms1 h2 m2 s2 ms2 (Hh1 & Hm1 & Hs1 & Hms1) (Hh2 & Hm2 & Hs2 & Hms2) -> ->.
  rewrite compare_app by (rewrite !length_two_digits by lia; reflexivity).
  rewrite (compare_increasing two_digits 0 _ two_digit_steps) by lia.
  destruct (Z.compare_spec h1 h2) as [->|?|?]; [|symmetry; apply Z.compare_lt_iff; lia
                                                 |symmetry; apply Z.compare_gt_iff; lia].
  change (":" ++ ?s) with (String ":" s). rewrite compare_cons_same.
  rewrite compare_app by (rewrite !length_two_digits by lia; reflexivity).
  rewrite (compare_increasing two_digits 0 _ two_digit_steps) by lia.
  destruct (Z.compare_spec m1 m2) as [->|?|?]; [|symmetry; apply Z.compare_lt_iff; lia
                                                 |symmetry; apply Z.compare_gt_iff; lia].
  change (":" ++ ?s) with (String ":" s). rewrite compare_cons_same.
  rewrite compare_app by (rewrite !length_two_digits by lia; reflexivity).
  rewrite (compare_increasing two_digits 0 _ two_digit_steps) by lia.
  destruct (Z.compare_spec s1 s2) as [->|?|?]; [|symmetry; apply Z.compare_lt_iff; lia
                                                 |symmetry; apply Z.compare_gt_iff; lia].
  change ("." ++ ?s) with (String "." s). rewrite compare_cons_same.
  rewrite compare_app by (rewrite !length_three_digits by lia; reflexivity).
  rewrite (compare_increasing three_digits 0 _ three_digit_steps) by lia.
  destruct (Z.compare_spec ms1 ms2) as [->|?|?]; [|symmetry; apply Z.compare_lt_iff; lia
                                                 |symmetry; apply Z.compare_gt_iff; lia].
  rewrite compare_refl. symmetry. apply Z.compare_refl.
Qed.

(** Timestamps of four-digit years compare as the instants they denote. *)
Lemma toISOString_compare t1 t2 :
  four_digit_year t1 -> four_digit_year t2 ->
  String.compare (toISOString t1) (toISOString t2) = (t1 ?= t2).
Proof.
  intros H1 H2. unfold toISOString.
  rewrite compare_app
    by (rewrite !iso_date_date_string, !length_date_string
          by (done || by apply date_of_four_digit_year); reflexivity).
  rewrite iso_date_compare by done.
  pose proof (time_of_day t1) as E1. pose proof (time_of_day t2) as E2.
  assert (R1 : 0 <= TimeWithinDay t1 < 86400000)
    by (unfold TimeWithinDay, msPerDay; Z.div_mod_to_equations; lia).
  assert (R2 : 0 <= TimeWithinDay t2 < 86400000)
    by (unfold TimeWithinDay, msPerDay; Z.div_mod_to_equations; lia).
  unfold MakeDate, msPerDay in E1, E2.
  destruct (Z.compare_spec (Day t1) (Day t2)) as [E|?|?].
  - change ("T" ++ ?s) with (String "T" s). rewrite compare_cons_same.
    rewrite iso_time_compare.
    destruct (Z.compare_spec (TimeWithinDay t1) (TimeWithinDay t2)); symmetry.
    + apply Z.compare_eq_iff. lia.
    + apply Z.compare_lt_iff. lia.
    + apply Z.compare_gt_iff. lia.
  - symmetry. apply Z.compare_lt_iff. lia.
  - symmetry. apply Z.compare_gt_iff. lia.
Qed.

End IsoOrder.

(** ** Lists in order *)

Section ListingOrder.

Lemma leb_refl a : String.leb a a = true.
Proof. unfold String.leb. by rewrite compare_refl. Qed.

Lemma leb_trans a b c :
  String.leb a b = true -> String.leb b c = true -> String.leb a c = true.
Proof.
  rewrite (leb_spec b c). intros H1 [->|H2]; [done|]. by apply (leb_ltb_trans a b c).
Qed.

Lemma newer_first_trans : Transitive newer_first.
Proof. intros a b c H1 H2. unfold newer_first in *. by apply (leb_trans _ (Transaction.timestamp b)). Qed.

Lemma older_first_trans : Transitive older_first.
Proof. intros a b c H1 H2. unfold older_first in *. by apply (leb_trans _ (Message.timestamp b)). Qed.

Lemma older_first_total : Total older_first.
Proof.
  intros a b. unfold older_first.
  destruct (String.leb_total (Message.timestamp a) (Message.timestamp b)); auto.
Qed.

Lemma order_by_timestamp_asc_sorted rows : Sorted older_first (order_by_timestamp_asc rows).
Proof. apply (Sorted_order_by older_first older_first_total). Qed.

(** In a sorted list, an element that may not stand before another stands
    after it. *)
Lemma sorted_comes_before {A} (R : A -> A -> Prop) (l : list A) x y :
  Transitive R -> Sorted R l -> R y y -> x ∈ l -> y ∈ l -> ~ R y x -> comes_before x y l.
Proof.
  intros HT HS Hrefl Hx Hy Hn. apply Sorted_StronglySorted in HS; [|done].
  induction HS as [|z l HS IH Hall]; [by apply elem_of_nil in Hx|].
  rewrite Forall_forall in Hall.
  apply elem_of_cons in Hx as [->|Hx], Hy as [->|Hy].
  - done.
  - apply list_elem_of_split in Hy as (l2 & l3 & ->). by exists [], l2, l3.
  - exfalso. by apply Hn, Hall.
  - destruct (IH Hx Hy) as (l1 & l2 & l3 & ->). by exists (z :: l1), l2, l3.
Qed.

Lemma toISOString_ltb t1 t2 :
  four_digit_year t1 -> four_digit_year t2 -> t1 < t2 ->
  String.leb (toISOString t2) (toISOString t1) = false.
Proof.
  intros H1 H2 Hlt. unfold String.leb. rewrite toISOString_compare by done.
  by rewrite (proj2 (Z.compare_gt_iff t2 t1)) by lia.
Qed.

End ListingOrder.

(** ** The messages *)

Section MessageFacts.

Variable toLocaleTimeString : Z -> string.

Lemma db_all_messages_listed db :
  db_all_messages db "SELECT * FROM messages ORDER BY timestamp ASC"
  = Some (order_by_timestamp_asc (messages db)).
Proof. reflexivity. Qed.

(** X1.  POST /api/messages answers 400 and stores nothing exactly when the
    text or the sender is falsy (missing, [null], empty, 0); a message of
    two non-empty texts is stored under the next rowid with the ISO
    timestamp of the clock and the local time of day, and the reply's
    messageData is that row as GET /api/messages renders it. *)
Theorem sendMessage_stores clock db body :
  (sendMessage toLocaleTimeString clock db body = (Some db, message_refused)
   <-> truthy (MessageBody.text body) && truthy (MessageBody.sender body) = false)
  /\ (forall text sender,
        body = message_body text sender -> text <> EmptyString -> sender <> EmptyString ->
        let r := {| Message.id := messages_seq db + 1; Message.text := text;
                    Message.sender := sender; Message.timestamp := toISOString clock;
                    Message.time := toLocaleTimeString clock |} in
        sendMessage toLocaleTimeString clock db body
        = (Some {| transactions := transactions db; transactions_seq := transactions_seq db;
                   messages := (messages db ++ [r])%list;
                   messages_seq := messages_seq db + 1 |},
           Json 200 (JObj [("id", jnum (Number.of_Z (messages_seq db + 1)));
                           ("message", jstr "Message sent successfully");
                           ("messageData", message_json r)]))).
Proof.
  split.
  - unfold sendMessage, message_refused.
    destruct (truthy (MessageBody.text body)), (truthy (MessageBody.sender body));
      cbn [negb orb andb]; split; done.
  - intros text sender -> Ht Hs. cbv zeta. unfold sendMessage, message_body.
    cbn [MessageBody.text MessageBody.sender].
    rewrite !truthy_JStr by done. reflexivity.
Qed.

(** X2.  GET /api/messages answers 200 with every stored message, ordered
    by timestamp text from low to high; of two messages stamped by the
    server (toISOString, four-digit years) the earlier one stands first. *)
Theorem listMessages_oldest_first db :
  exists rows,
    listMessages db = Json 200 (JArr (map message_json rows))
    /\ rows ≡ₚ messages db
    /\ Sorted older_first rows
    /\ (forall a b ta tb,
          a ∈ messages db -> b ∈ messages db ->
          four_digit_year ta -> four_digit_year tb ->
          Message.timestamp a = toISOString ta -> Message.timestamp b = toISOString tb ->
          ta < tb -> comes_before a b rows).
Proof.
  exists (order_by_timestamp_asc (messages db)).
  split; [reflexivity|]. split; [apply order_by_Permutation|].
  split; [apply order_by_timestamp_asc_sorted|].
  intros a b ta tb Ha Hb Hta Htb Ea Eb Hlt.
  apply (sorted_comes_before older_first).
  - apply older_first_trans.
  - apply order_by_timestamp_asc_sorted.
  - apply leb_refl.
  - unfold order_by_timestamp_asc. by rewrite order_by_Permutation.
  - unfold order_by_timestamp_asc. by rewrite order_by_Permutation.
  - unfold older_first. rewrite Ea, Eb. by rewrite toISOString_ltb.
Qed.

(** X3.  A message sent is returned by the next GET /api/messages: the list
    holds the messages stored before and the new one, which carries the
    text, the sender and the next rowid, and stands after every message
    stamped before it. *)
Theorem sent_message_is_listed clock db text sender :
  text <> EmptyString -> sender <> EmptyString ->
  exists db' r rows,
    (sendMessage toLocaleTimeString clock db (message_body text sender)).1 = Some db'
    /\ listMessages db' = Json 200 (JArr (map message_json rows))
    /\ rows ≡ₚ (messages db ++ [r])%list
    /\ Message.text r = text /\ Message.sender r = sender
    /\ Message.id r = messages_seq db + 1
    /\ (four_digit_year clock ->
        forall m t, m ∈ messages db -> four_digit_year t ->
          Message.timestamp m = toISOString t -> t < clock -> comes_before m r rows).
Proof.
  intros Ht Hs. unfold sendMessage, message_body.
  cbn [MessageBody.text MessageBody.sender].
  rewrite !truthy_JStr by done. cbn [negb orb fst run_insert_message column_TEXT mbind option_bind].
  set (r := {| Message.id := messages_seq db + 1; Message.text := text;
               Message.sender := sender; Message.timestamp := toISOString clock;
               Message.time := toLocaleTimeString clock |}).
  eexists _, r, _. split; [reflexivity|].
  split; [reflexivity|]. cbn [messages].
  split; [apply order_by_Permutation|]. do 3 (split; [reflexivity|]).
  intros Hclock m t Hm Hyear Em Hlt.
  apply (sorted_comes_before older_first).
  - apply older_first_trans.
  - apply order_by_timestamp_asc_sorted.
  - apply leb_refl.
  - unfold order_by_timestamp_asc. rewrite order_by_Permutation.
    apply elem_of_app. by left.
  - unfold order_by_timestamp_asc. rewrite order_by_Permutation.
    apply elem_of_app. right. by apply list_elem_of_singleton.
  - unfold older_first. rewrite Em. cbn [Message.timestamp r]. by rewrite toISOString_ltb.
Qed.

End MessageFacts.

Lemma sendMessage_stores_witness :
  let r := {| Message.id := messages_seq (db sample_world) + 1; Message.text := "On my way";
              Message.sender := "dashboard"; Message.timestamp := toISOString 1719835200123;
              Message.time := twelve_hour_clock lagos_runtime 1719835200123 |} in
  sendMessage (twelve_hour_clock lagos_runtime) 1719835200123 (db sample_world)
    (message_body "On my way" "dashboard")
  = (Some {| transactions := transactions (db sample_world);
             transactions_seq := transactions_seq (db sample_world);
             messages := (messages (db sample_world) ++ [r])%list;
             messages_seq := messages_seq (db sample_world) + 1 |},
     Json 200 (JObj [("id", jnum (Number.of_Z (messages_seq (db sample_world) + 1)));
                     ("message", jstr "Message sent successfully");
                     ("messageData", message_json r)])).
Proof.
  apply (proj2 (sendMessage_stores (twelve_hour_clock lagos_runtime) 1719835200123
                  (db sample_world) (message_body "On my way" "dashboard"))
           "On my way" "dashboard" eq_refl); discriminate.
Defined.

Lemma listMessages_oldest_first_witness :
  exists rows,
    listMessages two_messages = Json 200 (JArr (map message_json rows))
    /\ rows ≡ₚ messages two_messages
    /\ comes_before earlier_message later_message rows.
Proof.
  destruct (listMessages_oldest_first two_messages) as (rows & Hrows & Hperm & _ & Hbefore).
  exists rows. split; [exact Hrows|]. split; [exact Hperm|].
  apply (Hbefore earlier_message later_message 1719835200123 1719835260123).
  - apply elem_of_cons. right. apply elem_of_cons. by left.
  - apply elem_of_cons. by left.
  - vm_compute. split; discriminate.
  - vm_compute. split; discriminate.
  - vm_compute. reflexivity.
  - vm_compute. reflexivity.
  - reflexivity.
Defined.

Lemma sent_message_is_listed_witness :
  exists db' r rows,
    (sendMessage (twelve_hour_clock lagos_runtime) 1719835200123 (db sample_world)
       (message_body "On my way" "dashboard")).1 = Some db'
    /\ listMessages db' = Json 200 (JArr (map message_json rows))
    /\ rows ≡ₚ (messages (db sample_world) ++ [r])%list
    /\ Message.text r = "On my way" /\ Message.sender r = "dashboard"
    /\ Message.id r = messages_seq (db sample_world) + 1
    /\ (four_digit_year 1719835200123 ->
        forall m t, m ∈ messages (db sample_world) -> four_digit_year t ->
          Message.timestamp m = toISOString t -> t < 1719835200123 -> comes_before m r rows).
Proof.
  apply (sent_message_is_listed (twelve_hour_clock lagos_runtime) 1719835200123
           (db sample_world) "On my way" "dashboard"); discriminate.
Defined.

(** A message sent at noon UTC from Lagos. *)
Example message_at_noon :
  (sendMessage (twelve_hour_clock lagos_runtime) 1719835200123 empty_database
     (message_body "On my way" "dashboard")).2
  = Json 200 (JObj [("id", jnum 1);
                    ("message", jstr "Message sent successfully");
                    ("messageData",
                     JObj [("id", jnum 1); ("text", jstr "On my way");
                           ("sender", jstr "dashboard");
                           ("timestamp", jstr "2024-07-01T12:00:00.123Z");
                           ("time", jstr "1:00:00 PM")])]).
Proof. vm_compute. reflexivity. Qed.

(** A message whose text is the number 0 or is missing is refused. *)
Example message_without_text :
  map (fun text => (sendMessage (twelve_hour_clock utc_runtime) 1719835200123 empty_database
                      {| MessageBody.text := text; MessageBody.sender := JStr "portal" |}).2)
      [JUndefined; JNull; JStr EmptyString; JNum 0]
  = [message_refused; message_refused; message_refused; message_refused].
Proof. vm_compute. reflexivity. Qed.

(** ** Sales stored and listed *)

Section DateStored.

Import Calendar.

Variable rt : Runtime.

Lemma year_first_digit :
  all_from (fun y => match Str.of_Z y with
                     | String c _ => match Ascii.compare c "N" with Lt => true | _ => false end
                     | EmptyString => false
                     end) 1000 (Z.to_nat 9000) = true.
Proof. vm_compute. reflexivity. Qed.

(** The text an invalid Date is formatted to comes after every date of a
    four-digit year. *)
Lemma date_string_before_NaN c :
  four_digit_date c -> String.ltb (date_string c) "NaN-NaN-NaN" = true.
Proof.
  destruct c as [[y m] d]. unfold four_digit_date, date_string. cbn [fst snd].
  intros (Hy & _).
  pose proof (all_from_spec _ _ _ year_first_digit y ltac:(lia)) as H. cbv beta in H.
  destruct (Str.of_Z y) as [|c s]; [done|].
  rewrite append_cons. unfold String.ltb. cbn [String.compare].
  by destruct (Ascii.compare c "N").
Qed.

Lemma today_four_digits clock :
  ordinary_clock rt clock -> four_digit_date (civil_from_days (Day (LocalTime rt clock))).
Proof.
  intros [_ Hy]. unfold YearFromTime in Hy. unfold four_digit_date.
  destruct (civil_from_days _) as [[y m] d] eqn:E. cbn [fst snd] in *.
  apply civil_from_days_spec in E. lia.
Qed.

Lemma today_before_NaN clock :
  ordinary_clock rt clock -> String.ltb (local_date rt (Some clock)) "NaN-NaN-NaN" = true.
Proof. intros H. apply date_string_before_NaN. by apply today_four_digits. Qed.

(** A row dated after today is within every window that has a lower bound
    only, and not within today's. *)
Lemma after_today_in_window clock r period :
  ordinary_clock rt clock ->
  String.ltb (local_date rt (Some clock)) (Transaction.date r) = true ->
  in_window (spec_window rt clock (Some period)) r
  = if decide (period = "day") then false else true.
Proof.
  intros Hclock Hr. unfold spec_window.
  destruct (decide (period = "day")) as [->|Hday].
  - rewrite decide_True by done. cbn [in_window].
    apply String.eqb_neq. intros E. by rewrite E, ltb_irrefl in Hr.
  - rewrite decide_False by congruence.
    destruct (decide (Some period = Some "week")).
    { cbn [in_window]. eapply leb_ltb_trans; [by apply week_bound|done]. }
    destruct (decide (Some period = Some "month")).
    { cbn [in_window]. eapply leb_ltb_trans; [by apply month_bound|done]. }
    destruct (decide (Some period = Some "year")).
    { cbn [in_window]. eapply leb_ltb_trans; [by apply year_bound|done]. }
    reflexivity.
Qed.

Lemma listed_iff_in_window clock db filter r :
  exists rows, listTransactions_rows rt clock db filter = Some rows
    /\ (r ∈ rows <-> r ∈ transactions db /\ in_window (spec_window rt clock filter) r = true).
Proof.
  eexists. split; [apply listTransactions_rows_window|].
  unfold order_by_timestamp_desc. rewrite order_by_Permutation.
  rewrite list_elem_of_In, filter_In, <- list_elem_of_In. done.
Qed.

End DateStored.

Section SaleTheorems.

Import Calendar.

Variable rt : Runtime.

(** X4.  A sale with non-empty names, a non-zero amount and a date is stored
    as one more row under the next rowid, the other rows and the messages
    untouched; the record in the reply is that row as GET /api/transactions
    renders it (expenses left out or falsy are 0), and the unfiltered list
    at any clock holds the row. *)
Theorem created_sale_is_listed clock db cn pn sv amt sb exp date :
  cn <> EmptyString -> pn <> EmptyString -> sv <> EmptyString -> sb <> EmptyString ->
  truthy (JNum amt) = true -> truthy date = true ->
  let r := sale_row rt clock db cn pn sv amt sb exp date in
  let db' := with_transaction db r in
  createTransaction rt clock db (sale_body cn pn sv amt sb exp date)
  = (Some db',
     Json 200 (JObj [("id", jnum (Number.of_Z (transactions_seq db + 1)));
                     ("message", jstr "Transaction added successfully");
                     ("transaction", row_json r)]))
  /\ transactions db' = (transactions db ++ [r])%list
  /\ transactions_seq db' = transactions_seq db + 1
  /\ messages db' = messages db
  /\ (forall clock', exists rows,
        listTransactions rt clock' db' None = Json 200 (JArr (map row_json rows))
        /\ rows ≡ₚ (transactions db ++ [r])%list /\ r ∈ rows).
Proof.
  intros Hcn Hpn Hsv Hsb Hamt Hdate. cbv zeta.
  split; [by apply createTransaction_sale|]. do 3 (split; [reflexivity|]).
  intros clock'. eexists. unfold listTransactions.
  rewrite listTransactions_rows_window.
  split; [reflexivity|].
  change (spec_window rt clock' None) with NoFilter. rewrite filter_NoFilter.
  unfold order_by_timestamp_desc. split; [apply order_by_Permutation|].
  rewrite order_by_Permutation. cbn [transactions with_transaction].
  apply elem_of_app. right. by apply list_elem_of_singleton.
Qed.

(** X5.  A sale whose date text [Date.parse] cannot read is accepted with
    200 and stored under the date [NaN-NaN-NaN]; at every ordinary clock
    that row is in the lists of week, month and year and never in the list
    of day. *)
Theorem unreadable_date_is_stored clock db cn pn sv amt sb exp s :
  cn <> EmptyString -> pn <> EmptyString -> sv <> EmptyString -> sb <> EmptyString ->
  truthy (JNum amt) = true -> s <> EmptyString -> Date_parse rt s = None ->
  let r := sale_row rt clock db cn pn sv amt sb exp (JStr s) in
  let db' := with_transaction db r in
  (exists resp, createTransaction rt clock db (sale_body cn pn sv amt sb exp (JStr s))
                = (Some db', Json 200 resp))
  /\ Transaction.date r = "NaN-NaN-NaN"
  /\ (forall clock', ordinary_clock rt clock' ->
        (forall period, period ∈ ["week"; "month"; "year"] ->
           exists rows, listTransactions_rows rt clock' db' (Some period) = Some rows /\ r ∈ rows)
        /\ (exists rows, listTransactions_rows rt clock' db' (Some "day") = Some rows /\ r ∉ rows)).
Proof.
  intros Hcn Hpn Hsv Hsb Hamt Hs Hparse. cbv zeta.
  assert (Hdate : formatDate rt (OfValue (JStr s)) = "NaN-NaN-NaN").
  { rewrite formatDate_new_Date. cbn [new_Date]. by rewrite Hparse. }
  split; [|split; [exact Hdate|]].
  - eexists. apply createTransaction_sale; try done. by apply truthy_JStr.
  - intros clock' Hclock.
    set (r := sale_row rt clock db cn pn sv amt sb exp (JStr s)).
    assert (Hafter : String.ltb (local_date rt (Some clock')) (Transaction.date r) = true).
    { cbn [r sale_row Transaction.date]. rewrite Hdate. by apply today_before_NaN. }
    assert (Hin : r ∈ transactions (with_transaction db r)).
    { cbn [transactions with_transaction]. apply elem_of_app. right.
      by apply list_elem_of_singleton. }
    split.
    + intros period Hp.
      destruct (listed_iff_in_window rt clock' (with_transaction db r) (Some period) r)
        as (rows & Hrows & Hiff).
      exists rows. split; [done|]. apply Hiff. split; [done|].
      rewrite after_today_in_window by done.
      rewrite decide_False; [done|]. intros ->.
      apply elem_of_cons in Hp as [?|Hp]; [done|].
      apply elem_of_cons in Hp as [?|Hp]; [done|].
      by apply list_elem_of_singleton in Hp.
    + destruct (listed_iff_in_window rt clock' (with_transaction db r) (Some "day") r)
        as (rows & Hrows & Hiff).
      exists rows. split; [done|]. rewrite Hiff. intros [_ Hw].
      rewrite after_today_in_window in Hw by done. done.
Qed.

Lemma Day_LocalTime_midnight n :
  - msPerDay <= LocalTZA rt < msPerDay ->
  Day (LocalTime rt (MakeDate n 0)) = if 0 <=? LocalTZA rt then n else n - 1.
Proof.
  intros H. unfold Day, LocalTime, MakeDate, msPerDay in *.
  destruct (Z.leb_spec 0 (LocalTZA rt)); Z.div_mod_to_equations; lia.
Qed.

Lemma lex_compare_eq c1 c2 : lex_compare c1 c2 = Eq -> c1 = c2.
Proof.
  destruct c1 as [[y1 m1] d1], c2 as [[y2 m2] d2]. unfold lex_compare. cbn [fst snd].
  destruct (Z.compare_spec y1 y2); [|done..].
  destruct (Z.compare_spec m1 m2); [|done..].
  destruct (Z.compare_spec d1 d2); [|done..]. congruence.
Qed.

Lemma date_string_inj c1 c2 :
  four_digit_date c1 -> four_digit_date c2 -> date_string c1 = date_string c2 -> c1 = c2.
Proof.
  intros H1 H2 E. apply lex_compare_eq.
  unfold lex_compare. rewrite <- date_string_compare by done.
  rewrite E. apply compare_refl.
Qed.

(** X6.  When [Date.parse] reads a text as midnight UTC of day [n] (as it
    reads the form YYYY-MM-DD), formatDate gives the date of day [n] in a
    zone at or east of Greenwich and the date of the day before in a zone
    west of it: a date of a four-digit year is stored as it was sent
    exactly when the local offset is not negative. *)
Theorem date_only_is_read_in_utc s n :
  Date_parse rt s = Some (MakeDate n 0) ->
  - msPerDay <= LocalTZA rt < msPerDay ->
  formatDate rt (OfValue (JStr s))
  = date_string (civil_from_days (if 0 <=? LocalTZA rt then n else n - 1))
  /\ (four_digit_date (civil_from_days n) -> four_digit_date (civil_from_days (n - 1)) ->
      s = date_string (civil_from_days n) ->
      (formatDate rt (OfValue (JStr s)) = s <-> 0 <= LocalTZA rt)).
Proof.
  intros Hparse Htz.
  assert (E : formatDate rt (OfValue (JStr s))
              = date_string (civil_from_days (if 0 <=? LocalTZA rt then n else n - 1))).
  { rewrite formatDate_new_Date. cbn [new_Date]. rewrite Hparse. unfold local_date.
    by rewrite Day_LocalTime_midnight. }
  split; [exact E|].
  intros H4 H4' ->. rewrite E.
  destruct (Z.leb_spec 0 (LocalTZA rt)) as [Hpos|Hneg].
  - split; [done|]. done.
  - split; [|lia]. intros Heq.
    apply date_string_inj, civil_from_days_inj in Heq; [lia|done..].
Qed.

End SaleTheorems.

Lemma created_sale_is_listed_witness :
  let r := sale_row lagos_runtime 1719835200123 empty_database "A" "1" "X" 10 "B" (Some 2%float)
             (JStr "2024-01-01") in
  let db' := with_transaction empty_database r in
  createTransaction lagos_runtime 1719835200123 empty_database
    (sale_body "A" "1" "X" 10 "B" (Some 2%float) (JStr "2024-01-01"))
  = (Some db',
     Json 200 (JObj [("id", jnum (Number.of_Z (transactions_seq empty_database + 1)));
                     ("message", jstr "Transaction added successfully");
                     ("transaction", row_json r)]))
  /\ transactions db' = (transactions empty_database ++ [r])%list
  /\ transactions_seq db' = transactions_seq empty_database + 1
  /\ messages db' = messages empty_database
  /\ (forall clock', exists rows,
        listTransactions lagos_runtime clock' db' None = Json 200 (JArr (map row_json rows))
        /\ rows ≡ₚ (transactions empty_database ++ [r])%list /\ r ∈ rows).
Proof.
  apply (created_sale_is_listed lagos_runtime 1719835200123 empty_database
           "A" "1" "X" 10 "B" (Some 2%float) (JStr "2024-01-01"));
    (discriminate || reflexivity).
Defined.

Lemma unreadable_date_is_stored_witness :
  let r := sale_row utc_runtime 1719835200123 empty_database "A" "1" "X" 10 "B" None
             (JStr "next Friday") in
  let db' := with_transaction empty_database r in
  (exists resp, createTransaction utc_runtime 1719835200123 empty_database
                  (sale_body "A" "1" "X" 10 "B" None (JStr "next Friday"))
                = (Some db', Json 200 resp))
  /\ Transaction.date r = "NaN-NaN-NaN"
  /\ (forall clock', ordinary_clock utc_runtime clock' ->
        (forall period, period ∈ ["week"; "month"; "year"] ->
           exists rows, listTransactions_rows utc_runtime clock' db' (Some period) = Some rows
                        /\ r ∈ rows)
        /\ (exists rows, listTransactions_rows utc_runtime clock' db' (Some "day") = Some rows
                         /\ r ∉ rows)).
Proof.
  apply (unreadable_date_is_stored utc_runtime 1719835200123 empty_database
           "A" "1" "X" 10 "B" None "next Friday");
    (discriminate || reflexivity).
Defined.

Lemma date_only_is_read_in_utc_witness :
  formatDate new_york_runtime (OfValue (JStr "2024-01-01"))
  = date_string (Calendar.civil_from_days
                   (if 0 <=? LocalTZA new_york_runtime then 19723 else 19723 - 1))
  /\ (four_digit_date (Calendar.civil_from_days 19723) ->
      four_digit_date (Calendar.civil_from_days (19723 - 1)) ->
      "2024-01-01" = date_string (Calendar.civil_from_days 19723) ->
      (formatDate new_york_runtime (OfValue (JStr "2024-01-01")) = "2024-01-01"
       <-> 0 <= LocalTZA new_york_runtime)).
Proof.
  apply (date_only_is_read_in_utc new_york_runtime "2024-01-01" 19723).
  - vm_compute. reflexivity.
  - vm_compute. split; [discriminate|reflexivity].
Defined.

(** ** The server over a history of events *)

Section ServerFacts.

Variable rt : Runtime.
Variable toLocaleTimeString : Z -> string.

Lemma run_insert_transaction_row db params db' :
  run_insert_transaction db params = Some db' ->
  exists r, db' = with_transaction db r /\ Transaction.id r = transactions_seq db + 1.
Proof.
  unfold run_insert_transaction.
  destruct params as [|p1 [|p2 [|p3 [|p4 [|p5 [|p6 [|p7 [|p8 [|p9 l]]]]]]]]]; try done.
  destruct (column_TEXT p1), (column_TEXT p2), (column_TEXT p3), (column_REAL p4),
    (column_TEXT p5), (column_REAL p6), (column_TEXT p7), (column_TEXT p8); try done.
  cbn. intros [= <-]. eexists (Transaction.Build_row _ _ _ _ _ _ _ _ _). split; reflexivity.
Qed.

Lemma run_insert_message_row db params db' :
  run_insert_message db params = Some db' ->
  exists r, db' = with_message db r /\ Message.id r = messages_seq db + 1.
Proof.
  unfold run_insert_message.
  destruct params as [|p1 [|p2 [|p3 [|p4 [|p5 l]]]]]; try done.
  destruct (column_TEXT p1), (column_TEXT p2), (column_TEXT p3), (column_TEXT p4); try done.
  cbn. intros [= <-]. eexists (Message.Build_row _ _ _ _ _). split; reflexivity.
Qed.

Lemma createTransaction_db clock db body db' resp :
  createTransaction rt clock db body = (Some db', resp) ->
  db' = db
  \/ exists r, db' = with_transaction db r /\ Transaction.id r = transactions_seq db + 1.
Proof.
  rewrite createTransaction_cases.
  destruct (forallb truthy (required_fields body)); intros H;
    apply (f_equal fst) in H; cbn [fst] in H.
  - right. by apply run_insert_transaction_row in H.
  - left. congruence.
Qed.

Lemma sendMessage_db clock db body db' resp :
  sendMessage toLocaleTimeString clock db body = (Some db', resp) ->
  db' = db \/ exists r, db' = with_message db r /\ Message.id r = messages_seq db + 1.
Proof.
  unfold sendMessage.
  destruct (negb (truthy (MessageBody.text body)) || negb (truthy (MessageBody.sender body)));
    intros H; apply (f_equal fst) in H; cbn [fst] in H.
  - left. congruence.
  - right. by apply run_insert_message_row in H.
Qed.

Lemma clear_cases clock w confirmClear :
  confirmClear = JStr "YES_DELETE_ALL_DATA"
  \/ clearAllData rt clock w confirmClear = (w, Json 400 (error_json confirmation_required)).
Proof.
  destruct confirmClear as [| |b|x|s]; try (right; by apply clear_wrong_token).
  destruct (String.eqb_spec s "YES_DELETE_ALL_DATA") as [->|Hne]; [by left|].
  right. apply clear_wrong_token. congruence.
Qed.

Lemma handle_db_change clock req w w' resp :
  handle rt toLocaleTimeString clock req w = Some (w', resp) ->
  db_change (db w) (db w')
  /\ (Request req <> confirmed_clear ->
      db w' = db w
      \/ (exists r, db w' = with_transaction (db w) r
                    /\ Transaction.id r = transactions_seq (db w) + 1)
      \/ (exists r, db w' = with_message (db w) r /\ Message.id r = messages_seq (db w) + 1)).
Proof.
  destruct req as [filter|body|filter| |body| |confirmClear|filter format|]; cbn [handle];
    try (intros [= <- _]; split; [constructor|by left]).
  - destruct (createTransaction rt clock (db w) body) as [[db'|] resp'] eqn:E; [|done].
    apply createTransaction_db in E. cbn.
    destruct (succeeded resp'); intros [= <- _]; cbn [db];
      (destruct E as [->|(r & -> & Hr)];
       [split; [constructor|by left] | split; [by constructor|]; right; left; eauto]).
  - destruct (sendMessage toLocaleTimeString clock (db w) body) as [[db'|] resp'] eqn:E; [|done].
    apply sendMessage_db in E. cbn.
    destruct (succeeded resp'); intros [= <- _]; cbn [db];
      (destruct E as [->|(r & -> & Hr)];
       [split; [constructor|by left] | split; [by constructor|]; right; right; eauto]).
  - destruct (clear_cases clock w confirmClear) as [->|E].
    + rewrite clear_right_token. cbn. intros [= <- _]. cbn [db]. split; [constructor|]. done.
    + rewrite E. cbn. intros [= <- _]. split; [constructor|by left].
Qed.

Lemma step_db_change clock e w w' running :
  step rt toLocaleTimeString clock e w = Some (w', running) ->
  db_change (db w) (db w')
  /\ (e <> confirmed_clear ->
      db w' = db w
      \/ (exists r, db w' = with_transaction (db w) r
                    /\ Transaction.id r = transactions_seq (db w) + 1)
      \/ (exists r, db w' = with_message (db w) r /\ Message.id r = messages_seq (db w) + 1)).
Proof.
  destruct e as [req|]; cbn [step].
  - destruct (handle rt toLocaleTimeString clock req w) as [[w1 resp]|] eqn:E; [|done].
    cbn. intros [= <- _]. by apply handle_db_change in E.
  - destruct (backupDatabase rt clock (fs w)) as [fs' log]. intros [= <- _]. cbn [db].
    split; [constructor|by left].
Qed.

End ServerFacts.

Section ServerTheorems.

Variable rt : Runtime.
Variable toLocaleTimeString : Z -> string.

Lemma NoDup_snoc_above (ids : list Z) (bound : Z) :
  NoDup ids -> Forall (fun i => i <= bound) ids -> NoDup (ids ++ [bound + 1]).
Proof.
  intros Hnd Hall. apply NoDup_app. split; [done|]. split; [|apply NoDup_singleton].
  intros i Hi Hi'. apply list_elem_of_singleton in Hi' as ->.
  rewrite Forall_forall in Hall. specialize (Hall _ Hi). lia.
Qed.

Lemma db_change_rowids d d' :
  db_change d d' -> rowids_in_sequence d ->
  rowids_in_sequence d'
  /\ transactions_seq d <= transactions_seq d' /\ messages_seq d <= messages_seq d'.
Proof.
  intros Hch (Ht1 & Ht2 & Hm1 & Hm2). destruct Hch as [|r Hr|r Hr|].
  - split; [done|lia].
  - unfold rowids_in_sequence, with_transaction.
    cbn [transactions transactions_seq messages messages_seq].
    rewrite Hr, map_app. cbn [map]. rewrite Hr.
    repeat split; try (done || lia).
    + apply NoDup_snoc_above; [done|]. by apply List.Forall_map.
    + apply Forall_app. split.
      * eapply Forall_impl; [exact Ht2|]. cbv beta. intros; lia.
      * apply Forall_singleton. lia.
  - unfold rowids_in_sequence, with_message.
    cbn [transactions transactions_seq messages messages_seq].
    rewrite Hr, map_app. cbn [map]. rewrite Hr.
    repeat split; try (done || lia).
    + apply NoDup_snoc_above; [done|]. by apply List.Forall_map.
    + apply Forall_app. split.
      * eapply Forall_impl; [exact Hm2|]. cbv beta. intros; lia.
      * apply Forall_singleton. lia.
  - unfold rowids_in_sequence. cbn [transactions transactions_seq messages messages_seq map].
    repeat split; try (apply NoDup_nil_2 || apply Forall_nil_2 || lia).
Qed.

(** X7.  Whatever requests and timer events a server goes through, rowids
    stay in sequence: no two rows of a table share a rowid, none is above
    the table's sequence, and the sequences never go down, a clear
    included. *)
Theorem rowids_stay_in_sequence history : forall w w',
  rowids_in_sequence (db w) ->
  run rt toLocaleTimeString history w = Some w' ->
  rowids_in_sequence (db w')
  /\ transactions_seq (db w) <= transactions_seq (db w')
  /\ messages_seq (db w) <= messages_seq (db w').
Proof.
  induction history as [|[clock e] history IH]; intros w w' Hinv Hrun.
  - injection Hrun as <-. split; [done|lia].
  - cbn [run] in Hrun.
    destruct (step rt toLocaleTimeString clock e w) as [[w1 running]|] eqn:Hstep; [|done].
    cbn in Hrun. apply step_db_change in Hstep as [Hch _].
    destruct (db_change_rowids _ _ Hch Hinv) as (Hinv1 & Hs1 & Hs2).
    destruct running.
    + destruct (IH w1 w' Hinv1 Hrun) as (Hinv' & Hs1' & Hs2'). split; [done|lia].
    + injection Hrun as <-. split; [done|lia].
Qed.

(** X8.  Without a confirmed clear nothing stored is lost or changed while
    the process runs: after any history of other requests and timer events
    whose inserts bind values of the columns' types, the rows the tables
    held at the start are still there, in place, before the rows added
    since.  (A request for the analytics that throws ends the process;
    the tables are then as the history up to that request left them.) *)
Theorem rows_stay_until_cleared history : forall w w',
  run rt toLocaleTimeString history w = Some w' ->
  (forall clock, (clock, confirmed_clear) ∉ history) ->
  transactions (db w) `prefix_of` transactions (db w')
  /\ messages (db w) `prefix_of` messages (db w').
Proof.
  induction history as [|[clock e] history IH]; intros w w' Hrun Hno.
  - injection Hrun as <-. done.
  - cbn [run] in Hrun.
    destruct (step rt toLocaleTimeString clock e w) as [[w1 running]|] eqn:Hstep; [|done].
    cbn in Hrun. apply step_db_change in Hstep as [_ Hch].
    assert (He : e <> confirmed_clear).
    { intros ->. apply (Hno clock). left. }
    assert (Hrest : transactions (db w1) `prefix_of` transactions (db w')
                    /\ messages (db w1) `prefix_of` messages (db w')).
    { destruct running; [|by injection Hrun as <-].
      apply IH; [done|]. intros c Hc. apply (Hno c). by right. }
    destruct Hrest as [IHt IHm].
    destruct (Hch He) as [E|[(r & E & _)|(r & E & _)]]; rewrite E in IHt, IHm.
    + done.
    + split; [|done]. etrans; [|exact IHt]. by apply prefix_app_r.
    + split; [done|]. etrans; [|exact IHm]. by apply prefix_app_r.
Qed.

Lemma backupDatabase_files clock fs0 p :
  p <> backupPath rt clock ->
  files (backupDatabase rt clock fs0).1 !! p = files fs0 !! p.
Proof.
  intros Hp. rewrite backupDatabase_eq. cbv zeta.
  destruct (existsSync _ _); [|cbn [fst]; by rewrite files_ensure_dir].
  destruct (copyFileSync _ _ _ _) as [msg|fs''] eqn:Hcopy; cbn [fst].
  - by rewrite files_ensure_dir.
  - apply copy_done in Hcopy as (content & _ & _ & _ & ->). cbn [files].
    rewrite lookup_insert_ne by done. by rewrite files_ensure_dir.
Qed.

Lemma backupDatabase_dirs clock fs0 :
  dirs (backupDatabase rt clock fs0).1 = dirs (ensure_dir fs0 (backupDir rt)).
Proof.
  rewrite backupDatabase_eq. cbv zeta.
  destruct (existsSync _ _); [|done].
  destruct (copyFileSync _ _ _ _) as [msg|fs''] eqn:Hcopy; cbn [fst]; [done|].
  by apply copy_done in Hcopy as (content & _ & _ & _ & ->).
Qed.

(** The file SQLite writes is the database file, and it writes none for an
    in-memory database. *)
Lemma sqlite_writes_files db' fs0 p :
  p <> DB_PATH rt \/ DB_PATH rt = ":memory:" ->
  files (sqlite_writes rt db' fs0) !! p = files fs0 !! p.
Proof.
  intros Hp. unfold sqlite_writes.
  destruct (String.eqb_spec (DB_PATH rt) ":memory:") as [E|Hne]; [done|].
  destruct Hp as [Hp|Hp]; [|done]. cbn [files]. by rewrite lookup_insert_ne.
Qed.

Lemma sqlite_writes_dirs db' fs0 : dirs (sqlite_writes rt db' fs0) = dirs fs0.
Proof. unfold sqlite_writes. by destruct (String.eqb _ _). Qed.

(** What one event does to the files and the directories. *)
Lemma step_fs clock e w w' running :
  step rt toLocaleTimeString clock e w = Some (w', running) ->
  (forall p, p <> DB_PATH rt \/ DB_PATH rt = ":memory:" -> p <> backupPath rt clock ->
     files (fs w') !! p = files (fs w) !! p)
  /\ (dirs (fs w') = dirs (fs w) \/ dirs (fs w') = dirs (ensure_dir (fs w) (backupDir rt))).
Proof.
  destruct e as [req|]; cbn [step].
  - destruct (handle rt toLocaleTimeString clock req w) as [[w1 resp]|] eqn:E; [|done].
    cbn. intros [= <- _]. revert E.
    destruct req as [filter|body|filter| |body| |confirmClear|filter format|]; cbn [handle];
      try (intros [= <- _]; split; [done|by left]).
    + destruct (createTransaction rt clock (db w) body) as [[db'|] resp']; [|done]. cbn.
      destruct (succeeded resp'); intros [= <- _]; cbn [fs]; (split; [|left]);
        try done; [intros p Hp _; by apply sqlite_writes_files | apply sqlite_writes_dirs].
    + destruct (sendMessage toLocaleTimeString clock (db w) body) as [[db'|] resp']; [|done].
      cbn.
      destruct (succeeded resp'); intros [= <- _]; cbn [fs]; (split; [|left]);
        try done; [intros p Hp _; by apply sqlite_writes_files | apply sqlite_writes_dirs].
    + destruct (clear_cases rt clock w confirmClear) as [->|E].
      * rewrite clear_right_token. cbn. intros [= <- _]. cbn [fs db]. split.
        -- intros p Hp Hbp. rewrite !sqlite_writes_files by done.
           by apply backupDatabase_files.
        -- right. rewrite !sqlite_writes_dirs. apply backupDatabase_dirs.
      * rewrite E. cbn. intros [= <- _]. split; [done|by left].
  - destruct (backupDatabase rt clock (fs w)) as [fs' log] eqn:E. intros [= <- _]. cbn [fs].
    replace fs' with (backupDatabase rt clock (fs w)).1 by by rewrite E.
    split; [intros p _ Hbp; by apply backupDatabase_files|].
    right. apply backupDatabase_dirs.
Qed.

(** X9.  Apart from the database file, which SQLite keeps, the server
    writes nothing but backups: after any history, every file that is
    neither the database file nor named like the backup of one of the
    history's clock readings is as it was; with an in-memory database
    that holds of every file but those backups; no directory was removed,
    and none was made but the backup directory and the directories above
    it. *)
Theorem only_backups_write history : forall w w',
  run rt toLocaleTimeString history w = Some w' ->
  (forall p, p <> DB_PATH rt \/ DB_PATH rt = ":memory:" ->
     (forall clock e, (clock, e) ∈ history -> p <> backupPath rt clock) ->
     files (fs w') !! p = files (fs w) !! p)
  /\ dirs (fs w) ⊆ dirs (fs w')
  /\ (forall d, d ∈ dirs (fs w') ->
        d ∈ dirs (fs w) \/ d = backupDir rt \/ d ∈ ancestors (backupDir rt)).
Proof.
  induction history as [|[clock e] history IH]; intros w w' Hrun.
  - injection Hrun as <-. split; [done|]. split; [done|]. intros d Hd. by left.
  - cbn [run] in Hrun.
    destruct (step rt toLocaleTimeString clock e w) as [[w1 running]|] eqn:Hstep; [|done].
    cbn in Hrun. apply step_fs in Hstep as [Hf Hd].
    assert (Hd1 : dirs (fs w) ⊆ dirs (fs w1)).
    { destruct Hd as [->| ->]; [done|apply dirs_ensure_dir_mono]. }
    assert (Hd2 : forall d, d ∈ dirs (fs w1) ->
              d ∈ dirs (fs w) \/ d = backupDir rt \/ d ∈ ancestors (backupDir rt)).
    { intros d Hin. destruct Hd as [E|E]; rewrite E in Hin; [by left|].
      by apply dirs_ensure_dir in Hin. }
    assert (Hrest : (forall p, p <> DB_PATH rt \/ DB_PATH rt = ":memory:" ->
                       (forall c e', (c, e') ∈ history -> p <> backupPath rt c) ->
                       files (fs w') !! p = files (fs w1) !! p)
                    /\ dirs (fs w1) ⊆ dirs (fs w')
                    /\ (forall d, d ∈ dirs (fs w') ->
                          d ∈ dirs (fs w1) \/ d = backupDir rt \/ d ∈ ancestors (backupDir rt))).
    { destruct running; [by apply IH|]. injection Hrun as <-.
      split; [done|]. split; [done|]. intros d Hin. by left. }
    destruct Hrest as (IHf & IHd1 & IHd2).
    split; [|split].
    + intros p Hp Hbp. rewrite IHf by (done || (intros c e' Hin; apply (Hbp c e'); by right)).
      apply Hf; [done|]. apply (Hbp clock e). left.
    + by etrans.
    + intros d Hin. apply IHd2 in Hin as [Hin|Hin]; [by apply Hd2|by right].
Qed.

End ServerTheorems.

Lemma rowids_stay_in_sequence_witness :
  exists w',
    run lagos_runtime (twelve_hour_clock lagos_runtime) a_morning_with_a_clear started_world
    = Some w'
    /\ map Transaction.id (transactions (db w')) = [2]
    /\ rowids_in_sequence (db w')
    /\ transactions_seq (db started_world) <= transactions_seq (db w')
    /\ messages_seq (db started_world) <= messages_seq (db w').
Proof.
  eexists. split; [vm_compute; reflexivity|]. split; [reflexivity|].
  apply (rowids_stay_in_sequence lagos_runtime (twelve_hour_clock lagos_runtime)
           a_morning_with_a_clear started_world).
  - repeat split; constructor.
  - vm_compute. reflexivity.
Defined.

Lemma rows_stay_until_cleared_witness :
  exists w',
    run lagos_runtime (twelve_hour_clock lagos_runtime) a_morning started_world = Some w'
    /\ length (transactions (db w')) = 2%nat
    /\ transactions (db started_world) `prefix_of` transactions (db w')
    /\ messages (db started_world) `prefix_of` messages (db w').
Proof.
  eexists. split; [vm_compute; reflexivity|]. split; [reflexivity|].
  apply (rows_stay_until_cleared lagos_runtime (twelve_hour_clock lagos_runtime)
           a_morning started_world).
  - vm_compute. reflexivity.
  - intros clock H. unfold a_morning in H.
    repeat (apply elem_of_cons in H as [H|H]; [discriminate H|]).
    by apply elem_of_nil in H.
Defined.

Lemma only_backups_write_witness :
  exists w',
    run lagos_runtime (twelve_hour_clock lagos_runtime) a_morning started_world = Some w'
    /\ files (fs w') !! "./backups/business_2024-07-01.db"
       = Some "SQLite format 3, 1 transactions, 1 messages"
    /\ files (fs w') !! "./business.db" = Some "SQLite format 3, 2 transactions, 1 messages"
    /\ (forall p, p <> DB_PATH lagos_runtime \/ DB_PATH lagos_runtime = ":memory:" ->
          (forall clock e, (clock, e) ∈ a_morning -> p <> backupPath lagos_runtime clock) ->
          files (fs w') !! p = files (fs started_world) !! p)
    /\ dirs (fs started_world) ⊆ dirs (fs w')
    /\ (forall d, d ∈ dirs (fs w') ->
          d ∈ dirs (fs started_world) \/ d = backupDir lagos_runtime
          \/ d ∈ ancestors (backupDir lagos_runtime)).
Proof.
  eexists. split; [vm_compute; reflexivity|]. split; [vm_compute; reflexivity|].
  split; [vm_compute; reflexivity|].
  apply (only_backups_write lagos_runtime (twelve_hour_clock lagos_runtime)
           a_morning started_world).
  vm_compute. reflexivity.
Defined.

(** A request for the analytics that throws ends the process: the sale
    that comes after it in the history is not stored. *)
Example analytics_throw_ends_the_process :
  let history :=
    [(1719835200123, Request (PostTransactions
        (sale_body "A" "1" "hasOwnProperty" 10 "B" None (JStr "2024-07-01"))));
     (1719835260123, Request (PostTransactions sample_body));
     (1719835320123, Request (GetAnalytics None));
     (1719835380123, Request (PostTransactions negative_body))] in
  (fun w => map Transaction.id (transactions (db w)))
    <$> run lagos_runtime (twelve_hour_clock lagos_runtime) history started_world
  = Some [1; 2].
Proof. vm_compute. reflexivity. Qed.

(** The first sale after a clear takes the next rowid, not the first. *)
Example rowid_after_a_clear :
  (fun w => map Transaction.id (transactions (db w)))
    <$> run lagos_runtime (twelve_hour_clock lagos_runtime) a_morning_with_a_clear started_world
  = Some [2].
Proof. vm_compute. reflexivity. Qed.

(** ** Backups, one file a day *)

Section BackupTheorems.

Import Calendar.

Variable rt : Runtime.

(** X10.  The line backupDatabase logs tells what it did: after the line
    of success the backup file holds the content of the database file and
    no other file changed; otherwise no file changed at all, and the line
    is the warning (no file at DB_PATH) or an error with its code. *)
Theorem backup_log_is_truthful clock fs0 :
  let bp := backupPath rt clock in
  let fs' := (backupDatabase rt clock fs0).1 in
  let log := (backupDatabase rt clock fs0).2 in
  (log = ["✅ Database backed up to " ++ bp]
   /\ exists content, files fs0 !! DB_PATH rt = Some content
                      /\ files fs' = <[bp := content]> (files fs0))
  \/ (files fs' = files fs0
      /\ ((log = ["⚠️ Database file not found, skipping backup"]
           /\ files fs0 !! DB_PATH rt = None)
          \/ exists code, log = ["❌ Error backing up database: " ++ code])).
Proof.
  cbv zeta. rewrite backupDatabase_eq. cbv zeta.
  set (fs1 := ensure_dir fs0 (backupDir rt)).
  assert (Hfiles : files fs1 = files fs0) by apply files_ensure_dir.
  destruct (existsSync fs1 (DB_PATH rt)) eqn:Hsrc.
  - destruct (copyFileSync fs1 (DB_PATH rt) (backupDir rt) (backupPath rt clock))
      as [code|fs2] eqn:Hcopy; cbn [fst snd].
    + right. split; [done|]. right. by exists code.
    + left. split; [done|].
      apply copy_done in Hcopy as (content & Hfile & _ & _ & ->).
      exists content. rewrite <- Hfiles. done.
  - cbn [fst snd]. right. split; [done|]. left. split; [done|].
    destruct (files fs0 !! DB_PATH rt) as [content|] eqn:E; [|done].
    rewrite <- Hfiles in E. apply existsSync_file in E. congruence.
Qed.


Lemma append_inv_head (a b c : string) : a ++ b = a ++ c -> b = c.
Proof. induction a as [|x a IH]; [done|]. rewrite !append_cons. intros [= H]. by apply IH. Qed.

Lemma append_inv_tail (a : string) : forall b c,
  String.length a = String.length b -> a ++ c = b ++ c -> a = b.
Proof.
  induction a as [|x a IH]; intros [|y b] c Hlen; cbn in Hlen; try done.
  rewrite !append_cons. intros [= -> H]. f_equal. by apply (IH b c); [lia|].
Qed.

Lemma iso_date_length t : four_digit_year t -> String.length (iso_date t) = 10%nat.
Proof.
  intros H. rewrite iso_date_date_string by done.
  by apply length_date_string, date_of_four_digit_year.
Qed.

Lemma backupPath_inj t1 t2 :
  four_digit_year t1 -> four_digit_year t2 ->
  backupPath rt t1 = backupPath rt t2 -> Day t1 = Day t2.
Proof.
  intros H1 H2 E. unfold backupPath in E.
  apply append_inv_head, append_inv_head, append_inv_tail in E;
    [|by rewrite !iso_date_length].
  apply Z.compare_eq. rewrite <- iso_date_compare by done. rewrite E. apply compare_refl.
Qed.

(** X12.  For instants of four-digit years, two backups go to the same
    file exactly when they are made on the same UTC day; backups a timer
    interval (24 hours) or more apart never share a file. *)
Theorem one_backup_file_per_day t1 t2 :
  four_digit_year t1 -> four_digit_year t2 ->
  (backupPath rt t1 = backupPath rt t2 <-> Day t1 = Day t2)
  /\ (t1 + backup_interval <= t2 -> backupPath rt t1 <> backupPath rt t2).
Proof.
  intros H1 H2. split; [split|].
  - by apply backupPath_inj.
  - apply backupPath_same_day.
  - intros Hlate E. apply backupPath_inj in E; [|done..].
    unfold Day, backup_interval, msPerDay in *. Z.div_mod_to_equations; lia.
Qed.

End BackupTheorems.


Lemma one_backup_file_per_day_witness :
  (backupPath utc_runtime 1719835200123 = backupPath utc_runtime 1719921600123
   <-> Calendar.Day 1719835200123 = Calendar.Day 1719921600123)
  /\ (1719835200123 + backup_interval <= 1719921600123 ->
      backupPath utc_runtime 1719835200123 <> backupPath utc_runtime 1719921600123).
Proof.
  apply (one_backup_file_per_day utc_runtime 1719835200123 1719921600123);
    vm_compute; split; discriminate.
Defined.

(** ** The loop of the analytics *)

Section AnalyticsTheorems.

Lemma forEach_addService_after_shadow rows sp :
  hasOwn sp "hasOwnProperty" = true ->
  forEach_addService rows sp = if rows is [] then Some sp else None.
Proof.
  intros H. destruct rows as [|t rows]; [done|]. cbn.
  pose proof (addService_keys sp t) as Hstep. rewrite H in Hstep. by rewrite Hstep.
Qed.

Lemma forEach_addService_throws rows : forall sp,
  hasOwn sp "hasOwnProperty" = false ->
  (forEach_addService rows sp = None
   <-> exists before t after,
         rows = (before ++ t :: after)%list
         /\ Transaction.service t = "hasOwnProperty" /\ after <> []).
Proof.
  induction rows as [|t rows IH]; intros sp Hsp.
  - split; [done|]. intros (before & t & after & E & _). by destruct before.
  - cbn [forEach_addService].
    pose proof (addService_keys sp t) as Hstep. rewrite Hsp in Hstep.
    destruct Hstep as (sp' & -> & Hkeys). cbn.
    destruct (String.eqb_spec (Transaction.service t) "hasOwnProperty") as [Et|Hne].
    + assert (Hsp' : hasOwn sp' "hasOwnProperty" = true).
      { rewrite Hkeys, Et. cbn. apply orb_true_r. }
      rewrite forEach_addService_after_shadow by done.
      destruct rows as [|t' rows'].
      * split; [done|]. intros (before & t0 & after & E & _ & Hafter).
        destruct before as [|b [|b' before]]; cbn in E; [|done..].
        injection E as _ <-. done.
      * split; [|done]. intros _. by exists [], t, (t' :: rows').
    + assert (Hsp' : hasOwn sp' "hasOwnProperty" = false).
      { rewrite Hkeys, Hsp. rewrite (eqb_ne _ _ Hne). by rewrite andb_false_r. }
      rewrite (IH sp' Hsp'). split.
      * intros (before & t0 & after & -> & Ht0 & Hafter).
        by exists (t :: before), t0, after.
      * intros (before & t0 & after & E & Ht0 & Hafter).
        destruct before as [|b before]; cbn in E; injection E as -> ->; [done|].
        by exists before, t0, after.
Qed.

(** X13.  The loop of GET /api/analytics throws exactly when a selected
    row other than the last has the service [hasOwnProperty] (its amount
    then shadows the method the next row calls), and GET /api/analytics
    sends no reply exactly then. *)
Theorem analytics_throws_exactly rt clock db filter :
  let rows := List.filter (in_window (spec_window rt clock filter)) (transactions db) in
  (computeAnalytics rows = None
   <-> exists before t after,
         rows = (before ++ t :: after)%list
         /\ Transaction.service t = "hasOwnProperty" /\ after <> [])
  /\ (analytics rt clock db filter = Threw <-> computeAnalytics rows = None).
Proof.
  cbv zeta. split.
  - rewrite <- (forEach_addService_throws _ seeded_services eq_refl).
    unfold computeAnalytics. fold seeded_services.
    by destruct (forEach_addService _ seeded_services).
  - unfold analytics. rewrite analytics_rows_window.
    by destruct (computeAnalytics _).
Qed.

(** X14.  When the analytics are computed, servicePerformance has exactly
    these entries: the three seeded services and every service of a row
    considered, except [__proto__], which never becomes an entry. *)
Theorem services_of_the_dashboard rows a :
  computeAnalytics rows = Some a ->
  forall k, hasOwn (servicePerformance a) k = true
            <-> k ∈ ["Photography"; "Makeup"; "Product Sales"]
                \/ (k <> "__proto__" /\ exists r, r ∈ rows /\ Transaction.service r = k).
Proof.
  unfold computeAnalytics. fold seeded_services.
  destruct (forEach_addService rows seeded_services) as [sp|] eqn:Hrun; [|done].
  cbn. intros [= <-] k. cbn [servicePerformance].
  rewrite (forEach_addService_keys _ _ _ Hrun k).
  rewrite orb_true_iff, andb_true_iff, negb_true_iff, existsb_exists.
  split.
  - intros [Hseed|[Hk (r & Hr & E)]].
    + left. unfold seeded_services, hasOwn in Hseed. cbn [existsb fst] in Hseed.
      destruct (String.eqb_spec "Photography" k) as [E|_]; [rewrite <- E; left|].
      destruct (String.eqb_spec "Makeup" k) as [E|_]; [rewrite <- E; right; left|].
      destruct (String.eqb_spec "Product Sales" k) as [E|_]; [|done].
      rewrite <- E. do 2 right. left.
    + right. apply String.eqb_neq in Hk. split; [done|]. exists r.
      split; [by apply list_elem_of_In|by apply String.eqb_eq].
  - intros [Hseed|[Hk (r & Hr & E)]].
    + left.
      apply elem_of_cons in Hseed as [->|Hseed]; [done|].
      apply elem_of_cons in Hseed as [->|Hseed]; [done|].
      by apply list_elem_of_singleton in Hseed as ->.
    + right. split; [by apply String.eqb_neq|]. exists r.
      split; [by apply list_elem_of_In|by apply String.eqb_eq].
Qed.

End AnalyticsTheorems.

Lemma services_of_the_dashboard_witness :
  hasOwn [("Photography", 100%float); ("Makeup", 0%float); ("Product Sales", 0%float);
          ("Braids", 30%float)] "Braids" = true
  <-> "Braids" ∈ ["Photography"; "Makeup"; "Product Sales"]
      \/ ("Braids" <> "__proto__"
          /\ exists r, r ∈ [first_sale; second_sale; sale "__proto__" 5]
                       /\ Transaction.service r = "Braids").
Proof.
  apply (services_of_the_dashboard [first_sale; second_sale; sale "__proto__" 5]
           {| totalIncome := 135; totalExpenses := 20; netIncome := 115;
              servicePerformance := [("Photography", 100%float); ("Makeup", 0%float);
                                     ("Product Sales", 0%float); ("Braids", 30%float)];
              transactionCount := 3 |}).
  vm_compute. reflexivity.
Defined.

(** ** Handlers one after the other *)

Section Compositions.

Import Calendar.

Variable rt : Runtime.

(** X15.  Of two selected transactions stamped by the server at different
    instants (four-digit years), GET /api/transactions and the export list
    the one created later before the other. *)
Theorem later_sale_is_listed_first clock db filter a b ta tb :
  a ∈ transactions db -> b ∈ transactions db ->
  in_window (spec_window rt clock filter) a = true ->
  in_window (spec_window rt clock filter) b = true ->
  four_digit_year ta -> four_digit_year tb ->
  Transaction.timestamp a = toISOString ta -> Transaction.timestamp b = toISOString tb ->
  ta < tb ->
  exists rows,
    listTransactions_rows rt clock db filter = Some rows
    /\ export_rows rt clock db filter = Some rows
    /\ comes_before b a rows.
Proof.
  intros Ha Hb Hwa Hwb Hta Htb Ea Eb Hlt.
  eexists. split; [apply listTransactions_rows_window|].
  split; [apply export_rows_window|].
  apply (sorted_comes_before newer_first).
  - apply newer_first_trans.
  - apply order_by_timestamp_desc_sorted.
  - apply leb_refl.
  - unfold order_by_timestamp_desc. rewrite order_by_Permutation.
    apply list_elem_of_In, filter_In. split; [by apply list_elem_of_In|done].
  - unfold order_by_timestamp_desc. rewrite order_by_Permutation.
    apply list_elem_of_In, filter_In. split; [by apply list_elem_of_In|done].
  - unfold newer_first. rewrite Ea, Eb. by rewrite toISOString_ltb.
Qed.

Lemma order_by_timestamp_desc_nil : order_by_timestamp_desc [] = [].
Proof. reflexivity. Qed.

(** X16.  After a confirmed clear every reader finds nothing: the lists
    of transactions and of messages are empty for every period and clock,
    the analytics are 0 throughout with the three seeded services, the CSV
    export is the header row alone; the sequences of rowids are kept. *)
Theorem cleared_server_is_empty clock w :
  let w' := (clearAllData rt clock w (JStr "YES_DELETE_ALL_DATA")).1 in
  transactions_seq (db w') = transactions_seq (db w)
  /\ messages_seq (db w') = messages_seq (db w)
  /\ listMessages (db w') = Json 200 (JArr [])
  /\ forall clock' filter,
       listTransactions rt clock' (db w') filter = Json 200 (JArr [])
       /\ analytics rt clock' (db w') filter
          = Json 200 (analytics_json {| totalIncome := 0; totalExpenses := 0; netIncome := 0;
                                        servicePerformance := seeded_services;
                                        transactionCount := 0 |})
       /\ exportTransactions rt clock' (db w') filter (Some "csv")
          = Csv ("business_export_" ++ filter_or_all filter ++ "_" ++ iso_date clock' ++ ".csv")
                csv_header.
Proof.
  cbv zeta. rewrite clear_right_token. cbn [fst db transactions_seq messages_seq].
  do 2 (split; [reflexivity|]). split; [reflexivity|].
  intros clock' filter.
  unfold listTransactions, analytics, exportTransactions.
  rewrite listTransactions_rows_window, analytics_rows_window, export_rows_window.
  cbn [transactions List.filter]. rewrite order_by_timestamp_desc_nil.
  split; [reflexivity|]. split; [reflexivity|].
  change (filter_is (Some "csv") "csv") with true. cbv iota.
  by rewrite split_T_0_toISOString.
Qed.

Lemma field_cons_eq k v fields : field k ((k, v) :: fields) = Some v.
Proof. unfold field. cbn. by rewrite String.eqb_refl. Qed.

(** X17.  For every format other than [csv] (none included) the export
    answers 200 with the rows GET /api/transactions lists, in that order,
    and a summary of six fields: the number of those rows, the sums of
    their amounts and expenses (added newest first), the difference of the
    sums, the ISO timestamp of the clock and the period as sent ([all] when
    none); the number equals the transactionCount of the analytics. *)
Theorem export_json_summary clock db filter format :
  filter_is format "csv" = false ->
  exists rows summary,
    exportTransactions rt clock db filter format
    = Json 200 (JObj [("summary", JObj summary); ("transactions", JArr (map row_json rows))])
    /\ listTransactions rt clock db filter = Json 200 (JArr (map row_json rows))
    /\ map fst summary = ["totalTransactions"; "totalIncome"; "totalExpenses"; "netProfit";
                          "exportDate"; "filter"]
    /\ field "totalTransactions" summary = Some (jnum (Number.of_Z (Z.of_nat (length rows))))
    /\ field "totalIncome" summary
       = Some (jnum (float_sum 0 (map Transaction.amountPaid rows)))
    /\ field "totalExpenses" summary
       = Some (jnum (float_sum 0 (map Transaction.expenses rows)))
    /\ field "netProfit" summary
       = Some (jnum (float_sum 0 (map Transaction.amountPaid rows)
                     - float_sum 0 (map Transaction.expenses rows))%float)
    /\ field "exportDate" summary = Some (jstr (toISOString clock))
    /\ field "filter" summary = Some (jstr (filter_or_all filter))
    /\ (forall considered a,
          analytics_rows rt clock db filter = Some considered ->
          computeAnalytics considered = Some a ->
          transactionCount a = Z.of_nat (length rows)).
Proof.
  intros Hformat. unfold exportTransactions, listTransactions.
  rewrite export_rows_window, listTransactions_rows_window, analytics_rows_window, Hformat.
  set (selected := List.filter _ _).
  eexists _, _. split; [reflexivity|]. split; [reflexivity|].
  rewrite <- !reduce_sum_float_sum.
  do 7 (split; [reflexivity|]).
  intros considered a [= <-]. unfold computeAnalytics.
  destruct (forEach_addService _ _); [|done]. cbn. intros [= <-]. cbn.
  f_equal. unfold order_by_timestamp_desc. by rewrite order_by_Permutation.
Qed.

Lemma yesterday_four_digits clock :
  ordinary_clock rt clock ->
  four_digit_date (civil_from_days (Day (LocalTime rt clock) - 1)).
Proof.
  intros [_ Hy]. unfold YearFromTime in Hy.
  set (n := Day (LocalTime rt clock)) in *.
  destruct (civil_from_days n) as [[y m] d] eqn:E. cbn [fst snd] in Hy.
  pose proof (days_from_civil_january _ _ _ _ E) as Hjan.
  pose proof (civil_from_days_mono (n - 1) n ltac:(lia)) as Hup.
  assert (Hlow : days_from_civil (y - 1) 1 1 <= n - 1).
  { rewrite !days_from_civil_march in *. change (1 <=? 2) with true in *. cbv iota in *.
    pose proof (march_first_year (y - 1 - 1)).
    replace (y - 1 - 1 + 1) with (y - 1) in * by lia. lia. }
  apply civil_from_days_mono in Hlow. rewrite civil_from_days_january in Hlow.
  rewrite E in Hup.
  destruct (civil_from_days (n - 1)) as [[y' m'] d'] eqn:E'.
  apply civil_from_days_spec in E'.
  unfold four_digit_date, lex_le in *. cbn [fst snd] in *. lia.
Qed.

(** X18.  A sale entered with today's local date, read by [Date.parse] as
    midnight UTC, is in the list of day right after it was stored exactly
    when the server's zone is at or east of Greenwich; west of it the sale
    is stored under yesterday's date and missing from today's list. *)
Theorem sale_dated_today clock db cn pn sv amt sb exp :
  cn <> EmptyString -> pn <> EmptyString -> sv <> EmptyString -> sb <> EmptyString ->
  truthy (JNum amt) = true ->
  ordinary_clock rt clock -> - msPerDay <= LocalTZA rt < msPerDay ->
  let today := formatDate rt (OfDate (Some clock)) in
  Date_parse rt today = Some (MakeDate (Day (LocalTime rt clock)) 0) ->
  let r := sale_row rt clock db cn pn sv amt sb exp (JStr today) in
  exists db' resp rows,
    createTransaction rt clock db (sale_body cn pn sv amt sb exp (JStr today))
    = (Some db', Json 200 resp)
    /\ r ∈ transactions db'
    /\ listTransactions_rows rt clock db' (Some "day") = Some rows
    /\ (r ∈ rows <-> 0 <= LocalTZA rt).
Proof.
  intros Hcn Hpn Hsv Hsb Hamt Hclock Htz today Hparse r.
  assert (Htoday : today = date_string (civil_from_days (Day (LocalTime rt clock)))).
  { unfold today. by rewrite formatDate_OfDate. }
  pose proof (today_four_digits rt clock Hclock) as H4.
  pose proof (yesterday_four_digits clock Hclock) as H4'.
  assert (Hne : today <> EmptyString).
  { intros E. apply (f_equal String.length) in E.
    rewrite Htoday, length_date_string in E by done. done. }
  destruct (listed_iff_in_window rt clock (with_transaction db r) (Some "day") r)
    as (rows & Hrows & Hiff).
  exists (with_transaction db r). eexists. exists rows.
  assert (Hin : r ∈ transactions (with_transaction db r)).
  { cbn [transactions with_transaction]. apply elem_of_app. right.
    by apply list_elem_of_singleton. }
  split; [apply createTransaction_sale; try done; by apply truthy_JStr|].
  split; [done|]. split; [done|].
  rewrite Hiff. 
  assert (Hdate : Transaction.date r
                  = date_string (civil_from_days
                      (if 0 <=? LocalTZA rt then Day (LocalTime rt clock)
                       else Day (LocalTime rt clock) - 1))).
  { cbn [r sale_row Transaction.date]. rewrite formatDate_new_Date. cbn [new_Date].
    rewrite Hparse. unfold local_date. by rewrite Day_LocalTime_midnight. }
  change (spec_window rt clock (Some "day")) with (DateIs (local_date rt (Some clock))).
  cbn [in_window local_date]. rewrite Hdate, String.eqb_eq.
  destruct (Z.leb_spec 0 (LocalTZA rt)) as [Hpos|Hneg].
  - split; [done|]. done.
  - split; [|lia]. intros [_ Heq].
    apply date_string_inj, civil_from_days_inj in Heq; [lia|done..].
Qed.

End Compositions.

Lemma later_sale_is_listed_first_witness :
  exists rows,
    listTransactions_rows lagos_runtime 1719835500123 two_sales (Some "week") = Some rows
    /\ export_rows lagos_runtime 1719835500123 two_sales (Some "week") = Some rows
    /\ comes_before second_sale first_sale rows.
Proof.
  apply (later_sale_is_listed_first lagos_runtime 1719835500123 two_sales (Some "week")
           first_sale second_sale 1719835200123 1719835260123).
  - apply elem_of_cons. by left.
  - apply elem_of_cons. right. apply elem_of_cons. by left.
  - vm_compute. reflexivity.
  - vm_compute. reflexivity.
  - vm_compute. split; discriminate.
  - vm_compute. split; discriminate.
  - vm_compute. reflexivity.
  - vm_compute. reflexivity.
  - reflexivity.
Defined.

Lemma export_json_summary_witness :
  exists rows summary,
    exportTransactions lagos_runtime 1719835500123 two_sales (Some "day") None
    = Json 200 (JObj [("summary", JObj summary); ("transactions", JArr (map row_json rows))])
    /\ listTransactions lagos_runtime 1719835500123 two_sales (Some "day")
       = Json 200 (JArr (map row_json rows))
    /\ map fst summary = ["totalTransactions"; "totalIncome"; "totalExpenses"; "netProfit";
                          "exportDate"; "filter"]
    /\ field "totalTransactions" summary = Some (jnum (Number.of_Z (Z.of_nat (length rows))))
    /\ field "totalIncome" summary
       = Some (jnum (float_sum 0 (map Transaction.amountPaid rows)))
    /\ field "totalExpenses" summary
       = Some (jnum (float_sum 0 (map Transaction.expenses rows)))
    /\ field "netProfit" summary
       = Some (jnum (float_sum 0 (map Transaction.amountPaid rows)
                     - float_sum 0 (map Transaction.expenses rows))%float)
    /\ field "exportDate" summary = Some (jstr (toISOString 1719835500123))
    /\ field "filter" summary = Some (jstr (filter_or_all (Some "day")))
    /\ (forall considered a,
          analytics_rows lagos_runtime 1719835500123 two_sales (Some "day") = Some considered ->
          computeAnalytics considered = Some a ->
          transactionCount a = Z.of_nat (length rows)).
Proof.
  apply (export_json_summary lagos_runtime 1719835500123 two_sales (Some "day") None).
  reflexivity.
Defined.

Lemma sale_dated_today_witness :
  let r := sale_row lagos_runtime 1719835200123 empty_database "A" "1" "X" 10 "B" None
             (JStr (formatDate lagos_runtime (OfDate (Some 1719835200123)))) in
  exists db' resp rows,
    createTransaction lagos_runtime 1719835200123 empty_database
      (sale_body "A" "1" "X" 10 "B" None
         (JStr (formatDate lagos_runtime (OfDate (Some 1719835200123)))))
    = (Some db', Json 200 resp)
    /\ r ∈ transactions db'
    /\ listTransactions_rows lagos_runtime 1719835200123 db' (Some "day") = Some rows
    /\ (r ∈ rows <-> 0 <= LocalTZA lagos_runtime).
Proof.
  apply (sale_dated_today lagos_runtime 1719835200123 empty_database "A" "1" "X" 10 "B" None);
    try (discriminate || reflexivity).
  - split; vm_compute; [discriminate | split; discriminate].
  - vm_compute. split; [discriminate|reflexivity].
Defined.

(** West of Greenwich a sale entered with today's date is not in today's list. *)
Example sale_of_today_in_New_York :
  let clock := 1719835200123 in
  let today := formatDate new_york_runtime (OfDate (Some clock)) in
  today = "2024-07-01"
  /\ exists db' resp,
       createTransaction new_york_runtime clock empty_database
         (sale_body "A" "1" "X" 10 "B" None (JStr today)) = (Some db', Json 200 resp)
       /\ map Transaction.date (transactions db') = ["2024-06-30"]
       /\ listTransactions new_york_runtime clock db' (Some "day") = Json 200 (JArr []).
Proof.
  cbv zeta. split; [vm_compute; reflexivity|].
  do 2 eexists. split; [vm_compute; reflexivity|]. split; vm_compute; reflexivity.
Qed.

(** Three sales whose amounts the analytics add up in table order and the
    JSON export newest first: the two totals differ in the last digit. *)
Example totals_of_export_and_analytics :
  let stamped id amount timestamp :=
    {| Transaction.id := id; Transaction.customerName := "A"; Transaction.phoneNumber := "1";
       Transaction.service := "X"; Transaction.amountPaid := amount; Transaction.serviceBy := "B";
       Transaction.expenses := 0; Transaction.date := "2024-01-01";
       Transaction.timestamp := timestamp |} in
  let db := {| transactions := [stamped 1 0.1%float "2024-01-01T09:00:00.000Z";
                                stamped 2 0.2%float "2024-01-01T10:00:00.000Z";
                                stamped 3 0.3%float "2024-01-01T11:00:00.000Z"];
               transactions_seq := 3; messages := []; messages_seq := 0 |} in
  (totalIncome <$> (analytics_rows utc_runtime 1719835200123 db None ≫= computeAnalytics))
  = Some 0.6000000000000001%float
  /\ (reduce_sum Transaction.amountPaid <$> export_rows utc_runtime 1719835200123 db None)
     = Some 0.6%float.
Proof. split; vm_compute; reflexivity. Qed.

(** ** The CSV export read back *)

Section CsvFacts.

Lemma lacks_app c a b : lacks c (a ++ b) = lacks c a && lacks c b.
Proof.
  induction a as [|x a IH]; [done|]. rewrite append_cons. cbn [lacks].
  rewrite IH. by rewrite andb_assoc.
Qed.

Lemma lacks_substring c s : forall n m, lacks c s = true -> lacks c (substring n m s) = true.
Proof.
  induction s as [|x s IH]; intros n m H.
  - by destruct n, m.
  - cbn [lacks] in H. apply andb_true_iff in H as [Hx Hs].
    destruct n as [|n]; cbn [substring].
    + destruct m as [|m]; [done|]. cbn [lacks]. rewrite Hx. by apply IH.
    + by apply IH.
Qed.

Lemma lacks_uint c d :
  lacks c "0123456789" = true -> lacks c (NilEmpty.string_of_uint d) = true.
Proof.
  intros H. cbn in H.
  repeat (apply andb_true_iff in H as [? H]).
  induction d; cbn [NilEmpty.string_of_uint lacks]; rewrite ?IHd; try done;
    by repeat (apply andb_true_iff; split).
Qed.

Lemma lacks_of_Z c z :
  lacks c "-0123456789" = true -> lacks c (Str.of_Z z) = true.
Proof.
  intros H. change "-0123456789" with ("-" ++ "0123456789") in H.
  rewrite lacks_app in H. apply andb_true_iff in H as [Hm Hd].
  assert (H0 : lacks c "0" = true).
  { cbn in Hd. apply andb_true_iff in Hd as [Hd _]. cbn. by rewrite Hd. }
  unfold Str.of_Z, NilZero.string_of_int, NilZero.string_of_uint.
  destruct (Z.to_int z) as [d|d].
  - destruct d; try done; by apply (lacks_uint c (_ d)).
  - change (String "-" ?s) with ("-" ++ s). rewrite lacks_app, Hm. cbn [andb].
    destruct d; try done; by apply (lacks_uint c (_ d)).
Qed.

Lemma lacks_zeros c n : lacks c "0" = true -> lacks c (Number.zeros n) = true.
Proof.
  intros H. unfold Number.zeros.
  induction (Z.to_nat n) as [|k IH]; [done|]. cbn [repeat].
  destruct (repeat "0" k) as [|s l]; [done|].
  change (String.concat EmptyString ("0" :: s :: l))
    with ("0" ++ EmptyString ++ String.concat EmptyString (s :: l)).
  by rewrite !lacks_app, IH, H.
Qed.

(** The text of a number holds digits, signs, a point, an [e], or one of
    the words [NaN] and [Infinity]. *)
Lemma lacks_toString c x :
  lacks c "-0123456789.e+NaNInfinity" = true -> lacks c (Number.toString x) = true.
Proof.
  intros H.
  change "-0123456789.e+NaNInfinity" with ("-0123456789" ++ ".e+" ++ "NaN" ++ "Infinity") in H.
  rewrite !lacks_app in H.
  apply andb_true_iff in H as [Hd H]. apply andb_true_iff in H as [Hp H].
  apply andb_true_iff in H as [Hnan Hinf].
  assert (Hminus : lacks c "-" = true).
  { cbn in Hd. apply andb_true_iff in Hd as [Hd _]. cbn. by rewrite Hd. }
  assert (H0 : lacks c "0" = true).
  { cbn in Hd. apply andb_true_iff in Hd as [_ Hd]. apply andb_true_iff in Hd as [Hd _].
    cbn. by rewrite Hd. }
  assert (Hpoint : lacks c "." = true).
  { cbn in Hp. apply andb_true_iff in Hp as [Hp _]. cbn. by rewrite Hp. }
  assert (He : lacks c "e" = true /\ lacks c "+" = true).
  { cbn in Hp. apply andb_true_iff in Hp as [_ Hp]. apply andb_true_iff in Hp as [Hp1 Hp].
    apply andb_true_iff in Hp as [Hp2 _]. cbn. by rewrite Hp1, Hp2. }
  destruct He as [He Hplus].
  assert (Hexp : forall n, lacks c (Number.exponent_part n) = true).
  { intros n. unfold Number.exponent_part.
    rewrite !lacks_app, He, (lacks_of_Z c _ Hd).
    destruct (0 <=? n - 1); by rewrite ?Hplus, ?Hminus. }
  assert (Hrender : forall s k n, lacks c (Number.render s k n) = true).
  { intros s k n. unfold Number.render. cbv zeta.
    repeat match goal with |- context [if ?b then _ else _] => destruct b end;
      rewrite ?lacks_app, ?Hexp, ?Hpoint, ?H0, ?(lacks_zeros c _ H0), ?(lacks_of_Z c _ Hd),
        ?(lacks_substring c _ _ _ (lacks_of_Z c _ Hd)); try done.
    change "0." with ("0" ++ "."). by rewrite lacks_app, H0, Hpoint. }
  assert (Hpos : forall y, lacks c (Number.toString_pos y) = true).
  { intros y. unfold Number.toString_pos.
    destruct (Number.ratio_of y) as [[num den]|]; [|done].
    cbv zeta. destruct (Number.shortest _ _ _ _ _ _) as [s k].
    by destruct (s =? 10 ^ k). }
  unfold Number.toString.
  destruct (Number.isNaN x); [done|]. destruct (PrimFloat.eqb x 0); [done|].
  destruct (PrimFloat.ltb x 0); [|done].
  change ("-" ++ ?s) with (String "-" s) in *. cbn [lacks] in *.
  apply andb_true_iff in Hminus as [-> _]. apply Hpos.
Qed.

Lemma quote_free_toString x : lacks quote_char (Number.toString x) = true.
Proof. by apply lacks_toString. Qed.

(** A field between double quotes is read back when it has none itself. *)
Lemma read_quoted_field f : forall cur row rows rest,
  lacks quote_char f = true ->
  read_csv Quoted cur row rows (f ++ String quote_char rest)
  = read_csv QuoteSeen (cur ++ f) row rows rest.
Proof.
  induction f as [|x f IH]; intros cur row rows rest H.
  - by rewrite append_nil_r.
  - cbn [lacks] in H. apply andb_true_iff in H as [Hx Hf].
    rewrite append_cons. cbn [read_csv].
    apply negb_true_iff in Hx. rewrite Hx.
    rewrite IH by done. by rewrite append_assoc.
Qed.

Lemma read_field f row rows rest :
  lacks quote_char f = true ->
  read_csv FieldStart EmptyString row rows (quoted f ++ rest)
  = read_csv QuoteSeen f row rows rest.
Proof.
  intros H. unfold quoted, Str.dquote. rewrite !append_assoc.
  change (String (ascii_of_nat 34) EmptyString ++ ?s) with (String quote_char s).
  cbn [read_csv]. change (Ascii.eqb quote_char quote_char) with true. cbv iota.
  change (String (ascii_of_nat 34) EmptyString ++ rest) with (String quote_char rest).
  by rewrite read_quoted_field.
Qed.

(** A row of quoted fields, ended by a line break, is read as one record. *)
Lemma read_fields fs : forall f row rows rest,
  Forall (fun f => lacks quote_char f = true) (f :: fs) ->
  read_csv FieldStart EmptyString row rows
    (String.concat "," (map quoted (f :: fs)) ++ Str.newline ++ rest)
  = read_csv FieldStart EmptyString [] (rev (rev (f :: fs) ++ row) :: rows) rest.
Proof.
  induction fs as [|f' fs IH]; intros f row rows rest Hall.
  - apply Forall_cons in Hall as [Hf _]. cbn [map String.concat].
    rewrite read_field by done. reflexivity.
  - apply Forall_cons in Hall as [Hf Hall].
    change (String.concat "," (map quoted (f :: f' :: fs)))
      with (quoted f ++ "," ++ String.concat "," (map quoted (f' :: fs))).
    rewrite !append_assoc. rewrite read_field by done.
    change ("," ++ ?s) with (String "," s). cbn [read_csv].
    change (Ascii.eqb "," quote_char) with false. change (Ascii.eqb "," ",") with true.
    cbv iota. rewrite IH by done.
    cbn [rev]. by rewrite <- !app_assoc.
Qed.

Lemma read_header rest :
  read_csv FieldStart EmptyString [] [] (csv_header ++ rest)
  = read_csv FieldStart EmptyString [] [header_fields] rest.
Proof. reflexivity. Qed.

Lemma quote_free_csv_fields r :
  Forall (fun f => lacks quote_char f = true) (text_fields r) ->
  Forall (fun f => lacks quote_char f = true) (csv_fields r).
Proof.
  unfold text_fields, csv_fields. intros H.
  repeat (apply Forall_cons in H as [? H]).
  repeat (apply Forall_cons; split); try done; apply quote_free_toString.
Qed.

Lemma read_lines rows : forall acc,
  Forall (fun r => Forall (fun f => lacks quote_char f = true) (text_fields r)) rows ->
  read_csv FieldStart EmptyString [] acc (String.concat EmptyString (map spec_csv_line rows))
  = Some (rev acc ++ map csv_fields rows)%list.
Proof.
  induction rows as [|r rows IH]; intros acc Hall.
  - cbn. by rewrite app_nil_r.
  - apply Forall_cons in Hall as [Hr Hall].
    assert (E : String.concat EmptyString (map spec_csv_line (r :: rows))
                = spec_csv_line r ++ String.concat EmptyString (map spec_csv_line rows)).
    { cbn [map String.concat]. destruct (map spec_csv_line rows); [|done].
      by rewrite append_nil_r. }
    rewrite E. unfold spec_csv_line at 1. rewrite append_assoc.
    pose proof (quote_free_csv_fields r Hr) as Hq.
    unfold csv_fields in Hq |- *.
    rewrite read_fields by exact Hq.
    rewrite IH by done. rewrite app_nil_r, rev_involutive. cbn [rev].
    by rewrite <- app_assoc.
Qed.

(** X19.  The CSV export reads back: when no stored text of the rows holds
    a double quote, a reader of RFC 4180 reads the text generateCSV writes
    as the header row followed by the nine fields of each row (numbers never
    print a double quote). *)
Theorem csv_export_reads_back rows :
  Forall (fun r => Forall (fun f => lacks quote_char f = true) (text_fields r)) rows ->
  parse_csv (generateCSV rows) = Some (header_fields :: map csv_fields rows).
Proof.
  intros H. unfold parse_csv. rewrite generateCSV_spec. unfold spec_csv.
  rewrite read_header. by rewrite read_lines.
Qed.

End CsvFacts.

Lemma csv_export_reads_back_witness :
  parse_csv (generateCSV [second_sale; first_sale])
  = Some (header_fields :: map csv_fields [second_sale; first_sale]).
Proof.
  apply (csv_export_reads_back [second_sale; first_sale]).
  repeat constructor.
Defined.

(** A customer name with a double quote in it makes the export unreadable,
    and one with quote, comma, quote in it adds a field. *)
Example csv_with_a_quote :
  let named name :=
    {| Transaction.id := 1; Transaction.customerName := name; Transaction.phoneNumber := "1";
       Transaction.service := "X"; Transaction.amountPaid := 10; Transaction.serviceBy := "B";
       Transaction.expenses := 2; Transaction.date := "2024-01-01";
       Transaction.timestamp := "2024-01-01T09:00:00.000Z" |} in
  parse_csv (generateCSV [named ("Ann " ++ Str.dquote ++ "Bee" ++ Str.dquote ++ " Lee")]) = None
  /\ (map (@List.length string)
        <$> parse_csv (generateCSV [named ("Ann" ++ Str.dquote ++ "," ++ Str.dquote ++ "Lee")]))
     = Some [9%nat; 10%nat].
Proof. split; vm_compute; reflexivity. Qed.

(** ** The export of the day, and a sale in the analytics *)

Section MoreCompositions.

Import Calendar.

Variable rt : Runtime.

(** X20.  The CSV export of the period day holds the rows dated today in
    local time and is named after today's date in UTC; the two dates agree
    exactly when the local day and the UTC day of the clock are the same. *)
Theorem export_of_the_day_is_named_in_utc clock db :
  ordinary_clock rt clock -> four_digit_year clock ->
  exists rows,
    exportTransactions rt clock db (Some "day") (Some "csv")
    = Csv ("business_export_day_" ++ iso_date clock ++ ".csv") (generateCSV rows)
    /\ (forall r, r ∈ rows <->
          r ∈ transactions db /\ Transaction.date r = formatDate rt (OfDate (Some clock)))
    /\ (iso_date clock = formatDate rt (OfDate (Some clock))
        <-> Day clock = Day (LocalTime rt clock)).
Proof.
  intros Hclock Hutc. eexists. split; [|split].
  - unfold exportTransactions. rewrite export_rows_window.
    change (filter_is (Some "csv") "csv") with true. cbv iota.
    by rewrite split_T_0_toISOString.
  - intros r. unfold order_by_timestamp_desc. rewrite order_by_Permutation.
    rewrite list_elem_of_In, filter_In, <- list_elem_of_In.
    change (spec_window rt clock (Some "day")) with (DateIs (local_date rt (Some clock))).
    cbn [in_window]. by rewrite String.eqb_eq, formatDate_OfDate.
  - rewrite formatDate_OfDate, iso_date_date_string by done. cbn [local_date].
    split.
    + intros E. apply date_string_inj in E.
      * by apply civil_from_days_inj.
      * by apply date_of_four_digit_year.
      * by apply today_four_digits.
    + by intros ->.
Qed.

Lemma reduce_sum_snoc f rows r :
  reduce_sum f (rows ++ [r]) = (reduce_sum f rows + f r)%float.
Proof. unfold reduce_sum. by rewrite fold_left_app. Qed.

Lemma forEach_addService_snoc rows : forall sp r,
  forEach_addService (rows ++ [r]) sp
  = forEach_addService rows sp ≫= fun sp' => addService sp' r.
Proof.
  induction rows as [|t rows IH]; intros sp r; cbn.
  - by destruct (addService sp r).
  - destruct (addService sp t) as [sp1|]; [|done]. cbn. apply IH.
Qed.


End MoreCompositions.

Lemma export_of_the_day_is_named_in_utc_witness :
  exists rows,
    exportTransactions lagos_runtime 1719876600000 two_sales (Some "day") (Some "csv")
    = Csv ("business_export_day_" ++ iso_date 1719876600000 ++ ".csv") (generateCSV rows)
    /\ (forall r, r ∈ rows <->
          r ∈ transactions two_sales
          /\ Transaction.date r = formatDate lagos_runtime (OfDate (Some 1719876600000)))
    /\ (iso_date 1719876600000 = formatDate lagos_runtime (OfDate (Some 1719876600000))
        <-> Calendar.Day 1719876600000 = Calendar.Day (LocalTime lagos_runtime 1719876600000)).
Proof.
  apply (export_of_the_day_is_named_in_utc lagos_runtime 1719876600000 two_sales).
  - split; vm_compute; [discriminate | split; discriminate].
  - vm_compute. split; discriminate.
Defined.


(** ** The periods as ranges of days *)

Section WindowRanges.

Import Calendar.

Variable rt : Runtime.

(** A month is 28 to 31 days long, a year 365 or 366. *)
Lemma MakeDay_month_length y m d :
  0 <= m <= 11 -> 28 <= MakeDay y m d - MakeDay y (m - 1) d <= 31.
Proof.
  intros Hm. unfold MakeDay.
  pose proof (march_first_year (y - 2)). pose proof (march_first_year (y - 1)).
  replace (y - 2 + 1) with (y - 1) in * by lia.
  replace (y - 1 + 1) with y in * by lia.
  replace (m / 12) with 0 by (Z.div_mod_to_equations; lia).
  replace (m mod 12) with m by (Z.div_mod_to_equations; lia).
  destruct (Z.eq_dec m 0) as [->|].
  - change ((0 - 1) / 12) with (-1). change ((0 - 1) mod 12 + 1) with 12.
    rewrite !days_from_civil_march.
    change (12 <=? 2) with false. change (2 <? 12) with true.
    change (0 + 1 <=? 2) with true. change (2 <? 0 + 1) with false.
    cbv iota.
    replace (y + -1) with (y - 1) by lia.
    replace (y + 0 - 1) with (y - 1) by lia.
    change ((153 * (12 - 3) + 2) / 5) with 275.
    change ((153 * (0 + 1 + 9) + 2) / 5) with 306.
    lia.
  - replace ((m - 1) / 12) with 0 by (Z.div_mod_to_equations; lia).
    replace ((m - 1) mod 12) with (m - 1) by (Z.div_mod_to_equations; lia).
    rewrite !days_from_civil_march.
    rewrite !Z.add_0_r.
    assert (Hcases : m = 1 \/ m = 2 \/ 3 <= m) by lia.
    destruct Hcases as [->|[->|H3]].
    + change (1 + 1 <=? 2) with true. change (2 <? 1 + 1) with false.
      change (1 - 1 + 1 <=? 2) with true. change (2 <? 1 - 1 + 1) with false. cbv iota.
      change ((153 * (1 + 1 + 9) + 2) / 5) with 337.
      change ((153 * (1 - 1 + 1 + 9) + 2) / 5) with 306. lia.
    + change (2 + 1 <=? 2) with false. change (2 <? 2 + 1) with true.
      change (2 - 1 + 1 <=? 2) with true. change (2 <? 2 - 1 + 1) with false. cbv iota.
      change ((153 * (2 + 1 - 3) + 2) / 5) with 0.
      change ((153 * (2 - 1 + 1 + 9) + 2) / 5) with 337. lia.
    + destruct (Z.leb_spec (m + 1) 2); [lia|]. destruct (Z.ltb_spec 2 (m + 1)); [|lia].
      destruct (Z.leb_spec (m - 1 + 1) 2); [lia|]. destruct (Z.ltb_spec 2 (m - 1 + 1)); [|lia].
      Z.div_mod_to_equations; lia.
Qed.

Lemma MakeDay_year_length y m d :
  0 <= m <= 11 -> 365 <= MakeDay y m d - MakeDay (y - 1) m d <= 366.
Proof.
  intros Hm. unfold MakeDay. rewrite !days_from_civil_march.
  pose proof (march_first_year (y - 2)). pose proof (march_first_year (y - 1)).
  replace (y - 2 + 1) with (y - 1) in * by lia.
  replace (y - 1 + 1) with y in * by lia.
  replace (m / 12) with 0 by (Z.div_mod_to_equations; lia).
  replace (m mod 12) with m by (Z.div_mod_to_equations; lia).
  rewrite !Z.add_0_r. replace (y - 1 - 1) with (y - 2) by lia.
  destruct (m + 1 <=? 2); lia.
Qed.

Lemma window_start_lengths clock :
  let today := Day (LocalTime rt clock) in
  window_start rt clock "week" = today - 7
  /\ 28 <= today - window_start rt clock "month" <= 31
  /\ 365 <= today - window_start rt clock "year" <= 366.
Proof.
  cbv zeta. unfold window_start. cbv zeta.
  destruct (civil_from_days (Day (LocalTime rt clock))) as [[y m] d] eqn:E.
  pose proof (civil_from_days_spec _ _ _ _ E) as (Hm & Hd & Hday).
  assert (Htoday : Day (LocalTime rt clock) = MakeDay y (m - 1) d).
  { unfold MakeDay. replace ((m - 1) / 12) with 0 by (Z.div_mod_to_equations; lia).
    replace ((m - 1) mod 12 + 1) with m by (Z.div_mod_to_equations; lia).
    rewrite Z.add_0_r. lia. }
  change (String.eqb "week" "week") with true.
  change (String.eqb "month" "week") with false. change (String.eqb "month" "month") with true.
  change (String.eqb "year" "week") with false. change (String.eqb "year" "month") with false.
  change (String.eqb "year" "year") with true. cbv iota.
  split; [done|]. rewrite Htoday. split.
  - apply MakeDay_month_length. lia.
  - apply MakeDay_year_length. lia.
Qed.

(** The range of days [local_date_on_local_day] covers. *)
Lemma window_start_range clock period :
  ordinary_clock rt clock ->
  days_from_civil (YearFromTime (LocalTime rt clock) - 1) 1 1
  <= window_start rt clock period <= Day (LocalTime rt clock).
Proof.
  intros [_ Hy]. unfold window_start. cbv zeta.
  destruct (civil_from_days (Day (LocalTime rt clock))) as [[y m] d] eqn:E.
  assert (Ey : YearFromTime (LocalTime rt clock) = y) by (unfold YearFromTime; by rewrite E).
  rewrite Ey.
  pose proof (civil_from_days_spec _ _ _ _ E) as (Hm & Hd & Hday).
  pose proof (days_from_civil_january _ _ _ _ E) as Hjan.
  assert (Hprev : days_from_civil (y - 1) 1 1 <= Day (LocalTime rt clock) - 7).
  { rewrite !days_from_civil_march in *. change (1 <=? 2) with true in *. cbv iota in *.
    pose proof (march_first_year (y - 1 - 1)).
    replace (y - 1 - 1 + 1) with (y - 1) in * by lia. lia. }
  assert (Htoday : MakeDay y (m - 1) d = Day (LocalTime rt clock)).
  { unfold MakeDay. replace ((m - 1) / 12) with 0 by (Z.div_mod_to_equations; lia).
    replace ((m - 1) mod 12 + 1) with m by (Z.div_mod_to_equations; lia).
    rewrite Z.add_0_r. lia. }
  destruct (String.eqb period "week"); [lia|].
  destruct (String.eqb period "month").
  { pose proof (MakeDay_month_before y (m - 1) d ltac:(lia) ltac:(lia)). lia. }
  destruct (String.eqb period "year").
  { pose proof (MakeDay_year_before y (m - 1) d ltac:(lia) ltac:(lia)). lia. }
  lia.
Qed.

(** The windows of the three periods start on the day [window_start] names. *)
Lemma spec_window_start clock period :
  ordinary_clock rt clock -> period ∈ ["week"; "month"; "year"] ->
  spec_window rt clock (Some period)
  = DateFrom (date_string (civil_from_days (window_start rt clock period))).
Proof.
  intros Hclock Hp.
  pose proof (window_start_range clock period Hclock) as Hrange.
  rewrite <- (local_date_on_local_day rt clock _ Hclock Hrange).
  unfold window_start. cbv zeta.
  apply elem_of_cons in Hp as [->|Hp]; [|apply elem_of_cons in Hp as [->|Hp];
    [|apply list_elem_of_singleton in Hp as ->]].
  - destruct (civil_from_days (Day (LocalTime rt clock))) as [[y m] d].
    change (spec_window rt clock (Some "week"))
      with (DateFrom (local_date rt (days_before clock 7))).
    by rewrite (days_before_on_local_day rt).
  - change (spec_window rt clock (Some "month"))
      with (DateFrom (local_date rt (month_before rt clock))).
    unfold month_before.
    by destruct (civil_from_days (Day (LocalTime rt clock))) as [[y m] d].
  - change (spec_window rt clock (Some "year"))
      with (DateFrom (local_date rt (year_before rt clock))).
    unfold year_before.
    by destruct (civil_from_days (Day (LocalTime rt clock))) as [[y m] d].
Qed.

Lemma range_four_digits clock day :
  ordinary_clock rt clock ->
  days_from_civil (YearFromTime (LocalTime rt clock) - 1) 1 1 <= day <= Day (LocalTime rt clock) ->
  four_digit_date (civil_from_days day).
Proof.
  intros [_ Hy] [Hlo Hhi].
  set (lt := LocalTime rt clock) in *.
  destruct (civil_from_days (Day lt)) as [[y m] d] eqn:Etoday.
  assert (Ey : YearFromTime lt = y) by (unfold YearFromTime; by rewrite Etoday).
  rewrite Ey in *.
  destruct (civil_from_days day) as [[y' m'] d'] eqn:Ebound.
  pose proof (civil_from_days_spec _ _ _ _ Ebound) as (Hm' & Hd' & _).
  pose proof (civil_from_days_mono _ _ Hlo) as Hlow.
  pose proof (civil_from_days_mono _ _ Hhi) as Hup.
  rewrite civil_from_days_january, Ebound in Hlow. rewrite Ebound, Etoday in Hup.
  unfold four_digit_date, lex_le in *. cbn [fst snd] in *. lia.
Qed.

(** Dates of four-digit years are in the order of their texts. *)
Lemma date_string_leb n1 n2 :
  four_digit_date (civil_from_days n1) -> four_digit_date (civil_from_days n2) ->
  String.leb (date_string (civil_from_days n1)) (date_string (civil_from_days n2)) = true
  <-> n1 <= n2.
Proof.
  intros H1 H2. unfold String.leb. rewrite date_string_compare by done.
  fold (lex_compare (civil_from_days n1) (civil_from_days n2)).
  rewrite lex_compare_civil.
  destruct (Z.compare_spec n1 n2); split; (done || lia).
Qed.

(** X22.  For a stored row whose date is a calendar date of a four-digit
    year, the periods are ranges of days: the row is in the list of day
    exactly when it is dated today (local time), and in the lists of week,
    month and year exactly when it is dated on or after the day the window
    starts, which is 7 days before today for week (eight dates with
    today), 28 to 31 days before for month and 365 or 366 days before for
    year. *)
Theorem windows_are_calendar_ranges clock db r n :
  ordinary_clock rt clock ->
  r ∈ transactions db ->
  four_digit_date (civil_from_days n) ->
  Transaction.date r = date_string (civil_from_days n) ->
  let today := Day (LocalTime rt clock) in
  (exists rows, listTransactions_rows rt clock db (Some "day") = Some rows
                /\ (r ∈ rows <-> n = today))
  /\ (forall period, period ∈ ["week"; "month"; "year"] ->
        exists rows, listTransactions_rows rt clock db (Some period) = Some rows
                     /\ (r ∈ rows <-> window_start rt clock period <= n))
  /\ window_start rt clock "week" = today - 7
  /\ 28 <= today - window_start rt clock "month" <= 31
  /\ 365 <= today - window_start rt clock "year" <= 366.
Proof.
  intros Hclock Hin H4 Hdate. cbv zeta. split; [|split; [|apply window_start_lengths]].
  - destruct (listed_iff_in_window rt clock db (Some "day") r) as (rows & Hrows & Hiff).
    exists rows. split; [done|]. rewrite Hiff.
    change (spec_window rt clock (Some "day")) with (DateIs (local_date rt (Some clock))).
    cbn [in_window local_date]. rewrite Hdate, String.eqb_eq. split.
    + intros [_ E]. apply date_string_inj in E; [by apply civil_from_days_inj|done|].
      by apply today_four_digits.
    + intros ->. done.
  - intros period Hp.
    destruct (listed_iff_in_window rt clock db (Some period) r) as (rows & Hrows & Hiff).
    exists rows. split; [done|]. rewrite Hiff.
    rewrite spec_window_start by done. cbn [in_window]. rewrite Hdate.
    rewrite date_string_leb; [tauto| |done].
    apply (range_four_digits clock); [done|]. by apply window_start_range.
Qed.

End WindowRanges.

Lemma windows_are_calendar_ranges_witness :
  (exists rows, listTransactions_rows lagos_runtime 1719835500123 two_sales (Some "day") = Some rows
                /\ (first_sale ∈ rows <-> 19905 = Calendar.Day (LocalTime lagos_runtime 1719835500123)))
  /\ (forall period, period ∈ ["week"; "month"; "year"] ->
        exists rows, listTransactions_rows lagos_runtime 1719835500123 two_sales (Some period)
                     = Some rows
                     /\ (first_sale ∈ rows <-> window_start lagos_runtime 1719835500123 period <= 19905))
  /\ window_start lagos_runtime 1719835500123 "week"
     = Calendar.Day (LocalTime lagos_runtime 1719835500123) - 7
  /\ 28 <= Calendar.Day (LocalTime lagos_runtime 1719835500123)
           - window_start lagos_runtime 1719835500123 "month" <= 31
  /\ 365 <= Calendar.Day (LocalTime lagos_runtime 1719835500123)
            - window_start lagos_runtime 1719835500123 "year" <= 366.
Proof.
  apply (windows_are_calendar_ranges lagos_runtime 1719835500123 two_sales first_sale 19905).
  - split; vm_compute; [discriminate | split; discriminate].
  - apply elem_of_cons. by left.
  - vm_compute. repeat split; discriminate.
  - vm_compute. reflexivity.
Defined.
